(** * Titanic Dataset Analyzer: a shallow embedding of [my_app.py]

    The development follows the source file top to bottom:
    - the Python and pandas/plotly primitives the program calls,
    - [load_and_process_data] (preprocessing),
    - [create_visualization] (the chart builder),
    - [TitanicAgent.process_query] (the textual responder),
    - the per-query step of [main].

    Conventions of the model.
    - A query is a byte string; [lower] lowercases the ASCII letters, which
      is what [str.lower] does on ASCII text.
    - A [float64] cell is either [NaN] or a finite value carried as an exact
      rational: comparisons against bin edges are exact, the rounding of
      float arithmetic (mean, median, quantile interpolation) is not
      modelled.
    - Integer cells are mathematical integers (sums are assumed to stay
      inside int64).
    - An f-string is kept as the list of its pieces ([fstring]): literal
      text and the interpolated values with their format specification.
    - A Python call that may raise returns a [result]. *)

From Stdlib Require Import List String Ascii Bool Arith ZArith QArith Lia.
From Stdlib Require Import Qround Permutation Sorted Lqa.
Import ListNotations.

Local Open Scope string_scope.
Local Open Scope list_scope.

(** ** Exceptions *)

Inductive exn : Type :=
| URLError
| EmptyDataError
| KeyError (key : string)
| ValueError (msg : string)
| ZeroDivisionError.

Inductive result (A : Type) : Type :=
| Ok (a : A)
| Raise (e : exn).

Arguments Ok {A} a.
Arguments Raise {A} e.

Definition bind {A B : Type} (c : result A) (k : A -> result B) : result B :=
  match c with
  | Ok a => k a
  | Raise e => Raise e
  end.

Notation "x <- c ;; k" := (bind c (fun x => k))
  (at level 61, c at next level, right associativity).

(** [try: body  except Exception as e: handler e] *)
Definition try_except {A : Type} (body : result A) (handler : exn -> result A)
  : result A :=
  match body with
  | Ok a => Ok a
  | Raise e => handler e
  end.

(** ** Python strings *)

Module Py.

Definition lower_ascii (c : ascii) : ascii :=
  let n := nat_of_ascii c in
  if (65 <=? n)%nat && (n <=? 90)%nat then ascii_of_nat (n + 32) else c.

(** [s.lower()] *)
Fixpoint lower (s : string) : string :=
  match s with
  | EmptyString => EmptyString
  | String c r => String (lower_ascii c) (lower r)
  end.

(** [needle in hay] for strings *)
Fixpoint str_in (needle hay : string) : bool :=
  prefix needle hay ||
  match hay with
  | EmptyString => false
  | String _ r => str_in needle r
  end.

(** [any(term in s for term in terms)] *)
Definition any_in (terms : list string) (s : string) : bool :=
  existsb (fun term => str_in term s) terms.

(** [d.get(key, default)] on a dict with string keys, kept as the list of
    its items. *)
Fixpoint dict_get (d : list (string * string)) (key default : string)
  : string :=
  match d with
  | [] => default
  | (k, v) :: r => if String.eqb k key then v else dict_get r key default
  end.

End Py.

(** ** pandas *)

(** A float64 cell: missing ([NaN]) or a finite value. *)
Inductive float64 : Type :=
| NaN
| Fin (q : Q).

Module Pandas.

(** *** Sorting (stable insertion sort, smallest first under [leb]) *)
Section Sorting.
Context {A : Type} (leb : A -> A -> bool).

Fixpoint insert_sorted (x : A) (l : list A) : list A :=
  match l with
  | [] => [x]
  | y :: r => if leb x y then x :: y :: r else y :: insert_sorted x r
  end.

Definition sort (l : list A) : list A := fold_right insert_sorted [] l.
End Sorting.

(** *** Missing values *)

(** [s.dropna()] on a float64 series *)
Definition dropna (s : list float64) : list Q :=
  flat_map (fun v => match v with NaN => [] | Fin q => [q] end) s.

(** [s.dropna()] on an object series *)
Definition dropna_obj {A : Type} (s : list (option A)) : list A :=
  flat_map (fun v => match v with None => [] | Some a => [a] end) s.

(** [s.fillna(value)] on a float64 series; filling with NaN changes
    nothing. *)
Definition fillna (s : list float64) (value : float64) : list float64 :=
  map (fun v => match v with NaN => value | Fin _ => v end) s.

(** [s.fillna(value)] on an object series *)
Definition fillna_obj {A : Type} (s : list (option A)) (value : A)
  : list (option A) :=
  map (fun v => match v with None => Some value | Some _ => v end) s.

(** *** Counting *)
Section Counting.
Context {K : Type} (eqb : K -> K -> bool).

(** One step of the hash-table pass: the key's counter goes up, a new
    key is appended after the keys already seen. *)
Fixpoint bump (k : K) (acc : list (K * nat)) : list (K * nat) :=
  match acc with
  | [] => [(k, 1%nat)]
  | (k', n) :: r =>
      if eqb k k' then (k', S n) :: r else (k', n) :: bump k r
  end.

(** Keys in order of first appearance, each with its number of
    occurrences. *)
Definition tally (s : list K) : list (K * nat) :=
  fold_left (fun acc k => bump k acc) s [].

(** [s.value_counts()]: most frequent first; equal counts keep the
    order of first appearance. *)
Definition value_counts (s : list K) : list (K * nat) :=
  sort (fun x y => (snd y <=? snd x)%nat) (tally s).

(** [counts.sort_index()] *)
Definition sort_index (kleb : K -> K -> bool) (c : list (K * nat))
  : list (K * nat) :=
  sort (fun x y => kleb (fst x) (fst y)) c.

(** [counts.get(key, default)] *)
Fixpoint get (c : list (K * nat)) (key : K) (default : nat) : nat :=
  match c with
  | [] => default
  | (k, n) :: r => if eqb k key then n else get r key default
  end.

(** Sorted distinct keys, as [groupby] orders its groups. *)
Definition group_keys (kleb : K -> K -> bool) (keys : list K) : list K :=
  sort kleb (map fst (tally keys)).

(** The values of the rows whose key is [k]. *)
Definition group_of {V : Type} (k : K) (keys : list K) (vals : list V)
  : list V :=
  map snd (filter (fun kv => eqb (fst kv) k) (combine keys vals)).
End Counting.

(** [s.index] and [s.values] of a series kept as its items *)
Definition index {K V : Type} (s : list (K * V)) : list K := map fst s.
Definition values {K V : Type} (s : list (K * V)) : list V := map snd s.

(** *** Reductions *)

Definition sum_int (s : list Z) : Z := fold_right Z.add 0%Z s.

Definition sum_float (v : list Q) : Q := fold_right Qplus 0%Q v.

Definition len_Q {A : Type} (l : list A) : Q :=
  inject_Z (Z.of_nat (List.length l)).

(** [s.mean()] of an integer series *)
Definition mean_int (s : list Z) : float64 :=
  match s with
  | [] => NaN
  | _ => Fin (inject_Z (sum_int s) / len_Q s)
  end.

(** [s.mean()] of a float64 series (NaN skipped) *)
Definition mean (s : list float64) : float64 :=
  match dropna s with
  | [] => NaN
  | v => Fin (sum_float v / len_Q v)
  end.

Definition Qmax (a b : Q) : Q := if Qle_bool a b then b else a.
Definition Qmin (a b : Q) : Q := if Qle_bool a b then a else b.

(** [s.max()] and [s.min()] of a float64 series (NaN skipped) *)
Definition max (s : list float64) : float64 :=
  match dropna s with
  | [] => NaN
  | x :: r => Fin (fold_left Qmax r x)
  end.

Definition min (s : list float64) : float64 :=
  match dropna s with
  | [] => NaN
  | x :: r => Fin (fold_left Qmin r x)
  end.

(** [series * k] on float64 values *)
Definition scale (k : Q) (v : float64) : float64 :=
  match v with
  | NaN => NaN
  | Fin q => Fin (q * k)
  end.

(** [df.groupby(key)[val].mean()] with integer values: one item per
    distinct key, keys ascending. *)
Definition groupby_mean {K : Type} (eqb kleb : K -> K -> bool)
  (keys : list K) (vals : list Z) : list (K * float64) :=
  map (fun k => (k, mean_int (group_of eqb k keys vals)))
      (group_keys eqb kleb keys).

(** *** Order statistics *)

(** [s.median()] (NaN skipped; NaN when nothing is left) *)
Definition median (s : list float64) : float64 :=
  let v := sort Qle_bool (dropna s) in
  let n := List.length v in
  match n with
  | O => NaN
  | _ =>
      if Nat.even n
      then Fin ((nth (n / 2 - 1) v 0%Q + nth (n / 2) v 0%Q) / 2)
      else Fin (nth (n / 2) v 0%Q)
  end.

(** [s.mode()] of an object series: the most frequent values, sorted. *)
Definition mode (s : list (option string)) : list string :=
  let t := tally String.eqb (dropna_obj s) in
  let top := fold_right Nat.max 0%nat (map snd t) in
  sort String.leb (map fst (filter (fun kn => (snd kn =? top)%nat) t)).

(** [s[0]] on a series with the default index *)
Definition getitem0 {A : Type} (s : list A) : result A :=
  match s with
  | [] => Raise (KeyError "0")
  | a :: _ => Ok a
  end.

(** [np.linspace(0, 1, q + 1)] *)
Definition linspace01 (q : nat) : list Q :=
  map (fun i => inject_Z (Z.of_nat i) / inject_Z (Z.of_nat q)) (seq 0 (q + 1)).

(** [s.quantile(p)] with linear interpolation, on the values left after
    [dropna]. *)
Definition quantile (v : list Q) (p : Q) : Q :=
  let a := sort Qle_bool v in
  let n := List.length a in
  let pos := p * inject_Z (Z.of_nat (n - 1)) in
  let lo := Z.to_nat (Qfloor pos) in
  let frac := pos - inject_Z (Qfloor pos) in
  let hi := Nat.min (lo + 1) (n - 1) in
  nth lo a 0%Q + (nth hi a 0%Q - nth lo a 0%Q) * frac.

(** *** Binning *)

(** [algos.unique] *)
Fixpoint unique {A : Type} (eqb : A -> A -> bool) (l : list A) : list A :=
  match l with
  | [] => []
  | x :: r => x :: filter (fun y => negb (eqb x y)) (unique eqb r)
  end.

(** [bins.searchsorted(x, side='left')]: the first position whose edge is
    not below [x]. *)
Fixpoint searchsorted_left (bins : list Q) (x : Q) : nat :=
  match bins with
  | [] => O
  | b :: r => if Qle_bool x b then O else S (searchsorted_left r x)
  end.

Definition bin_id (bins : list Q) (include_lowest : bool) (x : Q) : nat :=
  let id := searchsorted_left bins x in
  match bins with
  | b0 :: _ => if include_lowest && Qeq_bool x b0 then 1%nat else id
  | [] => id
  end.

(** The label of one cell: missing when the cell is NaN or falls outside
    the edges ([ids == 0] or [ids == len(bins)]). *)
Definition bin_label (bins : list Q) (labels : list string)
  (include_lowest : bool) (v : float64) : option string :=
  match v with
  | NaN => None
  | Fin x =>
      let id := bin_id bins include_lowest x in
      if (id =? List.length bins)%nat || (id =? 0)%nat then None
      else nth_error labels (id - 1)
  end.

(** [_bins_to_cuts(x, bins, right=True, labels=labels,
    include_lowest=..., duplicates='raise', ordered=True)] *)
Definition bins_to_cuts (x : list float64) (bins : list Q)
  (labels : list string) (include_lowest : bool)
  : result (list (option string)) :=
  if (List.length (unique Qeq_bool bins) <? List.length bins)%nat
     && negb (List.length bins =? 2)%nat
  then Raise (ValueError "Bin edges must be unique")
  else if negb (List.length (unique String.eqb labels) =? List.length labels)%nat
  then Raise (ValueError "labels must be unique if ordered=True")
  else if negb (List.length labels =? List.length bins - 1)%nat
  then Raise (ValueError
                "Bin labels must be one fewer than the number of bin edges")
  else Ok (map (bin_label bins labels include_lowest) x).

Fixpoint nondecreasing (bins : list Q) : bool :=
  match bins with
  | a :: ((b :: _) as r) => Qle_bool a b && nondecreasing r
  | _ => true
  end.

(** [pd.cut(x, bins=bins, labels=labels)] with a list of edges:
    right-closed intervals, [include_lowest=False]. *)
Definition cut (x : list float64) (bins : list Q) (labels : list string)
  : result (list (option string)) :=
  if negb (nondecreasing bins)
  then Raise (ValueError "bins must increase monotonically.")
  else bins_to_cuts x bins labels false.

(** [pd.qcut(x, q=q, labels=labels)]: the edges are the quantiles of the
    non-missing values, [include_lowest=True]. With no value at all every
    edge is NaN, so the edges are not unique. *)
Definition qcut (x : list float64) (q : nat) (labels : list string)
  : result (list (option string)) :=
  match dropna x with
  | [] => Raise (ValueError "Bin edges must be unique")
  | v => bins_to_cuts x (map (quantile v) (linspace01 q)) labels true
  end.

End Pandas.

(** ** plotly.express *)

(** A figure as the builder leaves it: kind, data and title. Colours,
    opacity and the common layout are presentation only and are not
    kept. *)
Inductive Figure : Type :=
| Histogram (x : list float64) (nbins : nat) (title : string)
| Bar (x : list string) (y : list float64) (title : string)
| Pie (values : list nat) (names : list string) (title : string).

Module Px.

(** [px.histogram(df, x=column, nbins=..., title=...)]: the column must
    exist in the frame. *)
Definition histogram (column : option (list float64)) (nbins : nat)
  (title : string) : result Figure :=
  match column with
  | None =>
      Raise (ValueError
               "Value of 'x' is not the name of a column in 'data_frame'.")
  | Some x => Ok (Histogram x nbins title)
  end.

(** [px.bar(x=..., y=..., title=...)]: two empty arguments are both read
    as lists of column references (wide form) and rejected; array
    arguments of different lengths are rejected. *)
Definition bar (x : list string) (y : list float64) (title : string)
  : result Figure :=
  match x, y with
  | [], [] =>
      Raise (ValueError
               "Cannot accept list of column references or list of columns for both `x` and `y`.")
  | _, _ =>
      if (List.length x =? List.length y)%nat then Ok (Bar x y title)
      else Raise (ValueError "All arguments should have the same length.")
  end.

(** [px.pie(values=..., names=..., title=...)] *)
Definition pie (values : list nat) (names : list string) (title : string)
  : result Figure :=
  if (List.length values =? List.length names)%nat
  then Ok (Pie values names title)
  else Raise (ValueError "All arguments should have the same length.").

End Px.

(** ** The data frame *)

(** The columns the program touches; a column the CSV does not have is
    [None]. [nrows] is [len(df)]. *)
Record DataFrame : Type := mkDataFrame {
  nrows : nat;
  Survived : option (list Z);
  Pclass : option (list Z);
  Sex : option (list string);
  Age : option (list float64);
  Fare : option (list float64);
  Embarked : option (list (option string));
  AgeGroup : option (list (option string));
  FareCategory : option (list (option string))
}.

(** Every column present has one cell per row. *)
Definition has_len {A : Type} (n : nat) (col : option (list A)) : Prop :=
  match col with
  | None => True
  | Some c => List.length c = n
  end.

Definition well_formed (df : DataFrame) : Prop :=
  has_len (nrows df) (Survived df) /\ has_len (nrows df) (Pclass df) /\
  has_len (nrows df) (Sex df) /\ has_len (nrows df) (Age df) /\
  has_len (nrows df) (Fare df) /\ has_len (nrows df) (Embarked df) /\
  has_len (nrows df) (AgeGroup df) /\ has_len (nrows df) (FareCategory df).

(** [df[name]] *)
Definition getitem {A : Type} (name : string) (col : option A) : result A :=
  match col with
  | None => Raise (KeyError name)
  | Some c => Ok c
  end.

(** [df[name] = column], one definition per column assigned *)
Definition set_Age (df : DataFrame) (c : list float64) : DataFrame :=
  mkDataFrame (nrows df) (Survived df) (Pclass df) (Sex df) (Some c)
    (Fare df) (Embarked df) (AgeGroup df) (FareCategory df).

Definition set_Embarked (df : DataFrame) (c : list (option string))
  : DataFrame :=
  mkDataFrame (nrows df) (Survived df) (Pclass df) (Sex df) (Age df)
    (Fare df) (Some c) (AgeGroup df) (FareCategory df).

Definition set_Fare (df : DataFrame) (c : list float64) : DataFrame :=
  mkDataFrame (nrows df) (Survived df) (Pclass df) (Sex df) (Age df)
    (Some c) (Embarked df) (AgeGroup df) (FareCategory df).

Definition set_AgeGroup (df : DataFrame) (c : list (option string))
  : DataFrame :=
  mkDataFrame (nrows df) (Survived df) (Pclass df) (Sex df) (Age df)
    (Fare df) (Embarked df) (Some c) (FareCategory df).

Definition set_FareCategory (df : DataFrame) (c : list (option string))
  : DataFrame :=
  mkDataFrame (nrows df) (Survived df) (Pclass df) (Sex df) (Age df)
    (Fare df) (Embarked df) (AgeGroup df) (Some c).

(** ** [load_and_process_data] *)

(** What the fixed URL delivers: nothing (the fetch fails), a file with no
    columns to parse, or a table. *)
Inductive source : Type :=
| Unreachable
| NoData
| Table (df : DataFrame).

(** [pd.read_csv(url)] *)
Definition read_csv (src : source) : result DataFrame :=
  match src with
  | Unreachable => Raise URLError
  | NoData => Raise EmptyDataError
  | Table df => Ok df
  end.

Definition age_bins : list Q := [0; 12; 18; 35; 50; 65; 100]%Q.

Definition age_labels : list string :=
  ["Child"; "Teen"; "Young Adult"; "Adult"; "Senior"; "Elderly"].

Definition fare_labels : list string :=
  ["Economy"; "Standard"; "Premium"; "Luxury"].

(** [fillna(..., inplace=True)] on the selected column updates the frame
    itself. *)
Definition load_and_process_data (src : source) : result DataFrame :=
  df <- read_csv src ;;
  (* Handle missing values *)
  age <- getitem "Age" (Age df) ;;
  let df := set_Age df (Pandas.fillna age (Pandas.median age)) in
  embarked <- getitem "Embarked" (Embarked df) ;;
  mode0 <- Pandas.getitem0 (Pandas.mode embarked) ;;
  let df := set_Embarked df (Pandas.fillna_obj embarked mode0) in
  fare <- getitem "Fare" (Fare df) ;;
  let df := set_Fare df (Pandas.fillna fare (Pandas.median fare)) in
  (* Create age groups *)
  age <- getitem "Age" (Age df) ;;
  age_group <- Pandas.cut age age_bins age_labels ;;
  let df := set_AgeGroup df age_group in
  (* Create fare categories *)
  fare <- getitem "Fare" (Fare df) ;;
  fare_category <- Pandas.qcut fare 4 fare_labels ;;
  let df := set_FareCategory df fare_category in
  Ok df.

(** ** [create_visualization] *)

Definition class_names : list string := ["First"; "Second"; "Third"].

(** The body of the [try] block, on the lowercased query. *)
Definition create_visualization_body (df : DataFrame) (query : string)
  : result (option Figure) :=
  if Py.str_in "age distribution" query then
    fig <- Px.histogram (Age df) 30 "Age Distribution of Passengers" ;;
    Ok (Some fig)
  else if Py.str_in "survival rate by class" query then
    pclass <- getitem "Pclass" (Pclass df) ;;
    survived <- getitem "Survived" (Survived df) ;;
    let survival_by_class :=
      map (fun kv => (fst kv, Pandas.scale 100 (snd kv)))
          (Pandas.groupby_mean Z.eqb Z.leb pclass survived) in
    fig <- Px.bar class_names (Pandas.values survival_by_class)
             "Survival Rate by Passenger Class" ;;
    Ok (Some fig)
  else if Py.str_in "pie chart" query && Py.str_in "class" query then
    pclass <- getitem "Pclass" (Pclass df) ;;
    let class_dist := Pandas.value_counts Z.eqb pclass in
    fig <- Px.pie (Pandas.values class_dist) class_names
             "Distribution of Passenger Classes" ;;
    Ok (Some fig)
  else if Py.str_in "survival" query
          && (Py.str_in "gender" query || Py.str_in "male" query
              || Py.str_in "female" query) then
    sex <- getitem "Sex" (Sex df) ;;
    survived <- getitem "Survived" (Survived df) ;;
    let survival_by_sex :=
      map (fun kv => (fst kv, Pandas.scale 100 (snd kv)))
          (Pandas.groupby_mean String.eqb String.leb sex survived) in
    fig <- Px.bar (Pandas.index survival_by_sex)
             (Pandas.values survival_by_sex) "Survival Rate by Gender" ;;
    Ok (Some fig)
  else
    Ok None.

(** [query.lower()] is evaluated before the [try]; it cannot fail on a
    string. The handler prints the error and returns [None]. *)
Definition create_visualization (df : DataFrame) (query : string)
  : result (option Figure) :=
  let query := Py.lower query in
  try_except (create_visualization_body df query) (fun _ => Ok None).

(** ** [TitanicAgent.process_query] *)

(** One piece of an f-string: literal or interpolated text, an integer
    written with [str], or a float written with [:.<decimals>f]. *)
Inductive piece : Type :=
| Txt (s : string)
| Int (z : Z)
| Flt (decimals : nat) (v : float64).

Definition fstring : Type := list piece.

Definition NL : string := String (ascii_of_nat 10) EmptyString.

Definition chart_terms : list string := ["show"; "plot"; "chart"; "graph"].

Definition port_names : list (string * string) :=
  [("S", "Southampton"); ("C", "Cherbourg"); ("Q", "Queenstown")].

(** [a / b] with [b = len(df)]. A frame without rows comes from a file
    with a header only: its columns hold objects, the sum is the Python
    integer 0 and [0 / 0] raises. *)
Definition true_divide (a b : Z) : result float64 :=
  if (b =? 0)%Z then Raise ZeroDivisionError
  else Ok (Fin (inject_Z a / inject_Z b)).

Definition help_text : fstring :=
  [Txt ("💡 Try asking about:" ++ NL ++
        "- Survival statistics" ++ NL ++
        "- Passenger demographics (age, gender)" ++ NL ++
        "- Ticket class distribution" ++ NL ++
        "- Embarkation ports" ++ NL ++
        "- Fare information" ++ NL ++
        "Or use keywords like 'show', 'plot', or 'chart' for visualizations!")].

Definition apology : fstring :=
  [Txt "❌ I apologize, but I couldn't process that query. Please try rephrasing or use one of the example queries."].

(** The texts of the six statistics. *)
Definition survival_text (survived_count total_count : Z)
  (ratio : float64) : fstring :=
  [Txt "🚢 "; Int survived_count; Txt " passengers survived out of ";
   Int total_count; Txt " ("; Flt 1 (Pandas.scale 100 ratio); Txt "%)"].

Definition age_text (avg_age : float64) : fstring :=
  [Txt "👥 The average age of passengers was "; Flt 1 avg_age; Txt " years"].

Definition gender_text (male female : nat) : fstring :=
  [Txt ("👥 Passenger gender distribution:" ++ NL ++ "Male: ");
   Int (Z.of_nat male); Txt (NL ++ "Female: "); Int (Z.of_nat female)].

Definition class_text (c1 c2 c3 : nat) : fstring :=
  [Txt ("🎫 Passenger class distribution:" ++ NL ++ "First Class: ");
   Int (Z.of_nat c1); Txt (NL ++ "Second Class: "); Int (Z.of_nat c2);
   Txt (NL ++ "Third Class: "); Int (Z.of_nat c3)].

Definition port_header : fstring := [Txt ("🚢 Embarkation ports:" ++ NL)].

Definition port_line (port : string) (count : nat) : fstring :=
  [Txt (Py.dict_get port_names port port); Txt ": "; Int (Z.of_nat count);
   Txt (" passengers" ++ NL)].

Definition fare_text (avg_fare max_fare min_fare : float64) : fstring :=
  [Txt ("💰 Fare statistics:" ++ NL ++ "Average: $"); Flt 2 avg_fare;
   Txt (NL ++ "Highest: $"); Flt 2 max_fare;
   Txt (NL ++ "Lowest: $"); Flt 2 min_fare].

Module TitanicAgent.

(** The body of the [try] block. *)
Definition process_query_body (df : DataFrame) (query : string)
  : result fstring :=
  let query_lower := Py.lower query in
  if Py.str_in "survived" query_lower then
    survived <- getitem "Survived" (Survived df) ;;
    let survived_count := Pandas.sum_int survived in
    let total_count := Z.of_nat (nrows df) in
    ratio <- true_divide survived_count total_count ;;
    Ok (survival_text survived_count total_count ratio)
  else if Py.str_in "average age" query_lower then
    age <- getitem "Age" (Age df) ;;
    Ok (age_text (Pandas.mean age))
  else if Py.str_in "male" query_lower || Py.str_in "female" query_lower
          || Py.str_in "gender" query_lower then
    sex <- getitem "Sex" (Sex df) ;;
    let gender_stats := Pandas.value_counts String.eqb sex in
    Ok (gender_text (Pandas.get String.eqb gender_stats "male" 0)
                    (Pandas.get String.eqb gender_stats "female" 0))
  else if Py.str_in "class" query_lower
          && negb (Py.any_in chart_terms query_lower) then
    pclass <- getitem "Pclass" (Pclass df) ;;
    let class_stats :=
      Pandas.sort_index Z.leb (Pandas.value_counts Z.eqb pclass) in
    Ok (class_text (Pandas.get Z.eqb class_stats 1%Z 0)
                   (Pandas.get Z.eqb class_stats 2%Z 0)
                   (Pandas.get Z.eqb class_stats 3%Z 0))
  else if Py.str_in "embarked" query_lower || Py.str_in "port" query_lower
  then
    embarked <- getitem "Embarked" (Embarked df) ;;
    let embarked_stats :=
      Pandas.value_counts String.eqb (Pandas.dropna_obj embarked) in
    Ok (fold_left
          (fun response item => response ++ port_line (fst item) (snd item))
          embarked_stats port_header)
  else if Py.str_in "fare" query_lower
          && negb (Py.any_in chart_terms query_lower) then
    fare <- getitem "Fare" (Fare df) ;;
    Ok (fare_text (Pandas.mean fare) (Pandas.max fare) (Pandas.min fare))
  else
    Ok help_text.

(** The handler shows the error in the page and returns the apology. *)
Definition process_query (df : DataFrame) (query : string) : result fstring :=
  try_except (process_query_body df query) (fun _ => Ok apology).

End TitanicAgent.

(** ** [main]: what one submitted query shows *)

Definition viz_terms : list string :=
  ["show"; "plot"; "chart"; "graph"; "visualize"].

(** The assistant's text, and the chart passed to [st.plotly_chart] if
    any: the builder is only called when the query holds a visualization
    keyword. *)
Definition main_query (df : DataFrame) (query : string)
  : result (fstring * option Figure) :=
  response <- TitanicAgent.process_query df query ;;
  if Py.any_in viz_terms (Py.lower query) then
    fig <- create_visualization df query ;;
    Ok (response, fig)
  else
    Ok (response, None).

(** ** Sample data *)

Definition compare_query : string :=
  "Compare survival rates between males and females".

Definition fare_by_class_query : string :=
  "show me the fare distribution by class".

Definition pie_query : string := "Create a pie chart of passenger classes".

(** Six passengers, all columns present, one age and one port missing. *)
Definition passengers6 : DataFrame :=
  mkDataFrame 6
    (Some [0; 1; 1; 1; 0; 0]%Z)
    (Some [3; 1; 3; 1; 3; 2]%Z)
    (Some ["male"; "female"; "female"; "female"; "male"; "male"])
    (Some [Fin 22; Fin 38; Fin 26; Fin 35; NaN; Fin 54]%Q)
    (Some [Fin 7.25; Fin 71.2833; Fin 7.925; Fin 53.1; Fin 8.05;
           Fin 51.8625]%Q)
    (Some [Some "S"; Some "C"; Some "S"; None; Some "C"; Some "S"])
    None None.

(** The same passengers in a file without the [Survived] column. *)
Definition no_survived6 : DataFrame :=
  mkDataFrame 6 None (Pclass passengers6) (Sex passengers6)
    (Age passengers6) (Fare passengers6) (Embarked passengers6) None None.

(** Four passengers in two classes only. *)
Definition two_classes4 : DataFrame :=
  mkDataFrame 4
    (Some [1; 0; 0; 1]%Z)
    (Some [1; 3; 3; 1]%Z)
    (Some ["female"; "male"; "male"; "female"])
    (Some [Fin 29; Fin 40; Fin 19; Fin 58]%Q)
    (Some [Fin 80; Fin 8.05; Fin 7.75; Fin 26.55]%Q)
    (Some [Some "C"; Some "S"; Some "S"; Some "S"])
    None None.

(** Five passengers, all columns present, two of them with the same
    fare. *)
Definition shared_fare5 : DataFrame :=
  mkDataFrame 5
    (Some [0; 1; 0; 1; 1]%Z)
    (Some [3; 3; 3; 2; 1]%Z)
    (Some ["male"; "female"; "male"; "female"; "female"])
    (Some [Fin 22; Fin 26; Fin 35; Fin 27; Fin 38]%Q)
    (Some [Fin 7.25; Fin 8.05; Fin 8.05; Fin 26; Fin 71.2833]%Q)
    (Some [Some "S"; Some "S"; Some "S"; Some "S"; Some "C"])
    None None.

(** Four passengers who all paid the same fare. *)
Definition same_fare4 : DataFrame :=
  mkDataFrame 4
    (Some [0; 1; 0; 1]%Z)
    (Some [3; 3; 3; 3]%Z)
    (Some ["male"; "female"; "male"; "female"])
    (Some [Fin 22; Fin 26; Fin 35; Fin 27]%Q)
    (Some [Fin 8.05; Fin 8.05; Fin 8.05; Fin 8.05]%Q)
    (Some [Some "S"; Some "S"; Some "Q"; Some "S"])
    None None.

(** Five passengers, among them a newborn of age 0 and a passenger older
    than 100. *)
Definition extreme_ages5 : DataFrame :=
  mkDataFrame 5
    (Some [1; 0; 1; 0; 1]%Z)
    (Some [3; 1; 2; 3; 1]%Z)
    (Some ["female"; "male"; "female"; "male"; "female"])
    (Some [Fin 0; Fin 30; Fin 101; Fin 12; NaN]%Q)
    (Some [Fin 7.25; Fin 71.2833; Fin 13; Fin 8.05; Fin 26.55]%Q)
    (Some [Some "S"; Some "C"; Some "S"; Some "Q"; Some "S"])
    None None.

(** The six columns of the schema are present. *)
Definition schema_complete (df : DataFrame) : Prop :=
  Survived df <> None /\ Pclass df <> None /\ Sex df <> None /\
  Age df <> None /\ Fare df <> None /\ Embarked df <> None.

(** How many cells of a fare column hold the value [fare]. *)
Definition fare_count (fare : Q) (column : list float64) : nat :=
  List.length
    (filter (fun v => match v with NaN => false | Fin x => Qeq_bool x fare end)
            column).

(** ** Preprocessing, in the words of the amended claims *)

(** The age group of a cell: the six intervals are left-open and
    right-closed, the first one too, so that an age of 0 or less, an age
    above 100 and a missing age have no group. *)
Definition age_group_of (age : float64) : option string :=
  match age with
  | NaN => None
  | Fin a =>
      if Qle_bool a 0 then None
      else if Qle_bool a 12 then Some "Child"
      else if Qle_bool a 18 then Some "Teen"
      else if Qle_bool a 35 then Some "Young Adult"
      else if Qle_bool a 50 then Some "Adult"
      else if Qle_bool a 65 then Some "Senior"
      else if Qle_bool a 100 then Some "Elderly"
      else None
  end.

(** Median imputation of a float64 column. *)
Definition impute (column : list float64) : list float64 :=
  Pandas.fillna column (Pandas.median column).

(** The five quartile edges of the values present. *)
Definition fare_edges (v : list Q) : list Q :=
  map (Pandas.quantile v) (Pandas.linspace01 4).

(** The column has a value and its five quartile edges are pairwise
    different. *)
Definition quartile_edges_distinct (fare : list float64) : bool :=
  match Pandas.dropna fare with
  | [] => false
  | v => (List.length (Pandas.unique Qeq_bool (fare_edges v)) =? 5)%nat
  end.

(** The causes of a failed start, with the exception each one raises. *)
Inductive startup_error : source -> exn -> Prop :=
| fetch_failed :
    startup_error Unreachable URLError
| nothing_to_parse :
    startup_error NoData EmptyDataError
| age_column_absent (df : DataFrame) :
    Age df = None ->
    startup_error (Table df) (KeyError "Age")
| embarked_column_absent (df : DataFrame) :
    Age df <> None -> Embarked df = None ->
    startup_error (Table df) (KeyError "Embarked")
| no_port_present (df : DataFrame) (embarked : list (option string)) :
    Age df <> None -> Embarked df = Some embarked ->
    Pandas.dropna_obj embarked = [] ->
    startup_error (Table df) (KeyError "0")
| fare_column_absent (df : DataFrame) (embarked : list (option string)) :
    Age df <> None -> Embarked df = Some embarked ->
    Pandas.dropna_obj embarked <> [] -> Fare df = None ->
    startup_error (Table df) (KeyError "Fare")
| quartile_edges_repeat (df : DataFrame) (embarked : list (option string))
    (fare : list float64) :
    Age df <> None -> Embarked df = Some embarked ->
    Pandas.dropna_obj embarked <> [] -> Fare df = Some fare ->
    quartile_edges_distinct (impute fare) = false ->
    startup_error (Table df) (ValueError "Bin edges must be unique").

(** ** Routing conditions *)

(** The lowercased query reaches the fifth branch of [process_query]: the
    four earlier tests fail and "embarked" or "port" occurs. *)
Definition port_rule_fires (query_lower : string) : bool :=
  negb (Py.str_in "survived" query_lower)
  && negb (Py.str_in "average age" query_lower)
  && negb (Py.str_in "male" query_lower || Py.str_in "female" query_lower
           || Py.str_in "gender" query_lower)
  && negb (Py.str_in "class" query_lower
           && negb (Py.any_in chart_terms query_lower))
  && (Py.str_in "embarked" query_lower || Py.str_in "port" query_lower).

(** ** [main]: one run of the script *)

(** An entry of [st.session_state.messages]. *)
Record Message : Type := mkMessage {
  role : string;
  content : string
}.

(** [if 'messages' not in st.session_state: st.session_state.messages = []] *)
Definition init_session (stored : option (list Message)) : list Message :=
  match stored with
  | None => []
  | Some messages => messages
  end.

Definition example_queries : list string :=
  ["How many passengers survived?";
   "Show me the age distribution of passengers";
   "What was the survival rate by class?";
   "Create a pie chart of passenger classes";
   "Compare survival rates between males and females";
   "What was the most common age group?";
   "Show me the fare distribution by class";
   "How many passengers embarked from each port?";
   "What was the average ticket fare?"].

(** The sidebar loop: [pressed query] is what [st.button] returns for the
    button of that example; a pressed example is appended to the log. *)
Definition sidebar (pressed : string -> bool) (messages : list Message)
  : list Message :=
  fold_left
    (fun msgs query =>
       if pressed query then msgs ++ [mkMessage "user" query] else msgs)
    example_queries messages.

(** One turn of the chat loop: the message, and the chart drawn under it
    if any. *)
Definition show_message (df : DataFrame) (message : Message)
  : result (Message * option Figure) :=
  if Py.any_in viz_terms (Py.lower (content message)) then
    fig <- create_visualization df (content message) ;;
    Ok (message, fig)
  else
    Ok (message, None).

Fixpoint show_messages (df : DataFrame) (messages : list Message)
  : result (list (Message * option Figure)) :=
  match messages with
  | [] => Ok []
  | message :: rest =>
      shown <- show_message df message ;;
      others <- show_messages df rest ;;
      Ok (shown :: others)
  end.

(** The three metrics of the overview: [len(df)], the survival rate and
    the average age. *)
Definition overview (df : DataFrame) : result (nat * fstring * fstring) :=
  let total := nrows df in
  survived <- getitem "Survived" (Survived df) ;;
  let rate := [Flt 1 (Pandas.scale 100 (Pandas.mean_int survived)); Txt "%"] in
  age <- getitem "Age" (Age df) ;;
  let average := [Flt 1 (Pandas.mean age); Txt " years"] in
  Ok (total, rate, average).

(** What one run puts on the page. *)
Record Page : Type := mkPage {
  chat : list (Message * option Figure);
  answer : option (fstring * option Figure);
  metrics : nat * fstring * fstring
}.

(** One run of [main] from the stored log, the buttons' states and the
    chat input ([None] when nothing was submitted; the empty string is
    falsy). The log is session state: it is returned as the run left it,
    also when the run raises. *)
Definition main (src : source) (messages : list Message)
  (pressed : string -> bool) (chat_input : option string)
  : list Message * result Page :=
  match load_and_process_data src with
  | Raise e => (messages, Raise e)
  | Ok df =>
      let messages := sidebar pressed messages in
      match show_messages df messages with
      | Raise e => (messages, Raise e)
      | Ok shown =>
          let query := match chat_input with
                       | Some text => text
                       | None => ""
                       end in
          if String.eqb query "" then
            (messages,
             m <- overview df ;;
             Ok (mkPage shown None m))
          else
            (messages ++ [mkMessage "user" query],
             reply <- main_query df query ;;
             m <- overview df ;;
             Ok (mkPage shown (Some reply) m))
      end
  end.

(** ** Proof automation *)

(** Evaluates the keyword tests on a closed query. *)
Ltac eval_tests :=
  repeat match goal with
  | |- context [Py.str_in ?a ?b] =>
      let t := constr:(Py.str_in a b) in
      let v := eval vm_compute in t in
      progress change t with v
  | |- context [Py.any_in ?a ?b] =>
      let t := constr:(Py.any_in a b) in
      let v := eval vm_compute in t in
      progress change t with v
  end;
  cbv iota; simpl orb; simpl andb; simpl negb; cbv iota.

(** Reduces the plumbing of calls (bind, column lookup, try) and nothing
    else. *)
Ltac reduce_calls := cbv beta iota delta [bind getitem try_except].

(** * Properties *)

(** ** Sorting *)

Section SortFacts.
Context {A : Type} (leb : A -> A -> bool).

Lemma insert_sorted_perm (x : A) (l : list A) :
  Permutation (Pandas.insert_sorted leb x l) (x :: l).
Proof.
  induction l as [|y r IH]; simpl.
  - apply Permutation_refl.
  - destruct (leb x y).
    + apply Permutation_refl.
    + eapply perm_trans; [apply perm_skip, IH | apply perm_swap].
Qed.

Lemma sort_perm (l : list A) : Permutation (Pandas.sort leb l) l.
Proof.
  induction l as [|x r IH]; simpl.
  - apply perm_nil.
  - eapply perm_trans; [apply insert_sorted_perm | apply perm_skip, IH].
Qed.

Lemma sort_length (l : list A) :
  List.length (Pandas.sort leb l) = List.length l.
Proof. apply Permutation_length, sort_perm. Qed.

Lemma sort_In (l : list A) (x : A) : In x (Pandas.sort leb l) <-> In x l.
Proof.
  split; apply Permutation_in;
    [apply sort_perm | apply Permutation_sym, sort_perm].
Qed.

(** With a total order the result is sorted. *)
Hypothesis leb_total : forall x y, leb x y = true \/ leb y x = true.
Hypothesis leb_trans :
  forall x y z, leb x y = true -> leb y z = true -> leb x z = true.

Lemma insert_sorted_sorted (x : A) (l : list A) :
  StronglySorted (fun a b => leb a b = true) l ->
  StronglySorted (fun a b => leb a b = true) (Pandas.insert_sorted leb x l).
Proof.
  induction 1 as [|y r Hs IH Hall]; simpl.
  - constructor; [constructor | constructor].
  - destruct (leb x y) eqn:E.
    + constructor.
      * constructor; assumption.
      * constructor; [exact E|].
        eapply Forall_impl; [|exact Hall].
        intros z Hz. eapply leb_trans; eassumption.
    + constructor; [exact IH|].
      assert (Hyx : leb y x = true).
      { destruct (leb_total x y) as [H|H]; [congruence | exact H]. }
      eapply Permutation_Forall.
      * apply Permutation_sym, insert_sorted_perm.
      * constructor; assumption.
Qed.

Lemma sort_sorted (l : list A) :
  StronglySorted (fun a b => leb a b = true) (Pandas.sort leb l).
Proof.
  induction l as [|x r IH]; simpl.
  - constructor.
  - apply insert_sorted_sorted, IH.
Qed.

End SortFacts.

(** ** Counting *)

Lemma list_sum_perm (l l' : list nat) :
  Permutation l l' -> list_sum l = list_sum l'.
Proof.
  induction 1; simpl; lia.
Qed.

Section CountFacts.
Context {K : Type} (eqb : K -> K -> bool).
Context (eq_dec : forall x y : K, {x = y} + {x <> y}).
Hypothesis eqb_eq : forall x y, eqb x y = true <-> x = y.

Lemma eqb_same (x : K) : eqb x x = true.
Proof. apply eqb_eq. reflexivity. Qed.

Lemma eqb_diff (x y : K) : x <> y -> eqb x y = false.
Proof.
  intros H. destruct (eqb x y) eqn:E; [|reflexivity].
  apply eqb_eq in E. contradiction.
Qed.

Lemma bump_keys (k k' : K) (acc : list (K * nat)) :
  In k' (map fst (Pandas.bump eqb k acc)) <-> k' = k \/ In k' (map fst acc).
Proof.
  induction acc as [|[k0 n] r IH]; simpl.
  - intuition.
  - destruct (eqb k k0) eqn:E; simpl.
    + apply eqb_eq in E. subst k0. intuition.
    + rewrite IH. intuition.
Qed.

Lemma bump_NoDup (k : K) (acc : list (K * nat)) :
  NoDup (map fst acc) -> NoDup (map fst (Pandas.bump eqb k acc)).
Proof.
  induction acc as [|[k0 n] r IH]; simpl; intros H.
  - constructor; [intros [] | constructor].
  - inversion H as [|? ? Hnot Hr]; subst.
    destruct (eqb k k0) eqn:E; simpl.
    + constructor; assumption.
    + constructor; [|apply IH, Hr].
      rewrite bump_keys. intros [->|Hin]; [|contradiction].
      rewrite eqb_same in E. discriminate.
Qed.

Lemma bump_get_same (k : K) (acc : list (K * nat)) :
  Pandas.get eqb (Pandas.bump eqb k acc) k 0 = S (Pandas.get eqb acc k 0).
Proof.
  induction acc as [|[k0 n] r IH]; simpl.
  - rewrite eqb_same. reflexivity.
  - destruct (eqb k k0) eqn:E; simpl.
    + apply eqb_eq in E. subst k0. rewrite !eqb_same. reflexivity.
    + destruct (eqb k0 k) eqn:E'.
      * apply eqb_eq in E'. subst k0. rewrite eqb_same in E. discriminate.
      * exact IH.
Qed.

Lemma bump_get_other (k k' : K) (acc : list (K * nat)) :
  k <> k' ->
  Pandas.get eqb (Pandas.bump eqb k acc) k' 0 = Pandas.get eqb acc k' 0.
Proof.
  intros Hne. induction acc as [|[k0 n] r IH]; simpl.
  - rewrite eqb_diff by exact Hne. reflexivity.
  - destruct (eqb k k0) eqn:E; simpl.
    + apply eqb_eq in E. subst k0.
      rewrite eqb_diff by exact Hne. reflexivity.
    + rewrite IH. reflexivity.
Qed.

Lemma bump_sum (k : K) (acc : list (K * nat)) :
  list_sum (map snd (Pandas.bump eqb k acc)) = S (list_sum (map snd acc)).
Proof.
  induction acc as [|[k0 n] r IH]; simpl.
  - reflexivity.
  - destruct (eqb k k0); simpl; [reflexivity | rewrite IH; lia].
Qed.

(** The invariant of the counting pass, from any accumulator. *)
Lemma fold_bump (s : list K) :
  forall acc : list (K * nat),
    NoDup (map fst acc) ->
    let out := fold_left (fun a k => Pandas.bump eqb k a) s acc in
    NoDup (map fst out) /\
    (forall k, In k (map fst out) <-> In k s \/ In k (map fst acc)) /\
    (forall k, Pandas.get eqb out k 0
               = (count_occ eq_dec s k + Pandas.get eqb acc k 0)%nat) /\
    list_sum (map snd out) = (List.length s + list_sum (map snd acc))%nat.
Proof.
  induction s as [|x r IH]; intros acc Hnd; simpl.
  - repeat split; try assumption; try tauto; intuition.
  - destruct (IH (Pandas.bump eqb x acc) (bump_NoDup x acc Hnd))
      as (H1 & H2 & H3 & H4).
    repeat split.
    + exact H1.
    + intros H. apply H2 in H. rewrite bump_keys in H. intuition.
    + intros H. apply H2. rewrite bump_keys. intuition.
    + intros k. rewrite H3. destruct (eq_dec x k) as [->|Hne].
      * rewrite bump_get_same. lia.
      * rewrite bump_get_other by exact Hne. lia.
    + rewrite H4, bump_sum. lia.
Qed.

Lemma get_In (c : list (K * nat)) (k : K) (n : nat) :
  NoDup (map fst c) -> In (k, n) c -> forall d, Pandas.get eqb c k d = n.
Proof.
  induction c as [|[k0 n0] r IH]; simpl; intros Hnd Hin d.
  - contradiction.
  - inversion Hnd as [|? ? Hnot Hr]; subst.
    destruct Hin as [Heq|Hin].
    + inversion Heq; subst. rewrite eqb_same. reflexivity.
    + destruct (eqb k0 k) eqn:E.
      * apply eqb_eq in E. subst k0. exfalso. apply Hnot.
        apply (in_map fst) in Hin. exact Hin.
      * apply IH; assumption.
Qed.

Lemma get_absent (c : list (K * nat)) (k : K) (d : nat) :
  ~ In k (map fst c) -> Pandas.get eqb c k d = d.
Proof.
  induction c as [|[k0 n0] r IH]; simpl; intros Hnot.
  - reflexivity.
  - destruct (eqb k0 k) eqn:E.
    + apply eqb_eq in E. subst k0. exfalso. apply Hnot. left. reflexivity.
    + apply IH. intros H. apply Hnot. right. exact H.
Qed.

Lemma tally_NoDup (s : list K) : NoDup (map fst (Pandas.tally eqb s)).
Proof. apply (fold_bump s []). constructor. Qed.

Lemma tally_keys (s : list K) (k : K) :
  In k (map fst (Pandas.tally eqb s)) <-> In k s.
Proof.
  destruct (fold_bump s [] (NoDup_nil _)) as (_ & H & _).
  rewrite (H k). simpl. tauto.
Qed.

Lemma tally_get (s : list K) (k : K) :
  Pandas.get eqb (Pandas.tally eqb s) k 0 = count_occ eq_dec s k.
Proof.
  destruct (fold_bump s [] (NoDup_nil _)) as (_ & _ & H & _).
  unfold Pandas.tally. rewrite (H k). simpl. lia.
Qed.

Lemma tally_sum (s : list K) :
  list_sum (map snd (Pandas.tally eqb s)) = List.length s.
Proof.
  destruct (fold_bump s [] (NoDup_nil _)) as (_ & _ & _ & H).
  unfold Pandas.tally. rewrite H. simpl. lia.
Qed.

Lemma tally_In (s : list K) (k : K) (n : nat) :
  In (k, n) (Pandas.tally eqb s) ->
  n = count_occ eq_dec s k /\ In k s.
Proof.
  intros Hin. split.
  - rewrite <- tally_get. symmetry.
    apply get_In; [apply tally_NoDup | exact Hin].
  - apply tally_keys. apply (in_map fst) in Hin. exact Hin.
Qed.

(** [value_counts] reorders the tally and nothing more. *)
Lemma value_counts_perm (s : list K) :
  Permutation (Pandas.value_counts eqb s) (Pandas.tally eqb s).
Proof. apply sort_perm. Qed.

Lemma value_counts_NoDup (s : list K) :
  NoDup (map fst (Pandas.value_counts eqb s)).
Proof.
  eapply Permutation_NoDup; [|apply tally_NoDup].
  apply Permutation_sym, Permutation_map, value_counts_perm.
Qed.

Lemma value_counts_keys (s : list K) (k : K) :
  In k (map fst (Pandas.value_counts eqb s)) <-> In k s.
Proof.
  split; intros H.
  - apply tally_keys.
    eapply Permutation_in; [apply Permutation_map, value_counts_perm | exact H].
  - apply tally_keys in H.
    eapply Permutation_in;
      [apply Permutation_sym, Permutation_map, value_counts_perm | exact H].
Qed.

Lemma value_counts_In (s : list K) (k : K) (n : nat) :
  In (k, n) (Pandas.value_counts eqb s) ->
  n = count_occ eq_dec s k /\ In k s.
Proof.
  intros H. apply tally_In.
  eapply Permutation_in; [apply value_counts_perm | exact H].
Qed.

Lemma value_counts_get (s : list K) (k : K) :
  Pandas.get eqb (Pandas.value_counts eqb s) k 0 = count_occ eq_dec s k.
Proof.
  destruct (in_dec eq_dec k s) as [Hin|Hout].
  - apply value_counts_keys in Hin. apply in_map_iff in Hin.
    destruct Hin as ([k' n] & Hk & Hin). simpl in Hk. subst k'.
    rewrite (get_In _ k n (value_counts_NoDup s) Hin).
    apply value_counts_In in Hin. tauto.
  - rewrite get_absent.
    + symmetry. apply count_occ_not_In. exact Hout.
    + rewrite value_counts_keys. exact Hout.
Qed.

Lemma value_counts_sum (s : list K) :
  list_sum (map snd (Pandas.value_counts eqb s)) = List.length s.
Proof.
  rewrite <- tally_sum. apply list_sum_perm, Permutation_map, value_counts_perm.
Qed.

Lemma value_counts_length (s : list K) :
  List.length (Pandas.value_counts eqb s)
  = List.length (nodup eq_dec s).
Proof.
  unfold Pandas.value_counts. rewrite sort_length.
  rewrite <- (length_map fst).
  apply Permutation_length, NoDup_Permutation.
  - apply tally_NoDup.
  - apply NoDup_nodup.
  - intros k. rewrite tally_keys, nodup_In. tauto.
Qed.

End CountFacts.

(** ** Routing of concrete queries *)

Lemma fold_left_app_flat_map {A B : Type} (f : A -> list B) (l : list A) :
  forall init : list B,
    fold_left (fun acc a => acc ++ f a) l init = init ++ flat_map f l.
Proof.
  induction l as [|a r IH]; intros init; simpl.
  - rewrite app_nil_r. reflexivity.
  - rewrite IH, <- app_assoc. reflexivity.
Qed.

(** ** Errors never leave the responder or the builder *)

(** C7. For every frame and every query, [process_query] returns a text
    and [create_visualization] returns a figure or [None]: neither call
    raises. An error raised while the text is computed becomes the fixed
    apology, an error raised while the figure is built becomes [None], and
    the per-query step of [main] therefore always has a response to
    show. *)
Theorem query_errors_never_escape (df : DataFrame) (q : string) :
  (exists text,
      TitanicAgent.process_query df q = Ok text /\
      (forall e, TitanicAgent.process_query_body df q = Raise e ->
                 text = apology) /\
      (forall t, TitanicAgent.process_query_body df q = Ok t -> text = t)) /\
  (exists fig,
      create_visualization df q = Ok fig /\
      (forall e, create_visualization_body df (Py.lower q) = Raise e ->
                 fig = None) /\
      (forall f, create_visualization_body df (Py.lower q) = Ok f ->
                 fig = f)) /\
  (exists text fig, main_query df q = Ok (text, fig)).
Proof.
  assert (HP : exists text,
      TitanicAgent.process_query df q = Ok text /\
      (forall e, TitanicAgent.process_query_body df q = Raise e ->
                 text = apology) /\
      (forall t, TitanicAgent.process_query_body df q = Ok t -> text = t)).
  { unfold TitanicAgent.process_query.
    destruct (TitanicAgent.process_query_body df q) as [t|e]; simpl.
    - exists t. split; [reflexivity|]. split; [discriminate | congruence].
    - exists apology. split; [reflexivity|]. split; [reflexivity | discriminate]. }
  assert (HV : exists fig,
      create_visualization df q = Ok fig /\
      (forall e, create_visualization_body df (Py.lower q) = Raise e ->
                 fig = None) /\
      (forall f, create_visualization_body df (Py.lower q) = Ok f ->
                 fig = f)).
  { unfold create_visualization. cbv zeta.
    destruct (create_visualization_body df (Py.lower q)) as [f|e]; simpl.
    - exists f. split; [reflexivity|]. split; [discriminate | congruence].
    - exists None. split; [reflexivity|]. split; [reflexivity | discriminate]. }
  split; [exact HP|]. split; [exact HV|].
  destruct HP as (text & HP & _). destruct HV as (fig & HV & _).
  unfold main_query. rewrite HP. cbv beta iota delta [bind].
  destruct (Py.any_in viz_terms (Py.lower q)).
  - rewrite HV. exists text, fig. reflexivity.
  - exists text, None. reflexivity.
Qed.

(** The error paths are real: a file without the [Survived] column gives
    the apology, and the same file asked for the class chart gives no
    figure. *)
Example apology_reached :
  TitanicAgent.process_query_body no_survived6 "How many passengers survived?"
  = Raise (KeyError "Survived") /\
  TitanicAgent.process_query no_survived6 "How many passengers survived?"
  = Ok apology.
Proof. split; reflexivity. Qed.

Example no_figure_reached :
  create_visualization_body no_survived6 "show the survival rate by class"
  = Raise (KeyError "Survived") /\
  create_visualization no_survived6 "Show the survival rate by class"
  = Ok None.
Proof. split; reflexivity. Qed.

(** ** The gender comparison query *)

Lemma groupby_index {K : Type} (eqb kleb : K -> K -> bool)
  (keys : list K) (vals : list Z) (f : K * float64 -> K * float64) :
  (forall kv, fst (f kv) = fst kv) ->
  Pandas.index (map f (Pandas.groupby_mean eqb kleb keys vals))
  = Pandas.group_keys eqb kleb keys.
Proof.
  intros Hf. unfold Pandas.index, Pandas.groupby_mean.
  rewrite !map_map. erewrite map_ext; [apply map_id|].
  intros k. rewrite Hf. reflexivity.
Qed.

Lemma groupby_values {K : Type} (eqb kleb : K -> K -> bool)
  (keys : list K) (vals : list Z) (c : Q) :
  Pandas.values
    (map (fun kv => (fst kv, Pandas.scale c (snd kv)))
         (Pandas.groupby_mean eqb kleb keys vals))
  = map (fun k => Pandas.scale c
                    (Pandas.mean_int (Pandas.group_of eqb k keys vals)))
        (Pandas.group_keys eqb kleb keys).
Proof.
  unfold Pandas.values, Pandas.groupby_mean. rewrite !map_map. reflexivity.
Qed.

(** [px.bar] accepts arguments of one length that are not empty. *)
Lemma bar_same_length (x : list string) (y : list float64) (title : string) :
  x <> [] -> List.length x = List.length y ->
  Px.bar x y title = Ok (Bar x y title).
Proof.
  intros Hne Hlen. unfold Px.bar.
  destruct x as [|a x]; [congruence|].
  rewrite Hlen, Nat.eqb_refl. reflexivity.
Qed.

Lemma bar_length_mismatch (x : list string) (y : list float64)
  (title : string) :
  List.length x <> List.length y ->
  Px.bar x y title
  = Raise (ValueError "All arguments should have the same length.").
Proof.
  intros Hne. unfold Px.bar.
  destruct (Nat.eqb_spec (List.length x) (List.length y)) as [E|_];
    [contradiction|].
  destruct x as [|a x], y as [|b y]; try reflexivity.
  exfalso. apply Hne. reflexivity.
Qed.

Lemma group_keys_not_nil {K : Type} (eqb kleb : K -> K -> bool)
  (eq_dec : forall x y : K, {x = y} + {x <> y})
  (eqb_eq : forall x y, eqb x y = true <-> x = y) (keys : list K) :
  keys <> [] -> Pandas.group_keys eqb kleb keys <> [].
Proof.
  destruct keys as [|k r]; [congruence|]. intros _ E.
  assert (Hin : In k (Pandas.group_keys eqb kleb (k :: r))).
  { unfold Pandas.group_keys. apply sort_In.
    apply (tally_keys eqb eq_dec eqb_eq). left. reflexivity. }
  rewrite E in Hin. exact Hin.
Qed.

(** C1, as the code has it. For the query "Compare survival rates between
    males and females" on a frame with a [Sex] column, [process_query]
    returns the gender breakdown (the third rule has no chart guard), with
    the numbers of "male" and "female" rows; [main] shows that text and no
    chart, because the query holds none of show, plot, chart, graph,
    visualize and the builder is not called; the builder itself, called on
    this query with the [Survived] column present and a [Sex] column that
    is not empty, returns the bar chart "Survival Rate by Gender" with one
    bar per sex present. *)
Theorem compare_query_text_without_chart (df : DataFrame) (sex : list string) :
  Sex df = Some sex ->
  let text := gender_text (count_occ string_dec sex "male")
                          (count_occ string_dec sex "female") in
  TitanicAgent.process_query df compare_query = Ok text /\
  main_query df compare_query = Ok (text, None) /\
  Py.any_in viz_terms (Py.lower compare_query) = false /\
  (forall survived, Survived df = Some survived -> sex <> [] ->
     let sexes := Pandas.group_keys String.eqb String.leb sex in
     create_visualization df compare_query
     = Ok (Some (Bar sexes
                   (map (fun k => Pandas.scale 100
                                    (Pandas.mean_int
                                       (Pandas.group_of String.eqb k sex
                                          survived)))
                        sexes)
                   "Survival Rate by Gender"))).
Proof.
  intros Hs text.
  assert (HP : TitanicAgent.process_query df compare_query = Ok text).
  { unfold TitanicAgent.process_query, TitanicAgent.process_query_body.
    cbv zeta. eval_tests. rewrite Hs. simpl.
    rewrite !(value_counts_get String.eqb string_dec String.eqb_eq).
    reflexivity. }
  split; [exact HP|]. split; [|split; [reflexivity|]].
  - unfold main_query. rewrite HP. cbv beta iota delta [bind].
    eval_tests. reflexivity.
  - intros survived Hv Hne sexes.
    unfold create_visualization, create_visualization_body.
    cbv zeta. eval_tests. rewrite Hs, Hv. cbv beta iota delta [bind getitem].
    rewrite groupby_index by reflexivity. rewrite groupby_values.
    fold sexes. rewrite bar_same_length.
    + reflexivity.
    + apply (group_keys_not_nil String.eqb String.leb string_dec
               String.eqb_eq), Hne.
    + rewrite length_map. reflexivity.
Qed.

Lemma compare_query_text_without_chart_witness :
  Sex passengers6
  = Some ["male"; "female"; "female"; "female"; "male"; "male"] /\
  TitanicAgent.process_query passengers6 compare_query
  = Ok (gender_text 3 3) /\
  main_query passengers6 compare_query = Ok (gender_text 3 3, None) /\
  exists rates,
    create_visualization passengers6 compare_query
    = Ok (Some (Bar ["female"; "male"] rates "Survival Rate by Gender")).
Proof.
  split; [reflexivity|].
  destruct (compare_query_text_without_chart passengers6
              ["male"; "female"; "female"; "female"; "male"; "male"]
              eq_refl) as (H1 & H2 & _ & H4).
  split; [exact H1|]. split; [exact H2|].
  eexists. apply (H4 [0; 1; 1; 1; 0; 0]%Z eq_refl). discriminate.
Defined.

(** C1, as stated, fails on the six-passenger frame: the text shown is the
    gender breakdown and no chart accompanies it. *)
Lemma compare_query_counterexample :
  main_query passengers6 compare_query = Ok (gender_text 3 3, None) /\
  gender_text 3 3
  = [Txt ("👥 Passenger gender distribution:" ++ NL ++ "Male: "); Int 3;
     Txt (NL ++ "Female: "); Int 3].
Proof. split; reflexivity. Qed.

(** ** Fare queries that ask for a chart *)

Lemma bar_Ok_inv (x : list string) (y : list float64) (title : string)
  (fig : Figure) :
  Px.bar x y title = Ok fig -> fig = Bar x y title.
Proof.
  unfold Px.bar.
  destruct x as [|a x], y as [|b y]; try discriminate;
    destruct (_ =? _)%nat; try discriminate; intros H; inversion H;
    reflexivity.
Qed.

Lemma pie_Ok_inv (values : list nat) (names : list string) (title : string)
  (fig : Figure) :
  Px.pie values names title = Ok fig -> fig = Pie values names title.
Proof.
  unfold Px.pie. destruct (_ =? _)%nat; [|discriminate].
  intros H. inversion H. reflexivity.
Qed.

(** C5, as the code has it. A query that holds "fare" and one of show,
    plot, chart, graph never gets the fare statistics as its text,
    whatever the frame. There is no fare chart: the builder returns a
    figure for such a query only when one of its four rules matches, and
    the figure is then the chart of that rule (age histogram, class bar
    chart, class pie chart, gender bar chart); a query that matches none
    of the four gets no figure.
    "show me the fare distribution by class" matches none: the builder
    returns [None] for it and [main] shows the help text and no chart. *)
Theorem fare_chart_query_no_fare_stats (df : DataFrame) (q : string) :
  Py.str_in "fare" (Py.lower q) = true ->
  Py.any_in chart_terms (Py.lower q) = true ->
  (forall a b c,
      TitanicAgent.process_query df q <> Ok (fare_text a b c)) /\
  (forall fig, create_visualization df q = Ok (Some fig) ->
     (Py.str_in "age distribution" (Py.lower q) = true /\
      exists x, fig = Histogram x 30 "Age Distribution of Passengers") \/
     (Py.str_in "survival rate by class" (Py.lower q) = true /\
      exists y, fig = Bar class_names y "Survival Rate by Passenger Class") \/
     (Py.str_in "pie chart" (Py.lower q) && Py.str_in "class" (Py.lower q)
      = true /\
      exists values,
        fig = Pie values class_names "Distribution of Passenger Classes") \/
     (Py.str_in "survival" (Py.lower q)
      && (Py.str_in "gender" (Py.lower q) || Py.str_in "male" (Py.lower q)
          || Py.str_in "female" (Py.lower q)) = true /\
      exists x y, fig = Bar x y "Survival Rate by Gender")) /\
  (Py.str_in "age distribution" (Py.lower q) = false ->
   Py.str_in "survival rate by class" (Py.lower q) = false ->
   Py.str_in "pie chart" (Py.lower q) && Py.str_in "class" (Py.lower q)
   = false ->
   Py.str_in "survival" (Py.lower q)
   && (Py.str_in "gender" (Py.lower q) || Py.str_in "male" (Py.lower q)
       || Py.str_in "female" (Py.lower q)) = false ->
   create_visualization df q = Ok None) /\
  (forall d, create_visualization d fare_by_class_query = Ok None) /\
  (forall d, main_query d fare_by_class_query = Ok (help_text, None)).
Proof.
  intros Hfare Hchart. split; [|split; [|split; [|split]]].
  - intros a b c.
    unfold TitanicAgent.process_query, TitanicAgent.process_query_body.
    cbv zeta. rewrite Hfare, Hchart.
    destruct (Py.str_in "survived" (Py.lower q)).
    { destruct (Survived df); simpl;
        [destruct (true_divide _ _); simpl|]; intros H; inversion H. }
    destruct (Py.str_in "average age" (Py.lower q)).
    { destruct (Age df); simpl; intros H; inversion H. }
    destruct (Py.str_in "male" (Py.lower q) || Py.str_in "female" (Py.lower q)
              || Py.str_in "gender" (Py.lower q)).
    { destruct (Sex df); simpl; intros H; inversion H. }
    rewrite andb_false_r.
    destruct (Py.str_in "embarked" (Py.lower q)
              || Py.str_in "port" (Py.lower q)).
    { destruct (Embarked df); simpl; intros H; [|inversion H].
      rewrite fold_left_app_flat_map in H. simpl in H. inversion H. }
    simpl. intros H. inversion H.
  - intros fig.
    unfold create_visualization, create_visualization_body. cbv zeta.
    destruct (Py.str_in "age distribution" (Py.lower q)).
    { destruct (Age df) as [age|]; simpl; intros H; inversion H.
      left. split; [reflexivity | eauto]. }
    destruct (Py.str_in "survival rate by class" (Py.lower q)).
    { destruct (Pclass df) as [pclass|]; reduce_calls; [|discriminate].
      destruct (Survived df) as [survived|]; reduce_calls; [|discriminate].
      match goal with
      | |- context [Px.bar ?x ?y ?t] =>
          destruct (Px.bar x y t) as [f|e] eqn:Hbar
      end; reduce_calls; [|discriminate].
      intros H. inversion H. subst f. apply bar_Ok_inv in Hbar.
      right. left. split; [reflexivity | eauto]. }
    destruct (Py.str_in "pie chart" (Py.lower q)
              && Py.str_in "class" (Py.lower q)).
    { destruct (Pclass df) as [pclass|]; reduce_calls; [|discriminate].
      match goal with
      | |- context [Px.pie ?x ?y ?t] =>
          destruct (Px.pie x y t) as [f|e] eqn:Hpie
      end; reduce_calls; [|discriminate].
      intros H. inversion H. subst f. apply pie_Ok_inv in Hpie.
      right. right. left. split; [reflexivity | eauto]. }
    destruct (Py.str_in "survival" (Py.lower q)
              && (Py.str_in "gender" (Py.lower q)
                  || Py.str_in "male" (Py.lower q)
                  || Py.str_in "female" (Py.lower q))).
    { destruct (Sex df) as [sex|]; reduce_calls; [|discriminate].
      destruct (Survived df) as [survived|]; reduce_calls; [|discriminate].
      match goal with
      | |- context [Px.bar ?x ?y ?t] =>
          destruct (Px.bar x y t) as [f|e] eqn:Hbar
      end; reduce_calls; [|discriminate].
      intros H. inversion H. subst f. apply bar_Ok_inv in Hbar.
      right. right. right. split; [reflexivity | eauto]. }
    simpl. discriminate.
  - intros H1 H2 H3 H4.
    unfold create_visualization, create_visualization_body. cbv zeta.
    rewrite H1, H2, H3, H4. reflexivity.
  - intros d. unfold create_visualization, create_visualization_body.
    cbv zeta. eval_tests. reflexivity.
  - intros d. unfold main_query, TitanicAgent.process_query,
      TitanicAgent.process_query_body, create_visualization,
      create_visualization_body.
    cbv zeta. eval_tests. reflexivity.
Qed.

Lemma fare_chart_query_no_fare_stats_witness :
  Py.str_in "fare" (Py.lower "Show me the fare distribution by class") = true
  /\ Py.any_in chart_terms (Py.lower "Show me the fare distribution by class")
     = true
  /\ TitanicAgent.process_query passengers6
       "Show me the fare distribution by class"
     <> Ok (fare_text (Fin 33.245) (Fin 71.2833) (Fin 7.25))
  /\ create_visualization passengers6 "Show me the fare distribution by class"
     = Ok None.
Proof.
  split; [reflexivity|]. split; [reflexivity|].
  destruct (fare_chart_query_no_fare_stats passengers6
              "Show me the fare distribution by class" eq_refl eq_refl)
    as (H1 & _ & H3 & _).
  split; [apply H1 | apply H3; reflexivity].
Defined.

(** C5, as stated, fails: this query holds "fare" and "show", and a chart
    is produced for it, the age histogram. *)
Lemma fare_chart_query_counterexample :
  Py.str_in "fare" (Py.lower "Show the fare and age distribution") = true /\
  Py.any_in chart_terms (Py.lower "Show the fare and age distribution")
  = true /\
  main_query passengers6 "Show the fare and age distribution"
  = Ok (help_text,
        Some (Histogram [Fin 22; Fin 38; Fin 26; Fin 35; NaN; Fin 54]%Q 30
                "Age Distribution of Passengers")).
Proof. repeat split. Qed.

(** ** The survival count *)

Lemma sum_flags_bounds (survived : list Z) :
  Forall (fun s => s = 0%Z \/ s = 1%Z) survived ->
  (0 <= Pandas.sum_int survived <= Z.of_nat (List.length survived))%Z.
Proof.
  induction 1 as [|s r Hs _ IH]; simpl.
  - lia.
  - destruct Hs; subst s; lia.
Qed.

Lemma percentage_bounds (x y : Z) :
  (0 <= x <= y)%Z -> (0 < y)%Z ->
  (0 <= inject_Z x / inject_Z y * 100 /\
   inject_Z x / inject_Z y * 100 <= 100)%Q.
Proof.
  intros [H0 Hxy] Hy.
  assert (Hy' : (0 < inject_Z y)%Q).
  { change 0%Q with (inject_Z 0). rewrite <- Zlt_Qlt. exact Hy. }
  assert (Hlo : (0 <= inject_Z x / inject_Z y)%Q).
  { apply Qle_shift_div_l; [exact Hy'|].
    rewrite Qmult_0_l. change 0%Q with (inject_Z 0).
    rewrite <- Zle_Qle. exact H0. }
  assert (Hhi : (inject_Z x / inject_Z y <= 1)%Q).
  { apply Qle_shift_div_r; [exact Hy'|].
    rewrite Qmult_1_l. rewrite <- Zle_Qle. exact Hxy. }
  split.
  - apply Qmult_le_0_compat; [exact Hlo | discriminate].
  - setoid_replace 100%Q with (1 * 100)%Q at 2 by reflexivity.
    apply Qmult_le_compat_r; [exact Hhi | discriminate].
Qed.

(** C4. Whatever else the query holds, a query whose lowercased text
    contains "survived" is answered by the survival count: on a non-empty
    frame whose survival flags are 0 or 1, the text is
    "X passengers survived out of Y (Z%)" with X the number of survivors,
    Y the number of rows, X at most Y, and Z the percentage X / Y * 100,
    between 0 and 100, written with one decimal. *)
Theorem survived_query_survival_count
  (df : DataFrame) (q : string) (survived : list Z) :
  Py.str_in "survived" (Py.lower q) = true ->
  Survived df = Some survived ->
  List.length survived = nrows df ->
  (0 < nrows df)%nat ->
  Forall (fun s => s = 0%Z \/ s = 1%Z) survived ->
  let x := Pandas.sum_int survived in
  let y := Z.of_nat (nrows df) in
  exists z : Q,
    TitanicAgent.process_query df q
    = Ok [Txt "🚢 "; Int x; Txt " passengers survived out of "; Int y;
          Txt " ("; Flt 1 (Fin z); Txt "%)"] /\
    (0 <= x <= y)%Z /\
    (z == inject_Z x / inject_Z y * 100)%Q /\
    (0 <= z)%Q /\ (z <= 100)%Q.
Proof.
  intros Hq Hcol Hlen Hpos Hflags x y.
  assert (Hb : (0 <= x <= y)%Z).
  { unfold x, y. rewrite <- Hlen. apply sum_flags_bounds, Hflags. }
  assert (Hy : (0 < y)%Z) by (unfold y; lia).
  exists (inject_Z x / inject_Z y * 100)%Q.
  split; [|split; [exact Hb|split; [reflexivity|]]].
  - unfold TitanicAgent.process_query, TitanicAgent.process_query_body.
    cbv zeta. rewrite Hq, Hcol. simpl.
    unfold survival_text, true_divide. fold x. fold y.
    destruct (Z.eqb_spec y 0) as [E|_]; [lia|]. reflexivity.
  - apply percentage_bounds; assumption.
Qed.

Lemma survived_query_survival_count_witness :
  Py.str_in "survived" (Py.lower "How many passengers survived?") = true /\
  exists z : Q,
    TitanicAgent.process_query passengers6 "How many passengers survived?"
    = Ok [Txt "🚢 "; Int 3; Txt " passengers survived out of "; Int 6;
          Txt " ("; Flt 1 (Fin z); Txt "%)"] /\
    (0 <= 3 <= 6)%Z /\
    (z == inject_Z 3 / inject_Z 6 * 100)%Q /\
    (0 <= z)%Q /\ (z <= 100)%Q.
Proof.
  split; [reflexivity|].
  apply (survived_query_survival_count passengers6
           "How many passengers survived?" [0; 1; 1; 1; 0; 0]%Z).
  - reflexivity.
  - reflexivity.
  - reflexivity.
  - simpl. lia.
  - repeat constructor; (left; reflexivity) || (right; reflexivity).
Defined.

(** The keyword wins over every later rule: a query that also asks for the
    average age, the ports and a chart still gets the survival count. *)
Example survived_has_precedence :
  TitanicAgent.process_query passengers6
    "Show the average age, gender, class, port and fare of those who survived"
  = Ok (survival_text 3 6 (Fin (inject_Z 3 / inject_Z 6))).
Proof. reflexivity. Qed.

(** ** The class charts *)

Lemma tally_counts {K : Type} (eqb : K -> K -> bool)
  (eq_dec : forall x y : K, {x = y} + {x <> y})
  (eqb_eq : forall x y, eqb x y = true <-> x = y) (s : list K) :
  map snd (Pandas.tally eqb s)
  = map (count_occ eq_dec s) (map fst (Pandas.tally eqb s)).
Proof.
  rewrite map_map. apply map_ext_in. intros [k n] Hin. simpl.
  apply (tally_In eqb eq_dec eqb_eq) in Hin. tauto.
Qed.

Lemma group_keys_length {K : Type} (eqb kleb : K -> K -> bool)
  (eq_dec : forall x y : K, {x = y} + {x <> y})
  (eqb_eq : forall x y, eqb x y = true <-> x = y) (s : list K) :
  List.length (Pandas.group_keys eqb kleb s) = List.length (nodup eq_dec s).
Proof.
  unfold Pandas.group_keys. rewrite sort_length, length_map.
  rewrite <- (value_counts_length eqb eq_dec eqb_eq).
  unfold Pandas.value_counts. rewrite sort_length. reflexivity.
Qed.

(** The slice values are the per-class counts, in some order. *)
Lemma value_counts_values_perm (pclass : list Z) :
  Permutation
    (Pandas.values (Pandas.value_counts Z.eqb pclass))
    (map (count_occ Z.eq_dec pclass) (Pandas.group_keys Z.eqb Z.leb pclass)).
Proof.
  unfold Pandas.values, Pandas.group_keys.
  eapply perm_trans.
  - apply Permutation_map, value_counts_perm.
  - rewrite (tally_counts Z.eqb Z.eq_dec Z.eqb_eq).
    apply Permutation_map, Permutation_sym, sort_perm.
Qed.

(** C2, as the code has it. A query that holds "pie chart" and "class"
    and matches neither of the two earlier chart rules, on a frame with
    exactly three distinct passenger classes, gets a pie chart with exactly
    three slices labelled First, Second, Third; the slice values are the
    passenger counts of the three classes, each class once, and they sum
    to the number of passengers. *)
Theorem class_pie_three_slices (df : DataFrame) (q : string) (pclass : list Z) :
  Py.str_in "pie chart" (Py.lower q) = true ->
  Py.str_in "class" (Py.lower q) = true ->
  Py.str_in "age distribution" (Py.lower q) = false ->
  Py.str_in "survival rate by class" (Py.lower q) = false ->
  Pclass df = Some pclass ->
  List.length pclass = nrows df ->
  List.length (nodup Z.eq_dec pclass) = 3%nat ->
  exists values : list nat,
    create_visualization df q
    = Ok (Some (Pie values ["First"; "Second"; "Third"]
                  "Distribution of Passenger Classes")) /\
    List.length values = 3%nat /\
    Permutation values
      (map (count_occ Z.eq_dec pclass)
           (Pandas.group_keys Z.eqb Z.leb pclass)) /\
    list_sum values = nrows df.
Proof.
  intros Hpie Hclass Hage Hrate Hcol Hlen H3.
  exists (Pandas.values (Pandas.value_counts Z.eqb pclass)).
  assert (Hl : List.length (Pandas.values (Pandas.value_counts Z.eqb pclass))
               = 3%nat).
  { unfold Pandas.values. rewrite length_map.
    rewrite (value_counts_length Z.eqb Z.eq_dec Z.eqb_eq). exact H3. }
  split; [|split; [exact Hl|split]].
  - unfold create_visualization, create_visualization_body. cbv zeta.
    rewrite Hage, Hrate, Hpie, Hclass, Hcol. simpl.
    unfold Px.pie. rewrite Hl. reflexivity.
  - apply value_counts_values_perm.
  - unfold Pandas.values.
    rewrite (value_counts_sum Z.eqb Z.eq_dec Z.eqb_eq). exact Hlen.
Qed.

Lemma class_pie_three_slices_witness :
  Py.str_in "pie chart" (Py.lower pie_query) = true /\
  Py.str_in "class" (Py.lower pie_query) = true /\
  exists values : list nat,
    create_visualization passengers6 pie_query
    = Ok (Some (Pie values ["First"; "Second"; "Third"]
                  "Distribution of Passenger Classes")) /\
    List.length values = 3%nat /\
    Permutation values
      (map (count_occ Z.eq_dec [3; 1; 3; 1; 3; 2]%Z)
           (Pandas.group_keys Z.eqb Z.leb [3; 1; 3; 1; 3; 2]%Z)) /\
    list_sum values = 6%nat.
Proof.
  split; [reflexivity|]. split; [reflexivity|].
  apply (class_pie_three_slices passengers6 pie_query [3; 1; 3; 1; 3; 2]%Z);
    reflexivity.
Defined.

(** C2, as stated, fails on a frame with two passenger classes: the query
    holds "pie chart" and "class", and no pie chart comes back. *)
Lemma class_pie_counterexample :
  Py.str_in "pie chart" (Py.lower pie_query) = true /\
  Py.str_in "class" (Py.lower pie_query) = true /\
  create_visualization two_classes4 pie_query = Ok None.
Proof. repeat split. Qed.

(** It also fails through the rule order: an earlier chart rule answers a
    query that holds "pie chart" and "class" too. *)
Example class_pie_after_age_histogram :
  create_visualization passengers6
    "age distribution as a pie chart by class"
  = Ok (Some (Histogram [Fin 22; Fin 38; Fin 26; Fin 35; NaN; Fin 54]%Q 30
                "Age Distribution of Passengers")).
Proof. reflexivity. Qed.

(** The slices come in the order of [value_counts], most frequent class
    first, under the fixed labels: with two passengers in first class, one
    in second and three in third, the slice named First carries 3. The
    class breakdown text sorts the same counts by class before reading
    them. *)
Example class_pie_slice_order :
  create_visualization passengers6 pie_query
  = Ok (Some (Pie [3; 2; 1]%nat ["First"; "Second"; "Third"]
                "Distribution of Passenger Classes")) /\
  map (count_occ Z.eq_dec [3; 1; 3; 1; 3; 2]%Z) [1; 2; 3]%Z = [2; 1; 3]%nat /\
  TitanicAgent.process_query passengers6 "passenger class distribution"
  = Ok (class_text 2 1 3).
Proof. repeat split. Qed.

(** C9. When the [Pclass] column holds fewer than three distinct classes,
    a query routed to the class bar chart or to the class pie chart makes
    the builder's body raise (with both columns present, because the three
    fixed labels do not match the number of values), and
    [create_visualization] returns [None]. *)
Theorem fewer_than_three_classes_no_chart (df : DataFrame) (q : string) :
  (forall pclass, Pclass df = Some pclass ->
                  (List.length (nodup Z.eq_dec pclass) < 3)%nat) ->
  Py.str_in "age distribution" (Py.lower q) = false ->
  Py.str_in "survival rate by class" (Py.lower q) = true \/
  (Py.str_in "pie chart" (Py.lower q) = true /\
   Py.str_in "class" (Py.lower q) = true) ->
  (exists e,
      create_visualization_body df (Py.lower q) = Raise e /\
      (Pclass df <> None -> Survived df <> None ->
       e = ValueError "All arguments should have the same length.")) /\
  create_visualization df q = Ok None.
Proof.
  intros Hfew Hage Hroute.
  assert (HB : exists e,
      create_visualization_body df (Py.lower q) = Raise e /\
      (Pclass df <> None -> Survived df <> None ->
       e = ValueError "All arguments should have the same length.")).
  { unfold create_visualization_body. rewrite Hage.
    destruct (Py.str_in "survival rate by class" (Py.lower q)) eqn:Hrate.
    - destruct (Pclass df) as [pclass|] eqn:Hp; reduce_calls.
      + destruct (Survived df) as [survived|] eqn:Hs; reduce_calls.
        * specialize (Hfew pclass eq_refl).
          rewrite groupby_values. rewrite bar_length_mismatch.
          { simpl. eexists.
            split; [reflexivity | intros _ _; reflexivity]. }
          rewrite length_map.
          rewrite (group_keys_length Z.eqb Z.leb Z.eq_dec Z.eqb_eq).
          simpl. lia.
        * eexists. split; [reflexivity | intros _ H; congruence].
      + eexists. split; [reflexivity | intros H; congruence].
    - destruct Hroute as [H|[Hpie Hclass]]; [discriminate|].
      rewrite Hpie, Hclass. simpl.
      destruct (Pclass df) as [pclass|] eqn:Hp; simpl.
      + specialize (Hfew pclass eq_refl).
        unfold Px.pie, Pandas.values. rewrite length_map.
        rewrite (value_counts_length Z.eqb Z.eq_dec Z.eqb_eq).
        destruct (Nat.eqb_spec (List.length (nodup Z.eq_dec pclass))
                    (List.length class_names)) as [E|_].
        { simpl in E. lia. }
        simpl. eexists. split; [reflexivity | intros _ _; reflexivity].
      + eexists. split; [reflexivity | intros H; congruence]. }
  split; [exact HB|].
  destruct HB as (e & HB & _).
  unfold create_visualization. cbv zeta. rewrite HB. reflexivity.
Qed.

Lemma fewer_than_three_classes_no_chart_witness :
  (List.length (nodup Z.eq_dec [1; 3; 3; 1]%Z) < 3)%nat /\
  create_visualization two_classes4 "Show the survival rate by class"
  = Ok None.
Proof.
  split; [simpl; lia|].
  apply (fewer_than_three_classes_no_chart two_classes4
           "Show the survival rate by class").
  - intros pclass H. injection H as <-. simpl. lia.
  - reflexivity.
  - left. reflexivity.
Defined.

(** ** The port breakdown *)

Lemma dropna_obj_In {A : Type} (s : list (option A)) (a : A) :
  In a (Pandas.dropna_obj s) <-> In (Some a) s.
Proof.
  unfold Pandas.dropna_obj. rewrite in_flat_map. split.
  - intros ([b|] & Hin & Hb); simpl in Hb; [|contradiction].
    destruct Hb as [->|[]]. exact Hin.
  - intros Hin. exists (Some a). split; [exact Hin | left; reflexivity].
Qed.

Lemma StronglySorted_weaken {A : Type} (P R : A -> A -> Prop) (l : list A) :
  (forall a b, P a b -> R a b) -> StronglySorted P l -> StronglySorted R l.
Proof.
  intros HPR. induction 1 as [|a r Hs IH Hall]; constructor.
  - exact IH.
  - eapply Forall_impl; [|exact Hall]. intros b. apply HPR.
Qed.

Lemma value_counts_descending {K : Type} (eqb : K -> K -> bool) (s : list K) :
  StronglySorted (fun a b => (snd b <= snd a)%nat)
    (Pandas.value_counts eqb s).
Proof.
  unfold Pandas.value_counts.
  eapply StronglySorted_weaken.
  2: { apply (sort_sorted (fun x y : K * nat => (snd y <=? snd x)%nat)).
       - intros x y. rewrite !Nat.leb_le. lia.
       - intros x y z. rewrite !Nat.leb_le. lia. }
  intros a b Hab. apply Nat.leb_le in Hab. exact Hab.
Qed.

(** C8, as the code has it. A query that reaches the port rule, on a
    frame with an [Embarked] column, is answered by the header followed by
    one line per distinct port present, each port once, each with the
    number of passengers who embarked there, the most frequent port first:
    the counts never go up from one line to the next. Nothing more is
    said of the order, so ports with equal counts may come either way. A
    line names the port (S, C, Q as Southampton, Cherbourg, Queenstown;
    any other code as it is) and gives its count. *)
Theorem port_breakdown_lines
  (df : DataFrame) (q : string) (embarked : list (option string)) :
  port_rule_fires (Py.lower q) = true ->
  Embarked df = Some embarked ->
  exists stats : list (string * nat),
  TitanicAgent.process_query df q
  = Ok (port_header
        ++ flat_map (fun item => port_line (fst item) (snd item)) stats) /\
  NoDup (map fst stats) /\
  (forall port, In port (map fst stats) <-> In (Some port) embarked) /\
  (forall port count, In (port, count) stats ->
     count = count_occ string_dec (Pandas.dropna_obj embarked) port) /\
  StronglySorted (fun a b => (snd b <= snd a)%nat) stats /\
  (forall count,
     port_line "S" count
     = [Txt "Southampton"; Txt ": "; Int (Z.of_nat count);
        Txt (" passengers" ++ NL)] /\
     port_line "C" count
     = [Txt "Cherbourg"; Txt ": "; Int (Z.of_nat count);
        Txt (" passengers" ++ NL)] /\
     port_line "Q" count
     = [Txt "Queenstown"; Txt ": "; Int (Z.of_nat count);
        Txt (" passengers" ++ NL)]) /\
  (forall port count, port <> "S" -> port <> "C" -> port <> "Q" ->
     port_line port count
     = [Txt port; Txt ": "; Int (Z.of_nat count);
        Txt (" passengers" ++ NL)]).
Proof.
  intros Hroute Hcol.
  exists (Pandas.value_counts String.eqb (Pandas.dropna_obj embarked)).
  unfold port_rule_fires in Hroute.
  repeat (apply andb_true_iff in Hroute; destruct Hroute as [Hroute ?]).
  repeat match goal with
         | H : negb _ = true |- _ => apply negb_true_iff in H
         end.
  split; [|split; [|split; [|split; [|split; [|split]]]]].
  - unfold TitanicAgent.process_query, TitanicAgent.process_query_body.
    cbv zeta.
    repeat match goal with
           | H : _ = false |- _ => rewrite H
           | H : _ = true |- _ => rewrite H
           end.
    rewrite Hcol. simpl. rewrite fold_left_app_flat_map. reflexivity.
  - apply (value_counts_NoDup String.eqb string_dec String.eqb_eq).
  - intros port.
    rewrite (value_counts_keys String.eqb string_dec String.eqb_eq).
    apply dropna_obj_In.
  - intros port count Hin.
    apply (value_counts_In String.eqb string_dec String.eqb_eq) in Hin.
    tauto.
  - apply value_counts_descending.
  - intros count. repeat split.
  - intros port count HS HC HQ. unfold port_line, port_names.
    cbn [Py.dict_get].
    assert (ES : String.eqb "S" port = false)
      by (apply String.eqb_neq; congruence).
    assert (EC : String.eqb "C" port = false)
      by (apply String.eqb_neq; congruence).
    assert (EQ : String.eqb "Q" port = false)
      by (apply String.eqb_neq; congruence).
    rewrite ES, EC, EQ. reflexivity.
Qed.

Lemma port_breakdown_lines_witness :
  port_rule_fires (Py.lower "How many passengers embarked from each port?")
  = true /\
  Embarked passengers6
  = Some [Some "S"; Some "C"; Some "S"; None; Some "C"; Some "S"] /\
  exists stats : list (string * nat),
    TitanicAgent.process_query passengers6
      "How many passengers embarked from each port?"
    = Ok (port_header
          ++ flat_map (fun item => port_line (fst item) (snd item)) stats) /\
    NoDup (map fst stats) /\
    (forall port, In port (map fst stats) <->
       In (Some port)
         [Some "S"; Some "C"; Some "S"; None; Some "C"; Some "S"]) /\
    StronglySorted (fun a b => (snd b <= snd a)%nat) stats.
Proof.
  split; [reflexivity|]. split; [reflexivity|].
  destruct (port_breakdown_lines passengers6
              "How many passengers embarked from each port?"
              [Some "S"; Some "C"; Some "S"; None; Some "C"; Some "S"]
              eq_refl eq_refl)
    as (stats & Hq & Hnd & Hin & _ & Hsorted & _).
  exists stats.
  split; [exact Hq|]. split; [exact Hnd|]. split; [exact Hin | exact Hsorted].
Defined.

(** The order is that of the counts, not of the rows: where the first
    row embarked at Cherbourg and the three others at Southampton, the
    ports are first seen as C then S, and the answer lists Southampton
    first. *)
Lemma port_breakdown_counterexample :
  port_rule_fires (Py.lower "How many passengers embarked from each port?")
  = true /\
  Embarked two_classes4 = Some [Some "C"; Some "S"; Some "S"; Some "S"] /\
  TitanicAgent.process_query two_classes4
    "How many passengers embarked from each port?"
  = Ok (port_header ++ port_line "S" 3 ++ port_line "C" 1) /\
  TitanicAgent.process_query two_classes4
    "How many passengers embarked from each port?"
  <> Ok (port_header ++ port_line "C" 1 ++ port_line "S" 3).
Proof.
  split; [reflexivity|]. split; [reflexivity|].
  split; [reflexivity | discriminate].
Qed.

(** ** Preprocessing can fail on a complete, non-empty table *)

(** C10. There is a non-empty table with all six columns, in which more
    than a quarter of the fares are the same value, on which preprocessing
    raises instead of returning a frame: the quartile edges of its fares
    are not distinct and [qcut] rejects them. *)
Theorem quartile_error_reachable :
  exists (t : DataFrame) (fares : list float64) (fare : Q),
    (0 < nrows t)%nat /\ well_formed t /\ schema_complete t /\
    Fare t = Some fares /\
    (List.length fares < 4 * fare_count fare fares)%nat /\
    load_and_process_data (Table t)
    = Raise (ValueError "Bin edges must be unique").
Proof.
  exists shared_fare5,
    [Fin 7.25; Fin 8.05; Fin 8.05; Fin 26; Fin 71.2833]%Q, 8.05%Q.
  split; [simpl; lia|].
  split; [repeat split|].
  split; [repeat split; discriminate|].
  split; [reflexivity|].
  split; [vm_compute; lia|].
  vm_compute. reflexivity.
Qed.

(** The edges [qcut] computes for that table: the second and the third
    coincide. *)
Example shared_fare5_edges :
  map Qred (map (Pandas.quantile [7.25; 8.05; 8.05; 26; 71.2833]%Q)
                (Pandas.linspace01 4))
  = [29 # 4; 161 # 20; 161 # 20; 26; 712833 # 10000]%Q.
Proof. vm_compute. reflexivity. Qed.

(** ** Preprocessing, step by step *)

Lemma age_bin_label (v : float64) :
  Pandas.bin_label age_bins age_labels false v = age_group_of v.
Proof.
  destruct v as [|a]; [reflexivity|].
  unfold Pandas.bin_label, Pandas.bin_id, age_group_of, age_bins.
  cbn [Pandas.searchsorted_left andb].
  repeat match goal with
         | |- context [Qle_bool a ?b] => destruct (Qle_bool a b)
         end; reflexivity.
Qed.

(** The fixed edges and labels pass every check of [cut]. *)
Lemma cut_age (x : list float64) :
  Pandas.cut x age_bins age_labels = Ok (map age_group_of x).
Proof.
  unfold Pandas.cut, Pandas.bins_to_cuts.
  change (Pandas.nondecreasing age_bins) with true.
  change (List.length (Pandas.unique Qeq_bool age_bins)) with 7%nat.
  change (List.length (Pandas.unique String.eqb age_labels)) with 6%nat.
  cbn. f_equal. apply map_ext. intros v. apply age_bin_label.
Qed.

Lemma unique_length_le {A : Type} (eqb : A -> A -> bool) (l : list A) :
  (List.length (Pandas.unique eqb l) <= List.length l)%nat.
Proof.
  induction l as [|x r IH]; simpl.
  - lia.
  - pose proof (filter_length_le (fun y => negb (eqb x y))
                  (Pandas.unique eqb r)). lia.
Qed.

Lemma fare_edges_length (v : list Q) : List.length (fare_edges v) = 5%nat.
Proof. unfold fare_edges. rewrite length_map. reflexivity. Qed.

(** [qcut] with four labels raises exactly when the edges repeat. *)
Lemma qcut_fare (x : list float64) :
  Pandas.qcut x 4 fare_labels
  = if quartile_edges_distinct x
    then Ok (map (Pandas.bin_label (fare_edges (Pandas.dropna x))
                    fare_labels true) x)
    else Raise (ValueError "Bin edges must be unique").
Proof.
  unfold Pandas.qcut, quartile_edges_distinct.
  destruct (Pandas.dropna x) as [|x0 v] eqn:Hv; [reflexivity|].
  fold (fare_edges (x0 :: v)).
  unfold Pandas.bins_to_cuts. rewrite fare_edges_length.
  pose proof (unique_length_le Qeq_bool (fare_edges (x0 :: v))) as Hle.
  rewrite fare_edges_length in Hle.
  destruct (Nat.eqb_spec
              (List.length (Pandas.unique Qeq_bool (fare_edges (x0 :: v)))) 5)
    as [E|NE].
  - rewrite E. reflexivity.
  - destruct (Nat.ltb_spec
                (List.length (Pandas.unique Qeq_bool (fare_edges (x0 :: v))))
                5) as [_|Hge]; [reflexivity | lia].
Qed.

(** [load_and_process_data] on a table, check by check. *)
Lemma load_table (df : DataFrame) :
  load_and_process_data (Table df)
  = match Age df, Embarked df with
    | None, _ => Raise (KeyError "Age")
    | Some _, None => Raise (KeyError "Embarked")
    | Some age, Some embarked =>
        match Pandas.mode embarked, Fare df with
        | [], _ => Raise (KeyError "0")
        | _ :: _, None => Raise (KeyError "Fare")
        | mode0 :: _, Some fare =>
            if quartile_edges_distinct (impute fare)
            then Ok (mkDataFrame (nrows df) (Survived df) (Pclass df)
                       (Sex df) (Some (impute age)) (Some (impute fare))
                       (Some (Pandas.fillna_obj embarked mode0))
                       (Some (map age_group_of (impute age)))
                       (Some (map (Pandas.bin_label
                                     (fare_edges
                                        (Pandas.dropna (impute fare)))
                                     fare_labels true)
                                  (impute fare))))
            else Raise (ValueError "Bin edges must be unique")
        end
    end.
Proof.
  unfold load_and_process_data. simpl read_csv. cbv beta iota delta [bind].
  destruct (Age df) as [age|] eqn:Ha; [|reflexivity].
  cbn [getitem set_Age Embarked].
  destruct (Embarked df) as [embarked|] eqn:He; [|reflexivity].
  cbn [getitem].
  destruct (Pandas.mode embarked) as [|mode0 modes] eqn:Hm; [reflexivity|].
  cbn [Pandas.getitem0 set_Age set_Embarked Fare].
  destruct (Fare df) as [fare|] eqn:Hf; [|reflexivity].
  cbn [getitem set_Age set_Embarked set_Fare set_AgeGroup set_FareCategory
       Age Fare].
  rewrite cut_age. rewrite qcut_fare. fold (impute age). fold (impute fare).
  destruct (quartile_edges_distinct (impute fare)); reflexivity.
Qed.

Lemma max_attained {K : Type} (l : list (K * nat)) :
  l <> [] ->
  exists kn, In kn l /\ snd kn = fold_right Nat.max 0%nat (map snd l).
Proof.
  induction l as [|x r IH]; intros Hne; [congruence|].
  destruct r as [|y r'].
  - exists x. split; [left; reflexivity | simpl; lia].
  - destruct IH as (kn & Hin & Hmax); [discriminate|].
    cbn [map fold_right] in *.
    destruct (Nat.max_spec (snd x)
                (Nat.max (snd y) (fold_right Nat.max 0%nat (map snd r'))))
      as [[_ E]|[_ E]]; rewrite E.
    + exists kn. split; [right; exact Hin | exact Hmax].
    + exists x. split; [left; reflexivity | reflexivity].
Qed.

(** [mode] is empty exactly when no cell holds a value. *)
Lemma mode_nil_iff (s : list (option string)) :
  Pandas.mode s = [] <-> Pandas.dropna_obj s = [].
Proof.
  unfold Pandas.mode. split.
  - intros Hm.
    destruct (Pandas.dropna_obj s) as [|a r] eqn:Hd; [reflexivity|].
    exfalso.
    assert (Ht : Pandas.tally String.eqb (a :: r) <> []).
    { intros E.
      assert (Hin : In a (map fst (Pandas.tally String.eqb (a :: r)))).
      { apply (tally_keys String.eqb string_dec String.eqb_eq).
        left. reflexivity. }
      rewrite E in Hin. exact Hin. }
    destruct (max_attained _ Ht) as (kn & Hin & Hmax).
    assert (Hk : In (fst kn) (@nil string)).
    { rewrite <- Hm. apply sort_In. apply in_map. apply filter_In.
      split; [exact Hin | apply Nat.eqb_eq; exact Hmax]. }
    exact Hk.
  - intros ->. reflexivity.
Qed.

(** ** What makes the start fail *)

(** C6, as the code has it. Preprocessing raises in exactly these cases,
    each with its own exception: the fetch fails; the file has nothing to
    parse; the table lacks the Age, the Embarked or the Fare column; no
    row has an embarkation port (an empty table among them); the quartile
    edges of the imputed fares are not pairwise different (a fare column
    without any value among them). In every other case it returns the
    frame. *)
Theorem startup_failures (src : source) (e : exn) :
  load_and_process_data src = Raise e <-> startup_error src e.
Proof.
  split.
  - destruct src as [| |df].
    + intros H. inversion H. constructor.
    + intros H. inversion H. constructor.
    + rewrite load_table.
      destruct (Age df) as [age|] eqn:Ha.
      2: { intros H. inversion H. apply age_column_absent. exact Ha. }
      assert (Ha' : Some age <> None) by discriminate.
      rewrite <- Ha in Ha'.
      destruct (Embarked df) as [embarked|] eqn:He.
      2: { intros H. inversion H. apply embarked_column_absent; assumption. }
      destruct (Pandas.mode embarked) as [|mode0 modes] eqn:Hm.
      { intros H. inversion H.
        apply (no_port_present df embarked); try assumption.
        apply mode_nil_iff. exact Hm. }
      assert (Hd : Pandas.dropna_obj embarked <> []).
      { intros E. apply mode_nil_iff in E. congruence. }
      destruct (Fare df) as [fare|] eqn:Hf.
      2: { intros H. inversion H.
           apply (fare_column_absent df embarked); assumption. }
      destruct (quartile_edges_distinct (impute fare)) eqn:Hq.
      { discriminate. }
      intros H. inversion H.
      apply (quartile_edges_repeat df embarked fare); assumption.
  - intros H. destruct H; try reflexivity; rewrite load_table.
    + rewrite H. reflexivity.
    + destruct (Age df); [|congruence]. rewrite H0. reflexivity.
    + destruct (Age df); [|congruence]. rewrite H0.
      apply mode_nil_iff in H1. rewrite H1. reflexivity.
    + destruct (Age df); [|congruence]. rewrite H0, H2.
      destruct (Pandas.mode embarked) eqn:Hm; [|reflexivity].
      apply mode_nil_iff in Hm. contradiction.
    + destruct (Age df); [|congruence]. rewrite H0, H2, H3.
      destruct (Pandas.mode embarked) eqn:Hm; [|reflexivity].
      apply mode_nil_iff in Hm. contradiction.
Qed.

(** C6, as stated, fails on a non-empty table with all six columns: the
    start fails although the source was retrieved, is not empty and lacks
    no field. *)
Lemma startup_failure_counterexample :
  (0 < nrows same_fare4)%nat /\ schema_complete same_fare4 /\
  load_and_process_data (Table same_fare4)
  = Raise (ValueError "Bin edges must be unique").
Proof.
  split; [simpl; lia|].
  split; [repeat split; discriminate|].
  vm_compute. reflexivity.
Qed.

(** A table without the [Survived] column passes preprocessing; the
    absence shows only when a query needs the column. *)
Example missing_survived_not_detected :
  exists df, load_and_process_data (Table no_survived6) = Ok df /\
             Survived df = None.
Proof. eexists. split; [vm_compute; reflexivity | reflexivity]. Qed.

(** An empty table with all columns fails at [mode()[0]]. *)
Example empty_table_fails :
  load_and_process_data
    (Table (mkDataFrame 0 (Some []) (Some []) (Some []) (Some []) (Some [])
              (Some []) None None))
  = Raise (KeyError "0").
Proof. reflexivity. Qed.

(** A frame that preprocessing returns has at least one row. *)
Lemma snapshot_not_empty (raw df : DataFrame) :
  well_formed raw ->
  load_and_process_data (Table raw) = Ok df ->
  (0 < nrows df)%nat.
Proof.
  intros Hwf. rewrite load_table.
  destruct (Age raw) as [age|]; [|discriminate].
  destruct (Embarked raw) as [embarked|] eqn:He; [|discriminate].
  destruct (Pandas.mode embarked) as [|mode0 modes] eqn:Hm; [discriminate|].
  destruct (Fare raw) as [fare|]; [|discriminate].
  destruct (quartile_edges_distinct (impute fare)); [|discriminate].
  intros H. inversion H. simpl.
  destruct Hwf as (_ & _ & _ & _ & _ & Hlen & _).
  rewrite He in Hlen. simpl in Hlen. rewrite <- Hlen.
  destruct embarked as [|c r]; [|simpl; lia].
  discriminate Hm.
Qed.

(** ** Age groups *)

Lemma Qle_bool_true (a b : Q) : (a <= b)%Q -> Qle_bool a b = true.
Proof. apply Qle_bool_iff. Qed.

Lemma Qle_bool_false (a b : Q) : (b < a)%Q -> Qle_bool a b = false.
Proof.
  intros H. destruct (Qle_bool a b) eqn:E; [|reflexivity].
  apply Qle_bool_iff in E. lra.
Qed.

(** The six intervals, each left-open and right-closed, and what lies
    outside them. *)
Lemma age_group_of_intervals (a : Q) :
  ((0 < a <= 12)%Q -> age_group_of (Fin a) = Some "Child") /\
  ((12 < a <= 18)%Q -> age_group_of (Fin a) = Some "Teen") /\
  ((18 < a <= 35)%Q -> age_group_of (Fin a) = Some "Young Adult") /\
  ((35 < a <= 50)%Q -> age_group_of (Fin a) = Some "Adult") /\
  ((50 < a <= 65)%Q -> age_group_of (Fin a) = Some "Senior") /\
  ((65 < a <= 100)%Q -> age_group_of (Fin a) = Some "Elderly") /\
  ((a <= 0)%Q \/ (100 < a)%Q -> age_group_of (Fin a) = None).
Proof.
  unfold age_group_of.
  repeat split; intros H.
  - rewrite (Qle_bool_false a 0), (Qle_bool_true a 12) by lra. reflexivity.
  - rewrite (Qle_bool_false a 0), (Qle_bool_false a 12),
      (Qle_bool_true a 18) by lra. reflexivity.
  - rewrite (Qle_bool_false a 0), (Qle_bool_false a 12),
      (Qle_bool_false a 18), (Qle_bool_true a 35) by lra. reflexivity.
  - rewrite (Qle_bool_false a 0), (Qle_bool_false a 12),
      (Qle_bool_false a 18), (Qle_bool_false a 35),
      (Qle_bool_true a 50) by lra. reflexivity.
  - rewrite (Qle_bool_false a 0), (Qle_bool_false a 12),
      (Qle_bool_false a 18), (Qle_bool_false a 35),
      (Qle_bool_false a 50), (Qle_bool_true a 65) by lra. reflexivity.
  - rewrite (Qle_bool_false a 0), (Qle_bool_false a 12),
      (Qle_bool_false a 18), (Qle_bool_false a 35),
      (Qle_bool_false a 50), (Qle_bool_false a 65),
      (Qle_bool_true a 100) by lra. reflexivity.
  - destruct H as [H|H].
    + rewrite (Qle_bool_true a 0) by lra. reflexivity.
    + rewrite (Qle_bool_false a 0), (Qle_bool_false a 12),
        (Qle_bool_false a 18), (Qle_bool_false a 35),
        (Qle_bool_false a 50), (Qle_bool_false a 65),
        (Qle_bool_false a 100) by lra. reflexivity.
Qed.

(** ** Fare categories *)

Lemma Qle_bool_total (x y : Q) : Qle_bool x y = true \/ Qle_bool y x = true.
Proof.
  rewrite !Qle_bool_iff. destruct (Qlt_le_dec x y); [left | right]; lra.
Qed.

Lemma Qle_bool_trans (x y z : Q) :
  Qle_bool x y = true -> Qle_bool y z = true -> Qle_bool x z = true.
Proof. rewrite !Qle_bool_iff. apply Qle_trans. Qed.

Lemma sorted_first_le (l : list Q) (x : Q) :
  StronglySorted (fun a b => Qle_bool a b = true) l ->
  In x l -> (nth 0 l 0 <= x)%Q.
Proof.
  intros Hs Hin. destruct l as [|h t]; [contradiction|].
  simpl. destruct Hin as [->|Hin]; [lra|].
  inversion Hs as [|? ? _ Hall]; subst.
  rewrite Forall_forall in Hall. apply Qle_bool_iff, Hall, Hin.
Qed.

Lemma sorted_le_last (l : list Q) (x : Q) :
  StronglySorted (fun a b => Qle_bool a b = true) l ->
  In x l -> (x <= nth (List.length l - 1) l 0)%Q.
Proof.
  induction 1 as [|h t Hs IH Hall]; intros Hin; [contradiction|].
  destruct (Nat.eq_dec (List.length t) 0) as [E0|Hpos].
  - apply length_zero_iff_nil in E0. subst t.
    destruct Hin as [->|[]]. simpl. lra.
  - assert (Hlen : (List.length (h :: t) - 1 = S (List.length t - 1))%nat)
      by (simpl; lia).
    rewrite Hlen.
    change (nth (S (List.length t - 1)) (h :: t) 0)
      with (nth (List.length t - 1) t 0).
    destruct Hin as [->|Hin].
    + rewrite Forall_forall in Hall. apply Qle_bool_iff, Hall.
      apply nth_In. lia.
    + apply IH, Hin.
Qed.

(** The outer edges are the smallest and the largest value. *)
Lemma quantile_first (v : list Q) (p : Q) :
  (p == 0)%Q ->
  (Pandas.quantile v p == nth 0 (Pandas.sort Qle_bool v) 0)%Q.
Proof.
  intros Hp. unfold Pandas.quantile. cbv zeta.
  set (a := Pandas.sort Qle_bool v).
  set (pos := (p * inject_Z (Z.of_nat (List.length a - 1)))%Q).
  assert (Hpos : (pos == 0)%Q) by (unfold pos; rewrite Hp; ring).
  assert (Hfl : Qfloor pos = 0%Z) by (rewrite Hpos; reflexivity).
  rewrite Hfl. simpl Z.to_nat.
  setoid_replace (pos - inject_Z 0)%Q with 0%Q by (rewrite Hpos; ring).
  ring.
Qed.

Lemma quantile_last (v : list Q) (p : Q) :
  (p == 1)%Q ->
  (Pandas.quantile v p
   == nth (List.length v - 1) (Pandas.sort Qle_bool v) 0)%Q.
Proof.
  intros Hp. unfold Pandas.quantile. cbv zeta.
  rewrite sort_length.
  set (a := Pandas.sort Qle_bool v).
  set (k := Z.of_nat (List.length v - 1)).
  set (pos := (p * inject_Z k)%Q).
  assert (Hpos : (pos == inject_Z k)%Q) by (unfold pos; rewrite Hp; ring).
  assert (Hfl : Qfloor pos = k) by (rewrite Hpos; apply Qfloor_Z).
  rewrite Hfl.
  setoid_replace (pos - inject_Z k)%Q with 0%Q by (rewrite Hpos; ring).
  unfold k. rewrite Nat2Z.id. ring.
Qed.

(** Every value present falls into one of the four quartile intervals. *)
Lemma fare_label_total (v : list Q) (x : Q) :
  In x v ->
  exists label,
    Pandas.bin_label (fare_edges v) fare_labels true (Fin x) = Some label /\
    In label fare_labels.
Proof.
  intros Hin.
  assert (Hs : StronglySorted (fun a b => Qle_bool a b = true)
                 (Pandas.sort Qle_bool v))
    by (apply sort_sorted; [apply Qle_bool_total | apply Qle_bool_trans]).
  assert (Hin' : In x (Pandas.sort Qle_bool v)) by (apply sort_In; exact Hin).
  pose proof (sorted_first_le _ x Hs Hin') as Hlo.
  pose proof (sorted_le_last _ x Hs Hin') as Hhi.
  rewrite sort_length in Hhi.
  unfold fare_edges.
  change (Pandas.linspace01 4) with [0 # 4; 1 # 4; 2 # 4; 3 # 4; 4 # 4]%Q.
  cbn [map].
  rewrite <- (quantile_first v (0 # 4)) in Hlo by reflexivity.
  rewrite <- (quantile_last v (4 # 4)) in Hhi by reflexivity.
  set (e0 := Pandas.quantile v (0 # 4)) in *.
  set (e1 := Pandas.quantile v (1 # 4)).
  set (e2 := Pandas.quantile v (2 # 4)).
  set (e3 := Pandas.quantile v (3 # 4)).
  set (e4 := Pandas.quantile v (4 # 4)) in *.
  clearbody e0 e1 e2 e3 e4.
  unfold Pandas.bin_label, Pandas.bin_id, fare_labels.
  cbn [Pandas.searchsorted_left andb List.length].
  destruct (Qeq_bool x e0) eqn:E0.
  - exists "Economy". split; [reflexivity | simpl; tauto].
  - assert (Hne : ~ (x == e0)%Q) by (apply Qeq_bool_neq; exact E0).
    rewrite (Qle_bool_false x e0) by lra.
    rewrite (Qle_bool_true x e4 Hhi).
    destruct (Qle_bool x e1); [|destruct (Qle_bool x e2);
                                 [|destruct (Qle_bool x e3)]].
    + exists "Economy". split; [reflexivity | simpl; tauto].
    + exists "Standard". split; [reflexivity | simpl; tauto].
    + exists "Premium". split; [reflexivity | simpl; tauto].
    + exists "Luxury". split; [reflexivity | simpl; tauto].
Qed.

Lemma fillna_NaN (column : list float64) : Pandas.fillna column NaN = column.
Proof.
  unfold Pandas.fillna. erewrite map_ext; [apply map_id|].
  intros [|q]; reflexivity.
Qed.

Lemma median_NaN (column : list float64) :
  Pandas.median column = NaN -> Pandas.dropna column = [].
Proof.
  unfold Pandas.median. cbv zeta. rewrite sort_length.
  destruct (Pandas.dropna column) as [|x r]; [reflexivity|].
  simpl List.length. cbv iota.
  destruct (Nat.even (S (List.length r))); discriminate.
Qed.

(** After imputation a column with a value left has no missing cell. *)
Lemma impute_no_NaN (column : list float64) :
  Pandas.dropna (impute column) <> [] ->
  Forall (fun c => exists x, c = Fin x) (impute column).
Proof.
  unfold impute. destruct (Pandas.median column) as [|m] eqn:Hm.
  - rewrite fillna_NaN. intros H. apply median_NaN in Hm. contradiction.
  - intros _. apply Forall_forall. intros c Hin.
    apply in_map_iff in Hin. destruct Hin as ([|q] & <- & _); eauto.
Qed.

Lemma dropna_In (column : list float64) (x : Q) :
  In (Fin x) column -> In x (Pandas.dropna column).
Proof.
  intros Hin. unfold Pandas.dropna. apply in_flat_map.
  exists (Fin x). split; [exact Hin | left; reflexivity].
Qed.

Lemma Forall2_map_same {A B : Type} (R : A -> B -> Prop) (f : A -> B)
  (l : list A) :
  Forall (fun a => R a (f a)) l -> Forall2 R l (map f l).
Proof.
  induction 1; simpl; constructor; assumption.
Qed.

(** ** Every record gets its buckets *)

(** C3, as the code has it. In the frame preprocessing returns, the
    AgeGroup of every record is the one interval of (0, 12], (12, 18],
    (18, 35], (35, 50], (50, 65], (65, 100] that holds its age; every
    interval is left-open and right-closed, the first one included, so a
    record whose age is 0 or less, above 100 or still missing has no
    AgeGroup. Every record has a fare and exactly one FareCategory, one of
    the four labels. *)
Theorem every_record_bucketed (src : source) (df : DataFrame) :
  load_and_process_data src = Ok df ->
  exists (ages fares : list float64) (groups categories : list (option string)),
    Age df = Some ages /\ AgeGroup df = Some groups /\
    Fare df = Some fares /\ FareCategory df = Some categories /\
    groups = map age_group_of ages /\
    Forall2 (fun fare category =>
               exists x label,
                 fare = Fin x /\ category = Some label /\
                 In label fare_labels)
            fares categories /\
    (forall a : Q,
        ((0 < a <= 12)%Q -> age_group_of (Fin a) = Some "Child") /\
        ((12 < a <= 18)%Q -> age_group_of (Fin a) = Some "Teen") /\
        ((18 < a <= 35)%Q -> age_group_of (Fin a) = Some "Young Adult") /\
        ((35 < a <= 50)%Q -> age_group_of (Fin a) = Some "Adult") /\
        ((50 < a <= 65)%Q -> age_group_of (Fin a) = Some "Senior") /\
        ((65 < a <= 100)%Q -> age_group_of (Fin a) = Some "Elderly") /\
        ((a <= 0)%Q \/ (100 < a)%Q -> age_group_of (Fin a) = None)) /\
    age_group_of NaN = None.
Proof.
  destruct src as [| |raw]; try discriminate.
  rewrite load_table.
  destruct (Age raw) as [age|]; [|discriminate].
  destruct (Embarked raw) as [embarked|]; [|discriminate].
  destruct (Pandas.mode embarked) as [|mode0 modes]; [discriminate|].
  destruct (Fare raw) as [fare|]; [|discriminate].
  destruct (quartile_edges_distinct (impute fare)) eqn:Hq; [|discriminate].
  intros H. inversion H. clear H. simpl.
  exists (impute age), (impute fare). do 2 eexists.
  do 5 (split; [reflexivity|]).
  split; [|split; [apply age_group_of_intervals | reflexivity]].
  apply Forall2_map_same.
  assert (Hv : Pandas.dropna (impute fare) <> []).
  { unfold quartile_edges_distinct in Hq.
    destruct (Pandas.dropna (impute fare)); [discriminate | discriminate]. }
  pose proof (impute_no_NaN fare Hv) as Hall.
  rewrite Forall_forall in Hall. apply Forall_forall. intros c Hin.
  destruct (Hall c Hin) as (x & ->).
  destruct (fare_label_total (Pandas.dropna (impute fare)) x
              (dropna_In _ x Hin)) as (label & Hl & Hmem).
  exists x, label. split; [reflexivity|]. split; assumption.
Qed.

Lemma every_record_bucketed_witness :
  exists (ages fares : list float64) (groups categories : list (option string)),
    load_and_process_data (Table passengers6)
    = Ok (mkDataFrame 6 (Survived passengers6) (Pclass passengers6)
            (Sex passengers6) (Some ages) (Some fares)
            (Some [Some "S"; Some "C"; Some "S"; Some "S"; Some "C";
                   Some "S"])
            (Some groups) (Some categories)) /\
    groups = map age_group_of ages /\
    Forall2 (fun fare category =>
               exists x label,
                 fare = Fin x /\ category = Some label /\
                 In label fare_labels)
            fares categories.
Proof.
  destruct (every_record_bucketed (Table passengers6)
              (mkDataFrame 6 (Survived passengers6) (Pclass passengers6)
                 (Sex passengers6)
                 (Some (impute [Fin 22; Fin 38; Fin 26; Fin 35; NaN;
                                Fin 54]%Q))
                 (Some (impute [Fin 7.25; Fin 71.2833; Fin 7.925; Fin 53.1;
                                Fin 8.05; Fin 51.8625]%Q))
                 (Some [Some "S"; Some "C"; Some "S"; Some "S"; Some "C";
                        Some "S"])
                 (Some [Some "Young Adult"; Some "Adult"; Some "Young Adult";
                        Some "Young Adult"; Some "Young Adult";
                        Some "Senior"])
                 (Some [Some "Economy"; Some "Luxury"; Some "Economy";
                        Some "Luxury"; Some "Standard"; Some "Premium"]))
              eq_refl)
    as (ages & fares & groups & categories & Ha & Hg & Hf & Hc & Hrest).
  exists ages, fares, groups, categories.
  simpl in Ha, Hg, Hf, Hc.
  injection Ha as <-. injection Hg as <-. injection Hf as <-.
  injection Hc as <-.
  split; [reflexivity|]. split; tauto.
Defined.

(** C3, as stated, fails on a table with a newborn of age 0 and a
    passenger of age 101: both records come out of preprocessing without
    an AgeGroup. *)
Lemma age_group_counterexample :
  exists df,
    load_and_process_data (Table extreme_ages5) = Ok df /\
    Age extreme_ages5 = Some [Fin 0; Fin 30; Fin 101; Fin 12; NaN]%Q /\
    AgeGroup df
    = Some [None; Some "Young Adult"; None; Some "Child";
            Some "Young Adult"].
Proof.
  eexists. split; [vm_compute; reflexivity|]. split; reflexivity.
Qed.

(** * Further properties of the code *)

(** ** The message log *)

Lemma sidebar_appends (pressed : string -> bool) (queries : list string) :
  forall messages : list Message,
  exists added,
    fold_left
      (fun msgs query =>
         if pressed query then msgs ++ [mkMessage "user" query] else msgs)
      queries messages
    = messages ++ added /\
    Forall (fun m => role m = "user" /\ In (content m) queries) added /\
    (List.length added <= List.length queries)%nat.
Proof.
  induction queries as [|query rest IH]; intros messages; simpl.
  - exists []. rewrite app_nil_r.
    split; [reflexivity|]. split; [apply Forall_nil | simpl; lia].
  - destruct (pressed query).
    + destruct (IH (messages ++ [mkMessage "user" query]))
        as (added & Heq & Hall & Hlen).
      exists (mkMessage "user" query :: added).
      rewrite Heq, <- app_assoc. split; [reflexivity|]. split.
      * constructor; [simpl; tauto|].
        eapply Forall_impl; [|exact Hall]. simpl. tauto.
      * simpl. lia.
    + destruct (IH messages) as (added & Heq & Hall & Hlen).
      exists added. split; [exact Heq|]. split.
      * eapply Forall_impl; [|exact Hall]. simpl. tauto.
      * lia.
Qed.

(** X1. Whatever the source, the stored log, the buttons and the chat
    input, a run of [main] only appends to the log: the stored messages
    stay in front, in order; every message added has the role "user" and
    is an example query or the submitted text; at most ten are added. The
    assistant's answer is shown but never stored. *)
Theorem main_log_append_only (src : source) (messages : list Message)
  (pressed : string -> bool) (chat_input : option string) :
  exists added,
    fst (main src messages pressed chat_input) = messages ++ added /\
    Forall (fun m => role m = "user" /\
                     (In (content m) example_queries \/
                      chat_input = Some (content m)))
           added /\
    (List.length added <= 10)%nat.
Proof.
  unfold main.
  destruct (load_and_process_data src) as [df|e].
  2: { exists []. simpl. rewrite app_nil_r.
       split; [reflexivity|]. split; [apply Forall_nil | simpl; lia]. }
  cbv zeta. unfold sidebar.
  destruct (sidebar_appends pressed example_queries messages)
    as (added & Heq & Hall & Hlen).
  rewrite Heq. change (List.length example_queries) with 9%nat in Hlen.
  assert (Hall' : Forall (fun m => role m = "user" /\
                     (In (content m) example_queries \/
                      chat_input = Some (content m))) added).
  { eapply Forall_impl; [|exact Hall]. simpl. tauto. }
  destruct (show_messages df (messages ++ added)) as [shown|e].
  2: { exists added. simpl.
       split; [reflexivity|]. split; [exact Hall' | lia]. }
  destruct chat_input as [text|].
  - destruct (String.eqb_spec text "") as [E|NE]; simpl.
    + exists added. split; [reflexivity|]. split; [exact Hall' | lia].
    + exists (added ++ [mkMessage "user" text]).
      rewrite app_assoc. split; [reflexivity|]. split.
      * apply Forall_app. split; [exact Hall'|].
        constructor; [simpl; tauto | constructor].
      * rewrite length_app. simpl. lia.
  - simpl. exists added. split; [reflexivity|]. split; [exact Hall' | lia].
Qed.

(** ** The chat replay *)

Lemma create_visualization_Ok (df : DataFrame) (q : string) :
  exists fig, create_visualization df q = Ok fig.
Proof.
  unfold create_visualization. cbv zeta.
  destruct (create_visualization_body df (Py.lower q)); simpl; eauto.
Qed.

Lemma process_query_Ok (df : DataFrame) (q : string) :
  exists text, TitanicAgent.process_query df q = Ok text.
Proof.
  unfold TitanicAgent.process_query.
  destruct (TitanicAgent.process_query_body df q); simpl; eauto.
Qed.

Lemma main_query_Ok (df : DataFrame) (q : string) :
  exists text fig, main_query df q = Ok (text, fig).
Proof.
  unfold main_query.
  destruct (process_query_Ok df q) as (text & ->).
  cbv beta iota delta [bind].
  destruct (Py.any_in viz_terms (Py.lower q)).
  - destruct (create_visualization_Ok df q) as (fig & ->). eauto.
  - eauto.
Qed.

(** X2. The replay of the log never fails and shows every stored message
    once, in the order of the log; the chart under a message is the chart
    that [main] shows for that text when it is submitted as a query. *)
Theorem replay_matches_submission (df : DataFrame) (messages : list Message) :
  exists shown,
    show_messages df messages = Ok shown /\
    map fst shown = messages /\
    Forall (fun item => exists text,
                main_query df (content (fst item)) = Ok (text, snd item))
           shown.
Proof.
  induction messages as [|m rest IH]; simpl.
  - exists []. split; [reflexivity|]. split; [reflexivity | apply Forall_nil].
  - destruct IH as (others & Hs & Hm & Hall).
    assert (H1 : exists fig,
               show_message df m = Ok (m, fig) /\
               exists text, main_query df (content m) = Ok (text, fig)).
    { unfold show_message, main_query.
      destruct (process_query_Ok df (content m)) as (text & ->).
      cbv beta iota delta [bind].
      destruct (Py.any_in viz_terms (Py.lower (content m))).
      - destruct (create_visualization_Ok df (content m)) as (fig & ->).
        exists fig. split; [reflexivity | exists text; reflexivity].
      - exists None. split; [reflexivity | exists text; reflexivity]. }
    destruct H1 as (fig & -> & Hq). rewrite Hs.
    exists ((m, fig) :: others). simpl. rewrite Hm.
    split; [reflexivity|]. split; [reflexivity|].
    constructor; [exact Hq | exact Hall].
Qed.

(** ** When a run of the page fails *)

Lemma show_messages_Ok (df : DataFrame) (messages : list Message) :
  exists shown, show_messages df messages = Ok shown.
Proof.
  induction messages as [|m rest (others & IH)]; simpl.
  - eauto.
  - unfold show_message.
    destruct (Py.any_in viz_terms (Py.lower (content m))).
    + destruct (create_visualization_Ok df (content m)) as (fig & ->).
      simpl. rewrite IH. simpl. eauto.
    + simpl. rewrite IH. simpl. eauto.
Qed.

Lemma loaded_has_Age (src : source) (df : DataFrame) :
  load_and_process_data src = Ok df -> exists age, Age df = Some age.
Proof.
  destruct src as [| |raw]; try discriminate.
  rewrite load_table.
  destruct (Age raw) as [age|]; [|discriminate].
  destruct (Embarked raw) as [embarked|]; [|discriminate].
  destruct (Pandas.mode embarked) as [|mode0 modes]; [discriminate|].
  destruct (Fare raw) as [fare|]; [|discriminate].
  destruct (quartile_edges_distinct (impute fare)); [|discriminate].
  intros H. inversion H. simpl. eauto.
Qed.

(** X3. A run of [main] raises in exactly two situations: preprocessing
    raises (with that exception), or preprocessing succeeds on a table
    without the [Survived] column, in which case the overview raises
    [KeyError] after the chat has been handled. Nothing a user clicks or
    types makes a run fail. *)
Theorem main_raises_iff (src : source) (messages : list Message)
  (pressed : string -> bool) (chat_input : option string) (e : exn) :
  snd (main src messages pressed chat_input) = Raise e <->
  load_and_process_data src = Raise e \/
  (exists df, load_and_process_data src = Ok df /\ Survived df = None /\
              e = KeyError "Survived").
Proof.
  unfold main.
  destruct (load_and_process_data src) as [df|e0] eqn:Hload.
  2: { simpl. split.
       - intros H. left. congruence.
       - intros [H|(df & H & _)]; [congruence | discriminate]. }
  cbv zeta.
  destruct (show_messages_Ok df (sidebar pressed messages)) as (shown & ->).
  destruct (loaded_has_Age src df Hload) as (age & Hage).
  assert (Hov : overview df
                = match Survived df with
                  | None => Raise (KeyError "Survived")
                  | Some survived =>
                      Ok (nrows df,
                          [Flt 1 (Pandas.scale 100
                                    (Pandas.mean_int survived)); Txt "%"],
                          [Flt 1 (Pandas.mean age); Txt " years"])
                  end).
  { unfold overview. cbv zeta. rewrite Hage.
    destruct (Survived df); reflexivity. }
  set (query := match chat_input with Some text => text | None => "" end).
  destruct (main_query_Ok df query) as (text & fig & Hq).
  destruct (String.eqb query ""); cbn [snd]; [|rewrite Hq]; rewrite Hov;
    cbv beta iota delta [bind].
  - destruct (Survived df) as [survived|] eqn:Hs; split.
    + discriminate.
    + intros [H|(df' & H & Hn & _)]; [discriminate|].
      inversion H; subst df'. congruence.
    + intros H. inversion H. right. exists df. auto.
    + intros [H|(df' & _ & _ & ->)]; [discriminate | reflexivity].
  - destruct (Survived df) as [survived|] eqn:Hs; split.
    + discriminate.
    + intros [H|(df' & H & Hn & _)]; [discriminate|].
      inversion H; subst df'. congruence.
    + intros H. inversion H. right. exists df. auto.
    + intros [H|(df' & _ & _ & ->)]; [discriminate | reflexivity].
Qed.

(** On such a table the run fails although the submitted query has been
    stored already. *)
Example failed_run_keeps_message :
  main (Table no_survived6) [] (fun _ => false) (Some "ports")
  = ([mkMessage "user" "ports"], Raise (KeyError "Survived")).
Proof. vm_compute. reflexivity. Qed.

(** ** Keyword tests *)

Lemma string_app_assoc (a b c : string) :
  ((a ++ b) ++ c)%string = (a ++ (b ++ c))%string.
Proof.
  induction a as [|x a IH]; simpl; [reflexivity | rewrite IH; reflexivity].
Qed.

Lemma prefix_spec (a h : string) :
  prefix a h = true <-> exists post, h = (a ++ post)%string.
Proof.
  revert h. induction a as [|x a IH]; intros h; simpl.
  - split; [intros _; exists h; reflexivity | destruct h; reflexivity].
  - destruct h as [|y h].
    + split; [discriminate | intros (post & H); discriminate].
    + simpl. destruct (ascii_dec x y) as [->|Hne].
      * rewrite IH. split; intros (post & H); exists post.
        -- rewrite H. reflexivity.
        -- inversion H. reflexivity.
      * split; [discriminate|].
        intros (post & H). exfalso. apply Hne. congruence.
Qed.

(** [str_in] is the substring test. *)
Lemma str_in_spec (a h : string) :
  Py.str_in a h = true <->
  exists pre post, h = (pre ++ a ++ post)%string.
Proof.
  induction h as [|y h IH].
  - change (Py.str_in a "") with (prefix a "" || false).
    rewrite orb_false_r, prefix_spec. split.
    + intros (post & H). exists "", post. exact H.
    + intros (pre & post & H). destruct pre as [|z pre]; [|discriminate].
      exists post. exact H.
  - change (Py.str_in a (String y h))
      with (prefix a (String y h) || Py.str_in a h).
    rewrite orb_true_iff, prefix_spec, IH. split.
    + intros [(post & H)|(pre & post & H)].
      * exists "", post. exact H.
      * exists (String y pre), post. simpl. rewrite H. reflexivity.
    + intros (pre & post & H). destruct pre as [|z pre].
      * left. exists post. exact H.
      * right. inversion H. exists pre, post. reflexivity.
Qed.

(** A text that holds a keyword holds every part of that keyword. *)
Lemma str_in_trans (a b h : string) :
  Py.str_in a b = true -> Py.str_in b h = true -> Py.str_in a h = true.
Proof.
  rewrite !str_in_spec.
  intros (p1 & s1 & ->) (p2 & s2 & ->).
  exists (p2 ++ p1)%string, (s1 ++ s2)%string.
  rewrite !string_app_assoc. reflexivity.
Qed.

Lemma str_in_part_false (a b h : string) :
  Py.str_in a b = true -> Py.str_in a h = false -> Py.str_in b h = false.
Proof.
  intros Hab Hah. destruct (Py.str_in b h) eqn:E; [|reflexivity].
  rewrite (str_in_trans a b h Hab E) in Hah. discriminate.
Qed.

Lemma lower_ascii_idempotent (c : ascii) :
  Py.lower_ascii (Py.lower_ascii c) = Py.lower_ascii c.
Proof.
  destruct c as [[] [] [] [] [] [] [] []]; reflexivity.
Qed.

Lemma lower_idempotent (s : string) : Py.lower (Py.lower s) = Py.lower s.
Proof.
  induction s as [|c r IH]; simpl.
  - reflexivity.
  - rewrite lower_ascii_idempotent, IH. reflexivity.
Qed.

(** ** Letter case *)

(** X4. The answers do not depend on the letter case of the query: two
    queries with the same lowercased text get the same text, the same
    chart and the same page entry, and so does the lowercased query
    itself. *)
Theorem answers_ignore_case (df : DataFrame) (q q' : string) :
  Py.lower q = Py.lower q' ->
  TitanicAgent.process_query df q = TitanicAgent.process_query df q' /\
  create_visualization df q = create_visualization df q' /\
  main_query df q = main_query df q' /\
  main_query df (Py.lower q) = main_query df q.
Proof.
  intros H.
  assert (HP : forall a b, Py.lower a = Py.lower b ->
             TitanicAgent.process_query df a
             = TitanicAgent.process_query df b).
  { intros a b E.
    unfold TitanicAgent.process_query, TitanicAgent.process_query_body.
    cbv zeta. rewrite E. reflexivity. }
  assert (HV : forall a b, Py.lower a = Py.lower b ->
             create_visualization df a = create_visualization df b).
  { intros a b E. unfold create_visualization. cbv zeta.
    rewrite E. reflexivity. }
  assert (HM : forall a b, Py.lower a = Py.lower b ->
             main_query df a = main_query df b).
  { intros a b E. unfold main_query.
    rewrite (HP a b E), (HV a b E), E. reflexivity. }
  split; [apply HP, H|]. split; [apply HV, H|]. split; [apply HM, H|].
  apply HM, lower_idempotent.
Qed.

Lemma answers_ignore_case_witness :
  Py.lower "SHOW the Survival Rate BY CLASS"
  = Py.lower "show the survival rate by class" /\
  main_query passengers6 "SHOW the Survival Rate BY CLASS"
  = main_query passengers6 "show the survival rate by class".
Proof.
  split; [reflexivity|].
  apply (answers_ignore_case passengers6 "SHOW the Survival Rate BY CLASS"
           "show the survival rate by class" eq_refl).
Defined.

(** ** Queries without a keyword *)

(** X5. A query that holds none of survived, average age, male, gender,
    class, embarked, port, fare gets the help text, whatever the frame.
    The only chart such a query can still get is the age histogram. The
    page shows no chart with the help text unless the query holds
    "age distribution" and one of show, plot, chart, graph, visualize, and
    the frame has an [Age] column: then it shows the histogram of that
    column next to the help text. The builder, called on its own, returns
    the histogram whenever the query holds "age distribution" and the
    column is there, and no figure when the column is missing. *)
Theorem unrecognized_query_help (df : DataFrame) (q : string) :
  Py.str_in "survived" (Py.lower q) = false ->
  Py.str_in "average age" (Py.lower q) = false ->
  Py.str_in "male" (Py.lower q) = false ->
  Py.str_in "gender" (Py.lower q) = false ->
  Py.str_in "class" (Py.lower q) = false ->
  Py.str_in "embarked" (Py.lower q) = false ->
  Py.str_in "port" (Py.lower q) = false ->
  Py.str_in "fare" (Py.lower q) = false ->
  TitanicAgent.process_query df q = Ok help_text /\
  (Py.str_in "age distribution" (Py.lower q) = false ->
   create_visualization df q = Ok None /\
   main_query df q = Ok (help_text, None)) /\
  (Py.str_in "age distribution" (Py.lower q) = true ->
   (forall age, Age df = Some age ->
      create_visualization df q
      = Ok (Some (Histogram age 30 "Age Distribution of Passengers")) /\
      main_query df q
      = Ok (help_text,
            if Py.any_in viz_terms (Py.lower q)
            then Some (Histogram age 30 "Age Distribution of Passengers")
            else None)) /\
   (Age df = None ->
      create_visualization df q = Ok None /\
      main_query df q = Ok (help_text, None))).
Proof.
  intros Hsurv Havg Hmale Hgender Hclass Hemb Hport Hfare.
  assert (Hfemale : Py.str_in "female" (Py.lower q) = false)
    by (apply (str_in_part_false "male"); [reflexivity | exact Hmale]).
  assert (Hrate : Py.str_in "survival rate by class" (Py.lower q) = false)
    by (apply (str_in_part_false "class"); [reflexivity | exact Hclass]).
  assert (HP : TitanicAgent.process_query df q = Ok help_text).
  { unfold TitanicAgent.process_query, TitanicAgent.process_query_body.
    cbv zeta.
    rewrite Hsurv, Havg, Hmale, Hfemale, Hgender, Hclass, Hemb, Hport, Hfare.
    reflexivity. }
  split; [exact HP|]. split.
  - intros Hage.
    assert (HV : create_visualization df q = Ok None).
    { unfold create_visualization, create_visualization_body. cbv zeta.
      rewrite Hage, Hrate, Hclass, Hgender, Hmale, Hfemale.
      cbn [orb]. rewrite !andb_false_r. reflexivity. }
    split; [exact HV|].
    unfold main_query. rewrite HP, HV. cbv beta iota delta [bind].
    destruct (Py.any_in viz_terms (Py.lower q)); reflexivity.
  - intros Hage. split.
    + intros age Hcol.
      assert (HV : create_visualization df q
                   = Ok (Some (Histogram age 30
                                 "Age Distribution of Passengers"))).
      { unfold create_visualization, create_visualization_body. cbv zeta.
        rewrite Hage, Hcol. reflexivity. }
      split; [exact HV|].
      unfold main_query. rewrite HP, HV. cbv beta iota delta [bind].
      destruct (Py.any_in viz_terms (Py.lower q)); reflexivity.
    + intros Hcol.
      assert (HV : create_visualization df q = Ok None).
      { unfold create_visualization, create_visualization_body. cbv zeta.
        rewrite Hage, Hcol. reflexivity. }
      split; [exact HV|].
      unfold main_query. rewrite HP, HV. cbv beta iota delta [bind].
      destruct (Py.any_in viz_terms (Py.lower q)); reflexivity.
Qed.

Lemma unrecognized_query_help_witness :
  Py.str_in "survived" (Py.lower "What is the age distribution?") = false /\
  Py.str_in "average age" (Py.lower "What is the age distribution?") = false /\
  Py.str_in "male" (Py.lower "What is the age distribution?") = false /\
  Py.str_in "gender" (Py.lower "What is the age distribution?") = false /\
  Py.str_in "class" (Py.lower "What is the age distribution?") = false /\
  Py.str_in "embarked" (Py.lower "What is the age distribution?") = false /\
  Py.str_in "port" (Py.lower "What is the age distribution?") = false /\
  Py.str_in "fare" (Py.lower "What is the age distribution?") = false /\
  Py.str_in "age distribution" (Py.lower "What is the age distribution?")
  = true /\
  create_visualization passengers6 "What is the age distribution?"
  = Ok (Some (Histogram [Fin 22; Fin 38; Fin 26; Fin 35; NaN; Fin 54]%Q 30
                "Age Distribution of Passengers")) /\
  main_query passengers6 "What is the age distribution?"
  = Ok (help_text, None).
Proof.
  do 9 (split; [reflexivity|]).
  exact (proj1 (proj2 (proj2
           (unrecognized_query_help passengers6
              "What is the age distribution?"
              eq_refl eq_refl eq_refl eq_refl eq_refl eq_refl eq_refl
              eq_refl)) eq_refl)
           [Fin 22; Fin 38; Fin 26; Fin 35; NaN; Fin 54]%Q eq_refl).
Defined.

(** The help text and a chart together. *)
Example help_text_with_histogram :
  main_query passengers6 "Show age distribution"
  = Ok (help_text,
        Some (Histogram [Fin 22; Fin 38; Fin 26; Fin 35; NaN; Fin 54]%Q 30
                "Age Distribution of Passengers")).
Proof. reflexivity. Qed.

(** ** Counting rows by category *)

Lemma get_perm {K : Type} (eqb : K -> K -> bool)
  (eq_dec : forall x y : K, {x = y} + {x <> y})
  (eqb_eq : forall x y, eqb x y = true <-> x = y)
  (c c' : list (K * nat)) (k : K) (d : nat) :
  NoDup (map fst c) -> Permutation c c' ->
  Pandas.get eqb c' k d = Pandas.get eqb c k d.
Proof.
  intros Hnd Hp.
  assert (Hnd' : NoDup (map fst c'))
    by (eapply Permutation_NoDup; [apply Permutation_map, Hp | exact Hnd]).
  destruct (in_dec eq_dec k (map fst c)) as [Hin|Hout].
  - apply in_map_iff in Hin. destruct Hin as ([k0 n] & Hk & Hin).
    simpl in Hk. subst k0.
    rewrite (get_In eqb eqb_eq c k n Hnd Hin).
    apply (get_In eqb eqb_eq c' k n Hnd').
    eapply Permutation_in; [exact Hp | exact Hin].
  - rewrite (get_absent eqb eqb_eq c k d Hout).
    apply (get_absent eqb eqb_eq).
    intros Hin. apply Hout.
    eapply Permutation_in;
      [apply Permutation_sym, Permutation_map, Hp | exact Hin].
Qed.

Section CategoryCounts.
Context {K : Type} (eq_dec : forall x y : K, {x = y} + {x <> y}).

Lemma list_sum_map_cons (f : K -> nat) (k : K) (ks : list K) :
  list_sum (map f (k :: ks)) = (f k + list_sum (map f ks))%nat.
Proof. reflexivity. Qed.

Lemma count_sum_absent (ks : list K) (a : K) (l : list K) :
  ~ In a ks ->
  list_sum (map (count_occ eq_dec (a :: l)) ks)
  = list_sum (map (count_occ eq_dec l) ks).
Proof.
  induction ks as [|k ks IH]; intros Hout; [reflexivity|].
  rewrite !list_sum_map_cons.
  rewrite count_occ_cons_neq by (intros ->; apply Hout; left; reflexivity).
  rewrite IH; [reflexivity|]. intros H. apply Hout. right. exact H.
Qed.

Lemma count_sum_present (ks : list K) (a : K) (l : list K) :
  NoDup ks -> In a ks ->
  list_sum (map (count_occ eq_dec (a :: l)) ks)
  = S (list_sum (map (count_occ eq_dec l) ks)).
Proof.
  induction ks as [|k ks IH]; intros Hnd Hin; [contradiction|].
  inversion Hnd as [|? ? Hnot Hnd']; subst. rewrite !list_sum_map_cons.
  destruct (eq_dec a k) as [->|Hne].
  - rewrite count_occ_cons_eq by reflexivity.
    rewrite count_sum_absent by exact Hnot. reflexivity.
  - rewrite count_occ_cons_neq by exact Hne.
    destruct Hin as [->|Hin]; [contradiction|].
    rewrite IH by assumption. lia.
Qed.

(** The rows counted under distinct categories never exceed the rows, and
    they are all the rows exactly when no row has another category. *)
Lemma count_sum_le (ks l : list K) :
  NoDup ks ->
  (list_sum (map (count_occ eq_dec l) ks) <= List.length l)%nat /\
  (list_sum (map (count_occ eq_dec l) ks) = List.length l <->
   Forall (fun a => In a ks) l).
Proof.
  intros Hnd. induction l as [|a l [IHle IHeq]].
  - split.
    + induction ks as [|k ks IH]; simpl; [lia|].
      inversion Hnd; subst. apply IH. assumption.
    + split; [constructor|]. intros _.
      induction ks as [|k ks IH]; simpl; [reflexivity|].
      inversion Hnd; subst. apply IH. assumption.
  - destruct (in_dec eq_dec a ks) as [Hin|Hout].
    + rewrite count_sum_present by assumption. simpl. split; [lia|].
      split.
      * intros H. constructor; [exact Hin|]. apply IHeq. lia.
      * intros H. inversion H; subst. f_equal. apply IHeq. assumption.
    + rewrite count_sum_absent by assumption. simpl. split; [lia|].
      split.
      * intros H. lia.
      * intros H. inversion H; subst. contradiction.
Qed.

End CategoryCounts.

(** ** The class and gender breakdowns *)

(** X6. A query that reaches the class rule (it holds "class", none of
    show, plot, chart, graph, and no keyword of an earlier rule) is
    answered with the numbers of rows of class 1, 2 and 3, whatever the
    order of the rows. The three numbers never exceed the number of rows
    and add up to it exactly when every row is of class 1, 2 or 3: rows of
    any other class are in none of the three lines. *)
Theorem class_breakdown_counts (df : DataFrame) (q : string) (pclass : list Z) :
  Py.str_in "survived" (Py.lower q) = false ->
  Py.str_in "average age" (Py.lower q) = false ->
  Py.str_in "male" (Py.lower q) = false ->
  Py.str_in "gender" (Py.lower q) = false ->
  Py.str_in "class" (Py.lower q) = true ->
  Py.any_in chart_terms (Py.lower q) = false ->
  Pclass df = Some pclass ->
  let n := count_occ Z.eq_dec pclass in
  TitanicAgent.process_query df q
  = Ok (class_text (n 1%Z) (n 2%Z) (n 3%Z)) /\
  (n 1%Z + n 2%Z + n 3%Z <= List.length pclass)%nat /\
  ((n 1%Z + n 2%Z + n 3%Z)%nat = List.length pclass <->
   Forall (fun c => In c [1; 2; 3]%Z) pclass).
Proof.
  intros Hsurv Havg Hmale Hgender Hclass Hchart Hcol n.
  assert (Hfemale : Py.str_in "female" (Py.lower q) = false)
    by (apply (str_in_part_false "male"); [reflexivity | exact Hmale]).
  split.
  - unfold TitanicAgent.process_query, TitanicAgent.process_query_body.
    cbv zeta.
    rewrite Hsurv, Havg, Hmale, Hfemale, Hgender, Hclass, Hchart, Hcol.
    simpl.
    assert (Hget : forall c,
               Pandas.get Z.eqb
                 (Pandas.sort_index Z.leb
                    (Pandas.value_counts Z.eqb pclass)) c 0
               = n c).
    { intros c. unfold Pandas.sort_index.
      rewrite (get_perm Z.eqb Z.eq_dec Z.eqb_eq
                 (Pandas.value_counts Z.eqb pclass)).
      - apply (value_counts_get Z.eqb Z.eq_dec Z.eqb_eq).
      - apply (value_counts_NoDup Z.eqb Z.eq_dec Z.eqb_eq).
      - apply Permutation_sym, sort_perm. }
    rewrite !Hget. reflexivity.
  - assert (Hnd : NoDup [1; 2; 3]%Z).
    { repeat constructor; simpl; intuition discriminate. }
    pose proof (count_sum_le Z.eq_dec [1; 2; 3]%Z pclass Hnd) as [Hle Heq].
    simpl in Hle, Heq. fold n in Hle, Heq.
    split; [lia|]. rewrite <- Heq. lia.
Qed.

Lemma class_breakdown_counts_witness :
  Py.str_in "class" (Py.lower "Passenger class distribution?") = true /\
  TitanicAgent.process_query passengers6 "Passenger class distribution?"
  = Ok (class_text 2 1 3).
Proof.
  split; [reflexivity|].
  apply (class_breakdown_counts passengers6 "Passenger class distribution?"
           [3; 1; 3; 1; 3; 2]%Z); reflexivity.
Defined.

(** X7. A query that reaches the gender rule (it holds male, female or
    gender and neither "survived" nor "average age") is answered with the
    numbers of rows whose sex is exactly "male" and exactly "female". The
    two numbers never exceed the number of rows and add up to it exactly
    when every row is one of the two: a row with any other spelling is in
    neither line. *)
Theorem gender_breakdown_counts (df : DataFrame) (q : string)
  (sex : list string) :
  Py.str_in "survived" (Py.lower q) = false ->
  Py.str_in "average age" (Py.lower q) = false ->
  Py.str_in "male" (Py.lower q) || Py.str_in "female" (Py.lower q)
  || Py.str_in "gender" (Py.lower q) = true ->
  Sex df = Some sex ->
  let n := count_occ string_dec sex in
  TitanicAgent.process_query df q = Ok (gender_text (n "male") (n "female")) /\
  (n "male" + n "female" <= List.length sex)%nat /\
  ((n "male" + n "female")%nat = List.length sex <->
   Forall (fun s => In s ["male"; "female"]) sex).
Proof.
  intros Hsurv Havg Hrule Hcol n.
  split.
  - unfold TitanicAgent.process_query, TitanicAgent.process_query_body.
    cbv zeta. rewrite Hsurv, Havg, Hrule, Hcol. simpl.
    rewrite !(value_counts_get String.eqb string_dec String.eqb_eq).
    reflexivity.
  - assert (Hnd : NoDup ["male"; "female"]).
    { repeat constructor; simpl; intuition discriminate. }
    pose proof (count_sum_le string_dec ["male"; "female"] sex Hnd)
      as [Hle Heq].
    cbn [map list_sum fold_right] in Hle, Heq. fold n in Hle, Heq.
    split; [lia|]. rewrite <- Heq. lia.
Qed.

Lemma gender_breakdown_counts_witness :
  Py.str_in "gender" (Py.lower "Gender split, please") = true /\
  TitanicAgent.process_query passengers6 "Gender split, please"
  = Ok (gender_text 3 3).
Proof.
  split; [reflexivity|].
  apply (gender_breakdown_counts passengers6 "Gender split, please"
           ["male"; "female"; "female"; "female"; "male"; "male"]);
    reflexivity.
Defined.

(** A row spelled "Male" is counted in neither line. *)
Example other_spelling_not_counted :
  TitanicAgent.process_query
    (mkDataFrame 3 None None (Some ["Male"; "male"; "female"]) None None
       None None None)
    "gender"
  = Ok (gender_text 1 1).
Proof. reflexivity. Qed.

(** ** Averages and extremes *)

Lemma len_Q_cons {A : Type} (x : A) (l : list A) :
  (Pandas.len_Q (x :: l) == 1 + Pandas.len_Q l)%Q.
Proof.
  unfold Pandas.len_Q. cbn [List.length].
  rewrite Nat2Z.inj_succ, <- Z.add_1_l, inject_Z_plus. reflexivity.
Qed.

Lemma len_Q_nonneg {A : Type} (l : list A) : (0 <= Pandas.len_Q l)%Q.
Proof.
  unfold Pandas.len_Q. change 0%Q with (inject_Z 0).
  rewrite <- Zle_Qle. lia.
Qed.

Lemma sum_float_bounds (v : list Q) (lo hi : Q) :
  (forall x, In x v -> (lo <= x <= hi)%Q) ->
  (Pandas.len_Q v * lo <= Pandas.sum_float v /\
   Pandas.sum_float v <= Pandas.len_Q v * hi)%Q.
Proof.
  induction v as [|x v IH]; intros Hb.
  - change (Pandas.len_Q (@nil Q)) with 0%Q.
    change (Pandas.sum_float []) with 0%Q. lra.
  - destruct IH as [IHlo IHhi].
    { intros y Hy. apply Hb. right. exact Hy. }
    destruct (Hb x (or_introl eq_refl)) as [Hlo Hhi].
    cbn [Pandas.sum_float fold_right]. fold (Pandas.sum_float v).
    rewrite len_Q_cons. lra.
Qed.

Lemma mean_bounds (v : list Q) (lo hi : Q) :
  v <> [] ->
  (forall x, In x v -> (lo <= x <= hi)%Q) ->
  (lo <= Pandas.sum_float v / Pandas.len_Q v /\
   Pandas.sum_float v / Pandas.len_Q v <= hi)%Q.
Proof.
  intros Hne Hb.
  assert (Hpos : (0 < Pandas.len_Q v)%Q).
  { destruct v as [|x v]; [congruence|].
    rewrite len_Q_cons. pose proof (len_Q_nonneg v). lra. }
  destruct (sum_float_bounds v lo hi Hb) as [Hlo Hhi].
  split.
  - apply Qle_shift_div_l; [exact Hpos|]. lra.
  - apply Qle_shift_div_r; [exact Hpos|]. lra.
Qed.

Lemma fold_Qmax_spec (r : list Q) :
  forall x : Q,
    In (fold_left Pandas.Qmax r x) (x :: r) /\
    forall y, In y (x :: r) -> (y <= fold_left Pandas.Qmax r x)%Q.
Proof.
  induction r as [|z r IH]; intros x; simpl.
  - split; [left; reflexivity|]. intros y [->|[]]. lra.
  - destruct (IH (Pandas.Qmax x z)) as [Hin Hle]. split.
    + destruct Hin as [Hin|Hin]; [|right; right; exact Hin].
      rewrite <- Hin. unfold Pandas.Qmax.
      destruct (Qle_bool x z); [right; left | left]; reflexivity.
    + assert (Hx : (x <= Pandas.Qmax x z)%Q /\ (z <= Pandas.Qmax x z)%Q).
      { unfold Pandas.Qmax. destruct (Qle_bool x z) eqn:E.
        - apply Qle_bool_iff in E. lra.
        - destruct (Qle_bool_total x z) as [E'|E']; [congruence|].
          apply Qle_bool_iff in E'. lra. }
      pose proof (Hle _ (or_introl eq_refl)) as Hm.
      intros y [->|[->|Hy]]; [lra | lra |].
      apply Hle. right. exact Hy.
Qed.

Lemma fold_Qmin_spec (r : list Q) :
  forall x : Q,
    In (fold_left Pandas.Qmin r x) (x :: r) /\
    forall y, In y (x :: r) -> (fold_left Pandas.Qmin r x <= y)%Q.
Proof.
  induction r as [|z r IH]; intros x; simpl.
  - split; [left; reflexivity|]. intros y [->|[]]. lra.
  - destruct (IH (Pandas.Qmin x z)) as [Hin Hle]. split.
    + destruct Hin as [Hin|Hin]; [|right; right; exact Hin].
      rewrite <- Hin. unfold Pandas.Qmin.
      destruct (Qle_bool x z); [left | right; left]; reflexivity.
    + assert (Hx : (Pandas.Qmin x z <= x)%Q /\ (Pandas.Qmin x z <= z)%Q).
      { unfold Pandas.Qmin. destruct (Qle_bool x z) eqn:E.
        - apply Qle_bool_iff in E. lra.
        - destruct (Qle_bool_total x z) as [E'|E']; [congruence|].
          apply Qle_bool_iff in E'. lra. }
      pose proof (Hle _ (or_introl eq_refl)) as Hm.
      intros y [->|[->|Hy]]; [lra | lra |].
      apply Hle. right. exact Hy.
Qed.

(** Mean, largest and smallest value of a column with a value: the
    extremes are values of the column, they bound every value, and the
    mean lies between them. *)
Lemma column_statistics (column : list float64) :
  Pandas.dropna column <> [] ->
  exists avg hi lo : Q,
    Pandas.mean column = Fin avg /\
    Pandas.max column = Fin hi /\
    Pandas.min column = Fin lo /\
    In hi (Pandas.dropna column) /\ In lo (Pandas.dropna column) /\
    (forall x, In x (Pandas.dropna column) -> (lo <= x <= hi)%Q) /\
    (lo <= avg <= hi)%Q.
Proof.
  intros Hne. unfold Pandas.mean, Pandas.max, Pandas.min.
  destruct (Pandas.dropna column) as [|x r] eqn:Hv; [congruence|].
  destruct (fold_Qmax_spec r x) as [Hmax_in Hmax].
  destruct (fold_Qmin_spec r x) as [Hmin_in Hmin].
  assert (Hb : forall y, In y (x :: r) ->
                 (fold_left Pandas.Qmin r x <= y <= fold_left Pandas.Qmax r x)%Q).
  { intros y Hy. split; [apply Hmin | apply Hmax]; exact Hy. }
  do 3 eexists. do 3 (split; [reflexivity|]).
  split; [exact Hmax_in|]. split; [exact Hmin_in|]. split; [exact Hb|].
  apply mean_bounds; [discriminate | exact Hb].
Qed.

(** X8. A query that reaches the average-age rule (it holds
    "average age" and not "survived") is answered with the mean of the
    known ages, which lies between the youngest and the oldest of them;
    when no age is known the value written is NaN. *)
Theorem average_age_within_range (df : DataFrame) (q : string)
  (age : list float64) :
  Py.str_in "survived" (Py.lower q) = false ->
  Py.str_in "average age" (Py.lower q) = true ->
  Age df = Some age ->
  TitanicAgent.process_query df q
  = Ok [Txt "👥 The average age of passengers was ";
        Flt 1 (Pandas.mean age); Txt " years"] /\
  (Pandas.dropna age = [] -> Pandas.mean age = NaN) /\
  (Pandas.dropna age <> [] ->
   exists avg oldest youngest : Q,
     Pandas.mean age = Fin avg /\
     In oldest (Pandas.dropna age) /\ In youngest (Pandas.dropna age) /\
     (forall x, In x (Pandas.dropna age) -> (youngest <= x <= oldest)%Q) /\
     (youngest <= avg <= oldest)%Q).
Proof.
  intros Hsurv Havg Hcol. split; [|split].
  - unfold TitanicAgent.process_query, TitanicAgent.process_query_body.
    cbv zeta. rewrite Hsurv, Havg, Hcol. reflexivity.
  - intros Hv. unfold Pandas.mean. rewrite Hv. reflexivity.
  - intros Hne.
    destruct (column_statistics age Hne)
      as (avg & hi & lo & Hm & _ & _ & Hhi & Hlo & Hb & Havgb).
    exists avg, hi, lo. auto.
Qed.

Lemma average_age_within_range_witness :
  Py.str_in "average age" (Py.lower "What was the average age?") = true /\
  TitanicAgent.process_query passengers6 "What was the average age?"
  = Ok [Txt "👥 The average age of passengers was ";
        Flt 1 (Pandas.mean [Fin 22; Fin 38; Fin 26; Fin 35; NaN; Fin 54]%Q);
        Txt " years"].
Proof.
  split; [reflexivity|].
  apply (average_age_within_range passengers6 "What was the average age?"
           [Fin 22; Fin 38; Fin 26; Fin 35; NaN; Fin 54]%Q); reflexivity.
Defined.

(** X9. A query that reaches the fare rule (it holds "fare", none of
    show, plot, chart, graph, and no keyword of an earlier rule), on a
    frame with at least one known fare, is answered with the average, the
    highest and the lowest fare: the highest and the lowest are fares of
    the column, every fare lies between them, and so does the average. *)
Theorem fare_stats_ordered (df : DataFrame) (q : string)
  (fare : list float64) :
  Py.str_in "survived" (Py.lower q) = false ->
  Py.str_in "average age" (Py.lower q) = false ->
  Py.str_in "male" (Py.lower q) = false ->
  Py.str_in "gender" (Py.lower q) = false ->
  Py.str_in "class" (Py.lower q) = false ->
  Py.str_in "embarked" (Py.lower q) = false ->
  Py.str_in "port" (Py.lower q) = false ->
  Py.str_in "fare" (Py.lower q) = true ->
  Py.any_in chart_terms (Py.lower q) = false ->
  Fare df = Some fare ->
  Pandas.dropna fare <> [] ->
  exists avg highest lowest : Q,
    TitanicAgent.process_query df q
    = Ok (fare_text (Fin avg) (Fin highest) (Fin lowest)) /\
    In highest (Pandas.dropna fare) /\ In lowest (Pandas.dropna fare) /\
    (forall x, In x (Pandas.dropna fare) -> (lowest <= x <= highest)%Q) /\
    (lowest <= avg <= highest)%Q.
Proof.
  intros Hsurv Havg Hmale Hgender Hclass Hemb Hport Hfare Hchart Hcol Hne.
  assert (Hfemale : Py.str_in "female" (Py.lower q) = false)
    by (apply (str_in_part_false "male"); [reflexivity | exact Hmale]).
  destruct (column_statistics fare Hne)
    as (avg & hi & lo & Hm & Hmax & Hmin & Hhi & Hlo & Hb & Havgb).
  exists avg, hi, lo. split; [|auto].
  unfold TitanicAgent.process_query, TitanicAgent.process_query_body.
  cbv zeta.
  rewrite Hsurv, Havg, Hmale, Hfemale, Hgender, Hclass, Hemb, Hport, Hfare,
    Hchart, Hcol.
  simpl. rewrite Hm, Hmax, Hmin. reflexivity.
Qed.

Lemma fare_stats_ordered_witness :
  Py.str_in "fare" (Py.lower "What was the average ticket fare?") = true /\
  exists avg highest lowest : Q,
    TitanicAgent.process_query passengers6 "What was the average ticket fare?"
    = Ok (fare_text (Fin avg) (Fin highest) (Fin lowest)) /\
    (lowest <= avg <= highest)%Q.
Proof.
  split; [reflexivity|].
  destruct (fare_stats_ordered passengers6 "What was the average ticket fare?"
              [Fin 7.25; Fin 71.2833; Fin 7.925; Fin 53.1; Fin 8.05;
               Fin 51.8625]%Q
              eq_refl eq_refl eq_refl eq_refl eq_refl eq_refl eq_refl
              eq_refl eq_refl eq_refl)
    as (avg & hi & lo & H & _ & _ & _ & Hb).
  { discriminate. }
  exists avg, hi, lo. split; assumption.
Defined.

(** ** Survival rates per group *)

Section GroupFacts.
Context {K : Type} (eqb : K -> K -> bool).
Context (eq_dec : forall x y : K, {x = y} + {x <> y}).
Hypothesis eqb_eq : forall x y, eqb x y = true <-> x = y.

Lemma group_of_length {V : Type} (k : K) (keys : list K) :
  forall vals : list V,
    List.length keys = List.length vals ->
    List.length (Pandas.group_of eqb k keys vals) = count_occ eq_dec keys k.
Proof.
  unfold Pandas.group_of.
  induction keys as [|a keys IH]; intros [|v vals] Hlen;
    try discriminate; [reflexivity|].
  cbn [combine filter fst]. injection Hlen as Hlen.
  destruct (eq_dec a k) as [->|Hne].
  - rewrite (eqb_same eqb eqb_eq), count_occ_cons_eq by reflexivity.
    cbn [map List.length]. rewrite IH by exact Hlen. reflexivity.
  - rewrite (eqb_diff eqb eqb_eq a k Hne), count_occ_cons_neq by exact Hne.
    apply IH, Hlen.
Qed.

Lemma group_of_Forall {V : Type} (P : V -> Prop) (k : K) (keys : list K)
  (vals : list V) :
  Forall P vals -> Forall P (Pandas.group_of eqb k keys vals).
Proof.
  intros Hall. rewrite Forall_forall in *. intros v Hin.
  unfold Pandas.group_of in Hin. apply in_map_iff in Hin.
  destruct Hin as ([k' v'] & <- & Hin). apply filter_In in Hin.
  destruct Hin as [Hin _]. apply in_combine_r in Hin. apply Hall, Hin.
Qed.

Lemma group_keys_NoDup (kleb : K -> K -> bool) (keys : list K) :
  NoDup (Pandas.group_keys eqb kleb keys).
Proof.
  unfold Pandas.group_keys.
  eapply Permutation_NoDup; [apply Permutation_sym, sort_perm|].
  apply (tally_NoDup eqb eq_dec eqb_eq).
Qed.

Lemma group_keys_In (kleb : K -> K -> bool) (keys : list K) (k : K) :
  In k (Pandas.group_keys eqb kleb keys) <-> In k keys.
Proof.
  unfold Pandas.group_keys. rewrite sort_In.
  apply (tally_keys eqb eq_dec eqb_eq).
Qed.

(** The bar of a group present in the data: a hundred times the survivors
    of the group over its size, between 0 and 100. *)
Lemma group_rate (k : K) (keys : list K) (survived : list Z) :
  List.length keys = List.length survived ->
  Forall (fun s => s = 0%Z \/ s = 1%Z) survived ->
  In k keys ->
  let rate :=
    (inject_Z (Pandas.sum_int (Pandas.group_of eqb k keys survived))
     / inject_Z (Z.of_nat (count_occ eq_dec keys k)) * 100)%Q in
  Pandas.scale 100 (Pandas.mean_int (Pandas.group_of eqb k keys survived))
  = Fin rate /\
  (0 <= rate)%Q /\ (rate <= 100)%Q.
Proof.
  intros Hlen Hflags Hin rate.
  pose proof (group_of_length k keys survived Hlen) as Hsize.
  pose proof (group_of_Forall _ k keys survived Hflags) as Hg.
  pose proof (sum_flags_bounds _ Hg) as Hb.
  assert (Hpos : (0 < count_occ eq_dec keys k)%nat)
    by (apply count_occ_In; exact Hin).
  rewrite Hsize in Hb.
  split.
  - unfold Pandas.mean_int, Pandas.len_Q.
    destruct (Pandas.group_of eqb k keys survived) as [|s g] eqn:Hgroup.
    + simpl in Hsize. lia.
    + rewrite Hsize. reflexivity.
  - apply percentage_bounds; lia.
Qed.

End GroupFacts.

Lemma sorted_three (l : list Z) :
  StronglySorted (fun a b => Z.leb a b = true) l ->
  NoDup l -> List.length l = 3%nat ->
  exists c1 c2 c3, l = [c1; c2; c3] /\ (c1 < c2)%Z /\ (c2 < c3)%Z.
Proof.
  intros Hs Hnd Hlen.
  destruct l as [|c1 [|c2 [|c3 [|c4 l]]]]; try discriminate.
  exists c1, c2, c3. split; [reflexivity|].
  inversion Hs as [|? ? Hs' H1]; subst.
  inversion Hs' as [|? ? _ H2]; subst.
  inversion H1 as [|? ? H12 _]; subst.
  inversion H2 as [|? ? H23 _]; subst.
  apply Z.leb_le in H12, H23.
  inversion Hnd as [|? ? Hn1 Hnd']; subst.
  inversion Hnd' as [|? ? Hn2 _]; subst.
  simpl in Hn1, Hn2.
  assert (c1 <> c2) by (intros ->; apply Hn1; left; reflexivity).
  assert (c2 <> c3) by (intros ->; apply Hn2; left; reflexivity).
  lia.
Qed.

(** X10. A query routed to the class bar chart, on a frame with exactly
    three distinct classes and 0/1 survival flags, gets the bars First,
    Second, Third for the three classes in ascending order: each bar is a
    hundred times the survivors of its class over the passengers of its
    class, a value between 0 and 100. *)
Theorem class_chart_rates (df : DataFrame) (q : string)
  (pclass survived : list Z) :
  Py.str_in "age distribution" (Py.lower q) = false ->
  Py.str_in "survival rate by class" (Py.lower q) = true ->
  Pclass df = Some pclass ->
  Survived df = Some survived ->
  List.length pclass = List.length survived ->
  Forall (fun s => s = 0%Z \/ s = 1%Z) survived ->
  List.length (nodup Z.eq_dec pclass) = 3%nat ->
  let rate c :=
    (inject_Z (Pandas.sum_int (Pandas.group_of Z.eqb c pclass survived))
     / inject_Z (Z.of_nat (count_occ Z.eq_dec pclass c)) * 100)%Q in
  exists c1 c2 c3 : Z,
    (c1 < c2)%Z /\ (c2 < c3)%Z /\
    (forall c, In c pclass <-> c = c1 \/ c = c2 \/ c = c3) /\
    create_visualization df q
    = Ok (Some (Bar ["First"; "Second"; "Third"]
                  [Fin (rate c1); Fin (rate c2); Fin (rate c3)]
                  "Survival Rate by Passenger Class")) /\
    Forall (fun c => (0 <= rate c)%Q /\ (rate c <= 100)%Q) [c1; c2; c3].
Proof.
  intros Hage Hrate Hp Hs Hlen Hflags H3 rate.
  assert (Hsorted : StronglySorted (fun a b => Z.leb a b = true)
                      (Pandas.group_keys Z.eqb Z.leb pclass)).
  { apply sort_sorted.
    - intros x y. rewrite !Z.leb_le. lia.
    - intros x y z. rewrite !Z.leb_le. lia. }
  destruct (sorted_three _ Hsorted
              (group_keys_NoDup Z.eqb Z.eq_dec Z.eqb_eq Z.leb pclass))
    as (c1 & c2 & c3 & Hkeys & H12 & H23).
  { rewrite (group_keys_length Z.eqb Z.leb Z.eq_dec Z.eqb_eq). exact H3. }
  assert (Hmem : forall c, In c pclass <-> c = c1 \/ c = c2 \/ c = c3).
  { intros c.
    rewrite <- (group_keys_In Z.eqb Z.eq_dec Z.eqb_eq Z.leb pclass c).
    rewrite Hkeys. simpl. intuition. }
  assert (Hr : forall c, In c pclass ->
             Pandas.scale 100
               (Pandas.mean_int (Pandas.group_of Z.eqb c pclass survived))
             = Fin (rate c) /\
             (0 <= rate c)%Q /\ (rate c <= 100)%Q).
  { intros c Hin.
    apply (group_rate Z.eqb Z.eq_dec Z.eqb_eq c pclass survived);
      assumption. }
  destruct (Hr c1) as (E1 & B1); [apply Hmem; auto|].
  destruct (Hr c2) as (E2 & B2); [apply Hmem; auto|].
  destruct (Hr c3) as (E3 & B3); [apply Hmem; auto|].
  exists c1, c2, c3. split; [exact H12|]. split; [exact H23|].
  split; [exact Hmem|]. split.
  - unfold create_visualization, create_visualization_body. cbv zeta.
    rewrite Hage, Hrate, Hp, Hs. cbv beta iota delta [bind getitem].
    rewrite groupby_values, Hkeys. cbn [map].
    rewrite E1, E2, E3. reflexivity.
  - repeat constructor; tauto.
Qed.

Lemma class_chart_rates_witness :
  Py.str_in "survival rate by class"
    (Py.lower "What was the survival rate by class?") = true /\
  exists c1 c2 c3 r1 r2 r3,
    (c1 < c2)%Z /\ (c2 < c3)%Z /\
    create_visualization passengers6 "What was the survival rate by class?"
    = Ok (Some (Bar ["First"; "Second"; "Third"] [Fin r1; Fin r2; Fin r3]
                  "Survival Rate by Passenger Class")).
Proof.
  split; [reflexivity|].
  destruct (class_chart_rates passengers6
              "What was the survival rate by class?"
              [3; 1; 3; 1; 3; 2]%Z [0; 1; 1; 1; 0; 0]%Z
              eq_refl eq_refl eq_refl eq_refl eq_refl)
    as (c1 & c2 & c3 & H12 & H23 & _ & H & _).
  - repeat constructor; (left; reflexivity) || (right; reflexivity).
  - reflexivity.
  - exists c1, c2, c3. do 3 eexists. split; [exact H12|].
    split; [exact H23 | exact H].
Defined.

(** X11. A query routed to the gender bar chart, on a frame with at least
    one row and 0/1 survival flags, gets one bar per distinct value of the
    [Sex] column, named by that value: each bar is a hundred times the
    survivors of the group over its size, a value between 0 and 100. *)
Theorem gender_chart_rates (df : DataFrame) (q : string)
  (sex : list string) (survived : list Z) :
  Py.str_in "age distribution" (Py.lower q) = false ->
  Py.str_in "survival rate by class" (Py.lower q) = false ->
  Py.str_in "pie chart" (Py.lower q) && Py.str_in "class" (Py.lower q)
  = false ->
  Py.str_in "survival" (Py.lower q) = true ->
  Py.str_in "gender" (Py.lower q) || Py.str_in "male" (Py.lower q)
  || Py.str_in "female" (Py.lower q) = true ->
  Sex df = Some sex ->
  Survived df = Some survived ->
  sex <> [] ->
  List.length sex = List.length survived ->
  Forall (fun s => s = 0%Z \/ s = 1%Z) survived ->
  let rate s :=
    (inject_Z (Pandas.sum_int (Pandas.group_of String.eqb s sex survived))
     / inject_Z (Z.of_nat (count_occ string_dec sex s)) * 100)%Q in
  exists sexes : list string,
    create_visualization df q
    = Ok (Some (Bar sexes (map (fun s => Fin (rate s)) sexes)
                  "Survival Rate by Gender")) /\
    NoDup sexes /\
    (forall s, In s sexes <-> In s sex) /\
    Forall (fun s => (0 <= rate s)%Q /\ (rate s <= 100)%Q) sexes.
Proof.
  intros Hage Hrate Hpie Hsurv Hgender Hx Hs Hne Hlen Hflags rate.
  exists (Pandas.group_keys String.eqb String.leb sex).
  assert (Hr : forall s, In s (Pandas.group_keys String.eqb String.leb sex) ->
             Pandas.scale 100
               (Pandas.mean_int (Pandas.group_of String.eqb s sex survived))
             = Fin (rate s) /\
             (0 <= rate s)%Q /\ (rate s <= 100)%Q).
  { intros s Hin.
    apply (group_rate String.eqb string_dec String.eqb_eq s sex survived);
      try assumption.
    apply (group_keys_In String.eqb string_dec String.eqb_eq String.leb).
    exact Hin. }
  split; [|split; [|split]].
  - unfold create_visualization, create_visualization_body. cbv zeta.
    rewrite Hage, Hrate, Hpie, Hsurv, Hgender, Hx, Hs.
    cbv beta iota delta [bind getitem andb].
    rewrite groupby_index by reflexivity. rewrite groupby_values.
    rewrite bar_same_length.
    2: { apply (group_keys_not_nil String.eqb String.leb string_dec
                  String.eqb_eq), Hne. }
    2: { rewrite length_map. reflexivity. }
    cbv beta iota delta [bind try_except].
    do 3 f_equal. apply map_ext_in. intros s Hin. apply Hr, Hin.
  - apply (group_keys_NoDup String.eqb string_dec String.eqb_eq).
  - intros s.
    apply (group_keys_In String.eqb string_dec String.eqb_eq String.leb).
  - apply Forall_forall. intros s Hin. apply Hr, Hin.
Qed.

Lemma gender_chart_rates_witness :
  Py.str_in "survival" (Py.lower compare_query) = true /\
  exists sexes rates,
    create_visualization passengers6 compare_query
    = Ok (Some (Bar sexes rates "Survival Rate by Gender")) /\
    (forall s, In s sexes <-> In s (["male"; "female"; "female"; "female";
                                     "male"; "male"])).
Proof.
  split; [reflexivity|].
  destruct (gender_chart_rates passengers6 compare_query
              ["male"; "female"; "female"; "female"; "male"; "male"]
              [0; 1; 1; 1; 0; 0]%Z
              eq_refl eq_refl eq_refl eq_refl eq_refl eq_refl eq_refl)
    as (sexes & H & _ & Hmem & _).
  - discriminate.
  - reflexivity.
  - repeat constructor; (left; reflexivity) || (right; reflexivity).
  - exists sexes. eexists. split; [exact H | exact Hmem].
Defined.

(** ** The frame preprocessing returns *)

(** What a successful run says about the table and its result. *)
Lemma load_table_Ok (raw df : DataFrame) :
  load_and_process_data (Table raw) = Ok df ->
  exists age embarked fare mode0 modes,
    Age raw = Some age /\ Embarked raw = Some embarked /\
    Fare raw = Some fare /\ Pandas.mode embarked = mode0 :: modes /\
    quartile_edges_distinct (impute fare) = true /\
    df = mkDataFrame (nrows raw) (Survived raw) (Pclass raw) (Sex raw)
           (Some (impute age)) (Some (impute fare))
           (Some (Pandas.fillna_obj embarked mode0))
           (Some (map age_group_of (impute age)))
           (Some (map (Pandas.bin_label
                         (fare_edges (Pandas.dropna (impute fare)))
                         fare_labels true)
                      (impute fare))).
Proof.
  rewrite load_table.
  destruct (Age raw) as [age|]; [|discriminate].
  destruct (Embarked raw) as [embarked|]; [|discriminate].
  destruct (Pandas.mode embarked) as [|mode0 modes] eqn:Hm; [discriminate|].
  destruct (Fare raw) as [fare|]; [|discriminate].
  destruct (quartile_edges_distinct (impute fare)) eqn:Hq; [|discriminate].
  intros H. injection H as <-.
  exists age, embarked, fare, mode0, modes.
  do 3 (split; [reflexivity|]). split; [exact Hm|].
  split; [exact Hq | reflexivity].
Qed.

Lemma quartile_edges_distinct_values (column : list float64) :
  quartile_edges_distinct column = true -> Pandas.dropna column <> [].
Proof.
  unfold quartile_edges_distinct.
  destruct (Pandas.dropna column); [discriminate | discriminate].
Qed.

Lemma impute_length (column : list float64) :
  List.length (impute column) = List.length column.
Proof. unfold impute, Pandas.fillna. apply length_map. Qed.

Lemma fillna_known (column : list float64) (value : float64) :
  Forall (fun c => exists x, c = Fin x) column ->
  Pandas.fillna column value = column.
Proof.
  intros Hall. unfold Pandas.fillna.
  rewrite <- (map_id column) at 2. apply map_ext_in.
  intros c Hin. rewrite Forall_forall in Hall.
  destruct (Hall c Hin) as (x & ->). reflexivity.
Qed.

Lemma impute_idempotent (column : list float64) :
  impute (impute column) = impute column.
Proof.
  destruct (Pandas.median column) as [|m] eqn:Hm.
  - assert (E : impute column = column)
      by (unfold impute; rewrite Hm; apply fillna_NaN).
    rewrite E. exact E.
  - unfold impute at 1. apply fillna_known.
    unfold impute. rewrite Hm. apply Forall_forall. intros c Hin.
    apply in_map_iff in Hin. destruct Hin as ([|x] & <- & _); eauto.
Qed.

Lemma fillna_obj_known {A : Type} (column : list (option A)) (value : A) :
  Forall (fun c => c <> None) column ->
  Pandas.fillna_obj column value = column.
Proof.
  intros Hall. unfold Pandas.fillna_obj.
  rewrite <- (map_id column) at 2. apply map_ext_in.
  intros [a|] Hin; [reflexivity|].
  rewrite Forall_forall in Hall. exfalso. apply (Hall None Hin). reflexivity.
Qed.

Lemma fillna_obj_filled {A : Type} (column : list (option A)) (value : A) :
  Forall (fun c => c <> None) (Pandas.fillna_obj column value).
Proof.
  apply Forall_forall. intros c Hin. unfold Pandas.fillna_obj in Hin.
  apply in_map_iff in Hin. destruct Hin as ([a|] & <- & _); discriminate.
Qed.

(** X12. In the frame preprocessing returns no fare and no embarkation
    port is missing, and no age is missing unless every age of the table
    was missing, in which case the [Age] column is the table's. *)
Theorem no_missing_after_load (raw df : DataFrame) :
  load_and_process_data (Table raw) = Ok df ->
  exists (age ages fares : list float64) (ports : list (option string)),
    Age raw = Some age /\ Age df = Some ages /\
    Fare df = Some fares /\ Embarked df = Some ports /\
    Forall (fun c => exists x, c = Fin x) fares /\
    Forall (fun c => exists port, c = Some port) ports /\
    (Pandas.dropna age <> [] ->
     Forall (fun c => exists x, c = Fin x) ages) /\
    (Pandas.dropna age = [] -> ages = age).
Proof.
  intros H.
  destruct (load_table_Ok raw df H)
    as (age & embarked & fare & mode0 & modes & Ha & He & Hf & Hm & Hq & ->).
  exists age, (impute age), (impute fare), (Pandas.fillna_obj embarked mode0).
  cbn [Age Fare Embarked].
  do 4 (split; [first [exact Ha | reflexivity]|]).
  split; [|split; [|split]].
  - apply impute_no_NaN, quartile_edges_distinct_values, Hq.
  - apply Forall_forall. intros c Hin. unfold Pandas.fillna_obj in Hin.
    apply in_map_iff in Hin. destruct Hin as ([a|] & <- & _); eauto.
  - intros Hne. apply impute_no_NaN.
    unfold impute. destruct (Pandas.median age) as [|m] eqn:Hmed.
    + apply median_NaN in Hmed. contradiction.
    + intros E. destruct (Pandas.dropna age) as [|x r] eqn:Hd; [congruence|].
      assert (Hin : In x (Pandas.dropna age)) by (rewrite Hd; left; reflexivity).
      unfold Pandas.dropna in Hin. apply in_flat_map in Hin.
      destruct Hin as ([|y] & Hin & Hy); [contradiction|].
      assert (Hin' : In (Fin y) (Pandas.fillna age (Fin m)))
        by (unfold Pandas.fillna; apply in_map_iff; exists (Fin y); auto).
      apply dropna_In in Hin'. rewrite E in Hin'. exact Hin'.
  - intros Hnone. unfold impute.
    destruct (Pandas.median age) as [|m] eqn:Hmed; [apply fillna_NaN|].
    exfalso. unfold Pandas.median in Hmed. cbv zeta in Hmed.
    rewrite sort_length, Hnone in Hmed. discriminate.
Qed.

Lemma no_missing_after_load_witness :
  exists (age ages fares : list float64) (ports : list (option string)),
    load_and_process_data (Table passengers6)
    = Ok (mkDataFrame 6 (Survived passengers6) (Pclass passengers6)
            (Sex passengers6) (Some ages) (Some fares) (Some ports)
            (Some [Some "Young Adult"; Some "Adult"; Some "Young Adult";
                   Some "Young Adult"; Some "Young Adult"; Some "Senior"])
            (Some [Some "Economy"; Some "Luxury"; Some "Economy";
                   Some "Luxury"; Some "Standard"; Some "Premium"])) /\
    Age passengers6 = Some age /\
    Forall (fun c => exists x, c = Fin x) fares /\
    Forall (fun c => exists port, c = Some port) ports /\
    (Pandas.dropna age <> [] -> Forall (fun c => exists x, c = Fin x) ages).
Proof.
  destruct (no_missing_after_load passengers6
              (mkDataFrame 6 (Survived passengers6) (Pclass passengers6)
                 (Sex passengers6)
                 (Some (impute [Fin 22; Fin 38; Fin 26; Fin 35; NaN;
                                Fin 54]%Q))
                 (Some (impute [Fin 7.25; Fin 71.2833; Fin 7.925; Fin 53.1;
                                Fin 8.05; Fin 51.8625]%Q))
                 (Some [Some "S"; Some "C"; Some "S"; Some "S"; Some "C";
                        Some "S"])
                 (Some [Some "Young Adult"; Some "Adult"; Some "Young Adult";
                        Some "Young Adult"; Some "Young Adult";
                        Some "Senior"])
                 (Some [Some "Economy"; Some "Luxury"; Some "Economy";
                        Some "Luxury"; Some "Standard"; Some "Premium"]))
              eq_refl)
    as (age & ages & fares & ports & Ha & Hages & Hf & He & H1 & H2 & H3 & _).
  exists age, ages, fares, ports.
  simpl in Hages, Hf, He.
  injection Hages as <-. injection Hf as <-. injection He as <-.
  split; [reflexivity|]. split; [exact Ha|]. split; [exact H1|].
  split; [exact H2 | exact H3].
Defined.

(** X13. Preprocessing changes nothing but the missing cells: the number
    of rows and the [Survived], [Pclass] and [Sex] columns are the
    table's; a known age, fare or port stays what it was; every missing
    age becomes the median age, every missing fare the median fare, every
    missing port one and the same port. Two columns are added, and if the
    table's columns all have one cell per row, so have the frame's. *)
Theorem load_keeps_known_values (raw df : DataFrame) :
  load_and_process_data (Table raw) = Ok df ->
  nrows df = nrows raw /\ Survived df = Survived raw /\
  Pclass df = Pclass raw /\ Sex df = Sex raw /\
  (exists age age',
      Age raw = Some age /\ Age df = Some age' /\
      Forall2 (fun before after =>
                 after = match before with
                         | NaN => Pandas.median age
                         | Fin _ => before
                         end) age age') /\
  (exists fare fare',
      Fare raw = Some fare /\ Fare df = Some fare' /\
      Forall2 (fun before after =>
                 after = match before with
                         | NaN => Pandas.median fare
                         | Fin _ => before
                         end) fare fare') /\
  (exists embarked embarked' fill,
      Embarked raw = Some embarked /\ Embarked df = Some embarked' /\
      Forall2 (fun before after =>
                 after = match before with
                         | None => Some fill
                         | Some _ => before
                         end) embarked embarked') /\
  AgeGroup df <> None /\ FareCategory df <> None /\
  (well_formed raw -> well_formed df).
Proof.
  intros H.
  destruct (load_table_Ok raw df H)
    as (age & embarked & fare & mode0 & modes & Ha & He & Hf & Hm & Hq & ->).
  cbn [nrows Survived Pclass Sex Age Fare Embarked AgeGroup FareCategory].
  do 4 (split; [reflexivity|]).
  split; [|split; [|split; [|split; [|split]]]].
  - exists age, (impute age). split; [exact Ha|]. split; [reflexivity|].
    apply Forall2_map_same. apply Forall_forall. intros [|x] _; reflexivity.
  - exists fare, (impute fare). split; [exact Hf|]. split; [reflexivity|].
    apply Forall2_map_same. apply Forall_forall. intros [|x] _; reflexivity.
  - exists embarked, (Pandas.fillna_obj embarked mode0), mode0.
    split; [exact He|]. split; [reflexivity|].
    apply Forall2_map_same. apply Forall_forall. intros [p|] _; reflexivity.
  - discriminate.
  - discriminate.
  - unfold well_formed.
    cbn [nrows Survived Pclass Sex Age Fare Embarked AgeGroup FareCategory].
    rewrite Ha, He, Hf.
    intros (H1 & H2 & H3 & H4 & H5 & H6 & _).
    simpl in H4, H5, H6. unfold has_len.
    repeat split; try assumption.
    + rewrite impute_length. exact H4.
    + rewrite impute_length. exact H5.
    + unfold Pandas.fillna_obj. rewrite length_map. exact H6.
    + rewrite length_map, impute_length. exact H4.
    + rewrite length_map, impute_length. exact H5.
Qed.

Lemma load_keeps_known_values_witness :
  exists df,
    load_and_process_data (Table passengers6) = Ok df /\
    nrows df = 6%nat /\ Survived df = Survived passengers6 /\
    well_formed df.
Proof.
  eexists. split; [vm_compute; reflexivity|].
  match goal with
  | |- nrows ?d = _ /\ _ =>
      destruct (load_keeps_known_values passengers6 d)
        as (H1 & H2 & _ & _ & _ & _ & _ & _ & _ & Hwf)
  end.
  - vm_compute. reflexivity.
  - split; [exact H1|]. split; [exact H2|].
    apply Hwf. repeat split.
Defined.

(** X14. Preprocessing is idempotent: run on a table that holds the
    columns of a frame it returned, it returns that frame again, with the
    same imputed cells, the same age groups and the same fare
    categories. *)
Theorem load_idempotent (raw df : DataFrame) :
  load_and_process_data (Table raw) = Ok df ->
  load_and_process_data (Table df) = Ok df.
Proof.
  intros H.
  destruct (load_table_Ok raw df H)
    as (age & embarked & fare & mode0 & modes & Ha & He & Hf & Hm & Hq & ->).
  rewrite load_table.
  cbn [nrows Survived Pclass Sex Age Fare Embarked].
  assert (Hfilled : Forall (fun c : option string => c <> None)
                      (Pandas.fillna_obj embarked mode0))
    by apply fillna_obj_filled.
  destruct (Pandas.mode (Pandas.fillna_obj embarked mode0))
    as [|mode1 modes1] eqn:Hm1.
  - exfalso. apply mode_nil_iff in Hm1.
    assert (Hne : Pandas.dropna_obj embarked <> []).
    { intros E. apply mode_nil_iff in E. congruence. }
    destruct (Pandas.dropna_obj embarked) as [|p r] eqn:Hd; [congruence|].
    assert (Hin : In (Some p) embarked).
    { apply dropna_obj_In. rewrite Hd. left. reflexivity. }
    assert (Hin' : In (Some p) (Pandas.fillna_obj embarked mode0)).
    { unfold Pandas.fillna_obj. apply in_map_iff.
      exists (Some p). split; [reflexivity | exact Hin]. }
    apply dropna_obj_In in Hin'. rewrite Hm1 in Hin'. exact Hin'.
  - rewrite !impute_idempotent, Hq.
    rewrite (fillna_obj_known _ mode1 Hfilled). reflexivity.
Qed.

Lemma load_idempotent_witness :
  exists df,
    load_and_process_data (Table passengers6) = Ok df /\
    load_and_process_data (Table df) = Ok df.
Proof.
  eexists. split; [vm_compute; reflexivity|].
  apply (load_idempotent passengers6). vm_compute. reflexivity.
Defined.

(** ** The values used to fill missing cells *)

(** X15. The median written into the missing cells of a column with a
    known value lies between the smallest and the largest known value,
    and it is itself a value of the column when the number of known
    values is odd. *)
Theorem median_within_range (column : list float64) :
  Pandas.dropna column <> [] ->
  exists m lo hi : Q,
    Pandas.median column = Fin m /\
    In lo (Pandas.dropna column) /\ In hi (Pandas.dropna column) /\
    (forall x, In x (Pandas.dropna column) -> (lo <= x <= hi)%Q) /\
    (lo <= m <= hi)%Q /\
    (Nat.even (List.length (Pandas.dropna column)) = false ->
     In m (Pandas.dropna column)).
Proof.
  intros Hne.
  destruct (column_statistics column Hne)
    as (_ & hi & lo & _ & _ & _ & Hhi & Hlo & Hb & _).
  set (a := Pandas.sort Qle_bool (Pandas.dropna column)).
  assert (Hlen : List.length a = List.length (Pandas.dropna column))
    by apply sort_length.
  assert (Hpos : (0 < List.length a)%nat).
  { rewrite Hlen. destruct (Pandas.dropna column); [congruence | simpl; lia]. }
  assert (Hnth : forall i, (i < List.length a)%nat ->
                   In (nth i a 0%Q) (Pandas.dropna column)).
  { intros i Hi. apply (sort_In Qle_bool). apply nth_In. exact Hi. }
  assert (Hhalf : (List.length a / 2 < List.length a)%nat)
    by (apply Nat.div_lt; lia).
  unfold Pandas.median. cbv zeta. fold a.
  destruct (List.length a) as [|n'] eqn:En; [lia|].
  rewrite <- En in *. rewrite <- Hlen.
  destruct (Nat.even (List.length a)) eqn:Heven.
  - pose proof (Hb _ (Hnth (List.length a / 2 - 1)%nat ltac:(lia))) as B1.
    pose proof (Hb _ (Hnth (List.length a / 2)%nat Hhalf)) as B2.
    eexists. exists lo, hi. split; [reflexivity|].
    split; [exact Hlo|]. split; [exact Hhi|]. split; [exact Hb|].
    split; [|discriminate].
    set (u := nth (List.length a / 2 - 1) a 0%Q) in *.
    set (w := nth (List.length a / 2) a 0%Q) in *.
    clearbody u w. unfold Qdiv. change (/ 2)%Q with (1 # 2)%Q. lra.
  - eexists. exists lo, hi. split; [reflexivity|].
    split; [exact Hlo|]. split; [exact Hhi|]. split; [exact Hb|].
    split; [apply Hb, Hnth, Hhalf|]. intros _. apply Hnth, Hhalf.
Qed.

Lemma median_within_range_witness :
  Pandas.dropna [Fin 22; Fin 38; Fin 26; Fin 35; NaN; Fin 54]%Q <> [] /\
  exists m lo hi : Q,
    Pandas.median [Fin 22; Fin 38; Fin 26; Fin 35; NaN; Fin 54]%Q = Fin m /\
    (lo <= m <= hi)%Q.
Proof.
  assert (H : Pandas.dropna [Fin 22; Fin 38; Fin 26; Fin 35; NaN; Fin 54]%Q
              <> []) by discriminate.
  split; [exact H|].
  destruct (median_within_range _ H) as (m & lo & hi & Hm & _ & _ & _ & Hb & _).
  exists m, lo, hi. split; assumption.
Defined.

Lemma string_compare_refl (a : string) : String.compare a a = Eq.
Proof.
  induction a as [|x a IH]; simpl; [reflexivity|].
  unfold Ascii.compare. rewrite N.compare_refl. exact IH.
Qed.

Lemma string_compare_trans (a : string) :
  forall b c : string,
    String.compare a b <> Gt -> String.compare b c <> Gt ->
    String.compare a c <> Gt.
Proof.
  induction a as [|x a IH]; intros [|y b] [|z c]; simpl;
    try congruence.
  destruct (Ascii.compare x y) eqn:Exy; try congruence;
    destruct (Ascii.compare y z) eqn:Eyz; try congruence; intros H1 H2.
  - apply Ascii.compare_eq_iff in Exy, Eyz. subst.
    unfold Ascii.compare. rewrite N.compare_refl. apply (IH b c H1 H2).
  - apply Ascii.compare_eq_iff in Exy. subst. rewrite Eyz. discriminate.
  - apply Ascii.compare_eq_iff in Eyz. subst. rewrite Exy. discriminate.
  - unfold Ascii.compare in *. apply N.compare_lt_iff in Exy, Eyz.
    assert (E : N.compare (N_of_ascii x) (N_of_ascii z) = Lt)
      by (apply N.compare_lt_iff; eapply N.lt_trans; eassumption).
    rewrite E. discriminate.
Qed.

Lemma string_leb_trans (a b c : string) :
  String.leb a b = true -> String.leb b c = true -> String.leb a c = true.
Proof.
  unfold String.leb. intros H1 H2.
  pose proof (string_compare_trans a b c) as H.
  destruct (String.compare a b); try discriminate;
    destruct (String.compare b c); try discriminate;
    destruct (String.compare a c); try reflexivity;
    exfalso; apply H; congruence.
Qed.

Lemma max_is_upper_bound (l : list nat) (n : nat) :
  In n l -> (n <= fold_right Nat.max 0%nat l)%nat.
Proof.
  induction l as [|x l IH]; simpl; [contradiction|].
  intros [->|Hin]; [lia|]. specialize (IH Hin). lia.
Qed.

(** X16. The port written into the missing [Embarked] cells is a port of
    the column, no port occurs more often, and among the ports that occur
    as often it is the first in string order. *)
Theorem mode_most_frequent (column : list (option string))
  (port : string) (others : list string) :
  Pandas.mode column = port :: others ->
  let count := count_occ string_dec (Pandas.dropna_obj column) in
  In (Some port) column /\
  (forall p, (count p <= count port)%nat) /\
  (forall p, In (Some p) column -> count p = count port ->
             String.leb port p = true).
Proof.
  intros Hmode count. unfold Pandas.mode in Hmode. cbv zeta in Hmode.
  set (t := Pandas.tally String.eqb (Pandas.dropna_obj column)) in *.
  set (top := fold_right Nat.max 0%nat (map snd t)) in *.
  assert (Hin_mode : forall p,
             In p (port :: others) <->
             In p (Pandas.dropna_obj column) /\ count p = top).
  { intros p. rewrite <- Hmode, sort_In, in_map_iff. split.
    - intros ([p' n] & Hp & Hin). simpl in Hp. subst p'.
      apply filter_In in Hin. destruct Hin as [Hin Hn].
      apply Nat.eqb_eq in Hn. simpl in Hn.
      apply (tally_In String.eqb string_dec String.eqb_eq) in Hin.
      destruct Hin as [Hc Hm]. split; [exact Hm|]. unfold count. lia.
    - intros [Hm Hc].
      apply (tally_keys String.eqb string_dec String.eqb_eq) in Hm.
      apply in_map_iff in Hm. destruct Hm as ([p' n] & Hp & Hin).
      simpl in Hp. subst p'. exists (p, n). split; [reflexivity|].
      apply filter_In. split; [exact Hin|]. apply Nat.eqb_eq. simpl.
      apply (tally_In String.eqb string_dec String.eqb_eq) in Hin.
      unfold count in Hc. lia. }
  destruct (proj1 (Hin_mode port) (or_introl eq_refl)) as [Hport Htop].
  split; [apply dropna_obj_In, Hport|]. split.
  - intros p. rewrite Htop.
    destruct (in_dec string_dec p (Pandas.dropna_obj column)) as [Hin|Hout].
    + apply (tally_keys String.eqb string_dec String.eqb_eq) in Hin.
      apply in_map_iff in Hin. destruct Hin as ([p' n] & Hp & Hin).
      simpl in Hp. subst p'.
      pose proof (tally_In String.eqb string_dec String.eqb_eq _ _ _ Hin)
        as [Hc _].
      unfold count. rewrite <- Hc. apply max_is_upper_bound.
      apply (in_map snd) in Hin. exact Hin.
    + unfold count. rewrite (count_occ_not_In string_dec) in Hout.
      rewrite Hout. lia.
  - intros p Hp Hc.
    assert (Hin : In p (port :: others)).
    { apply Hin_mode. split; [apply dropna_obj_In, Hp | lia]. }
    assert (Hs : StronglySorted (fun a b => String.leb a b = true)
                   (port :: others)).
    { rewrite <- Hmode. apply sort_sorted.
      - apply String.leb_total.
      - apply string_leb_trans. }
    destruct Hin as [<-|Hin].
    + unfold String.leb. rewrite string_compare_refl. reflexivity.
    + inversion Hs as [|? ? _ Hall]; subst.
      rewrite Forall_forall in Hall. apply Hall, Hin.
Qed.

Lemma mode_most_frequent_witness :
  Pandas.mode [Some "S"; Some "C"; None; Some "C"; Some "S"; Some "Q"]
  = ["C"; "S"] /\
  In (Some "C") [Some "S"; Some "C"; None; Some "C"; Some "S"; Some "Q"] /\
  String.leb "C" "S" = true.
Proof.
  split; [reflexivity|].
  destruct (mode_most_frequent
              [Some "S"; Some "C"; None; Some "C"; Some "S"; Some "Q"]
              "C" ["S"] eq_refl) as (H1 & _ & H3).
  split; [exact H1|]. apply H3; [simpl; tauto | reflexivity].
Defined.

(** ** Fare categories follow the fare *)

Lemma searchsorted_left_mono (bins : list Q) (x y : Q) :
  (x <= y)%Q ->
  (Pandas.searchsorted_left bins x <= Pandas.searchsorted_left bins y)%nat.
Proof.
  intros Hxy. induction bins as [|b bins IH]; simpl; [lia|].
  destruct (Qle_bool y b) eqn:Ey.
  - apply Qle_bool_iff in Ey. rewrite (Qle_bool_true x b) by lra. lia.
  - destruct (Qle_bool x b); lia.
Qed.

Lemma sorted_nth_mono (a : list Q) :
  StronglySorted (fun u w => Qle_bool u w = true) a ->
  forall i j, (i <= j)%nat -> (j < List.length a)%nat ->
              (nth i a 0 <= nth j a 0)%Q.
Proof.
  induction 1 as [|h t Hs IH Hall]; intros i j Hij Hj; simpl in Hj; [lia|].
  destruct i as [|i], j as [|j]; try lia.
  - simpl. lra.
  - simpl. rewrite Forall_forall in Hall. apply Qle_bool_iff, Hall.
    apply nth_In. lia.
  - simpl. apply IH; lia.
Qed.

(** A quantile never exceeds the largest value. *)
Lemma quantile_le_last (v : list Q) (p : Q) :
  v <> [] -> (0 <= p)%Q -> (p <= 1)%Q ->
  (Pandas.quantile v p
   <= nth (List.length v - 1) (Pandas.sort Qle_bool v) 0)%Q.
Proof.
  intros Hne Hp0 Hp1.
  assert (Hs : StronglySorted (fun u w => Qle_bool u w = true)
                 (Pandas.sort Qle_bool v))
    by (apply sort_sorted; [apply Qle_bool_total | apply Qle_bool_trans]).
  unfold Pandas.quantile. cbv zeta. rewrite sort_length.
  set (a := Pandas.sort Qle_bool v) in *.
  assert (Hlen : List.length a = List.length v) by apply sort_length.
  assert (Hn : (0 < List.length v)%nat)
    by (destruct v; [congruence | simpl; lia]).
  set (k := Z.of_nat (List.length v - 1)).
  set (pos := (p * inject_Z k)%Q).
  assert (Hk : (0 <= inject_Z k)%Q).
  { change 0%Q with (inject_Z 0). rewrite <- Zle_Qle. unfold k. lia. }
  assert (Hpos0 : (0 <= pos)%Q) by (apply Qmult_le_0_compat; assumption).
  assert (Hpos1 : (pos <= inject_Z k)%Q).
  { unfold pos. setoid_replace (inject_Z k) with (1 * inject_Z k)%Q at 2
      by ring.
    apply Qmult_le_compat_r; assumption. }
  assert (Hfl0 : (0 <= Qfloor pos)%Z).
  { change 0%Z with (Qfloor 0). apply Qfloor_resp_le, Hpos0. }
  assert (Hfl1 : (Qfloor pos <= k)%Z).
  { rewrite <- (Qfloor_Z k). apply Qfloor_resp_le, Hpos1. }
  set (lo := Z.to_nat (Qfloor pos)).
  assert (Hlo : (lo <= List.length v - 1)%nat) by (unfold lo, k in *; lia).
  set (hi := Nat.min (lo + 1) (List.length v - 1)).
  assert (Hhi : (lo <= hi)%nat /\ (hi <= List.length v - 1)%nat)
    by (unfold hi; lia).
  assert (Hfrac0 : (0 <= pos - inject_Z (Qfloor pos))%Q).
  { pose proof (Qfloor_le pos). lra. }
  assert (Hfrac1 : (pos - inject_Z (Qfloor pos) <= 1)%Q).
  { pose proof (Qlt_floor pos) as H. rewrite inject_Z_plus in H.
    change (inject_Z 1) with 1%Q in H. lra. }
  set (frac := (pos - inject_Z (Qfloor pos))%Q) in *.
  pose proof (sorted_nth_mono a Hs lo hi ltac:(lia) ltac:(lia)) as H1.
  pose proof (sorted_nth_mono a Hs hi (List.length v - 1)
                ltac:(lia) ltac:(lia)) as H2.
  set (alo := nth lo a 0%Q) in *.
  set (ahi := nth hi a 0%Q) in *.
  set (alast := nth (List.length v - 1) a 0%Q) in *.
  assert (Hprod : ((ahi - alo) * frac <= (ahi - alo) * 1)%Q).
  { rewrite (Qmult_comm (ahi - alo) frac), (Qmult_comm (ahi - alo) 1).
    apply Qmult_le_compat_r; [exact Hfrac1 | lra]. }
  clearbody alo ahi alast frac. lra.
Qed.

Lemma filter_full {A : Type} (f : A -> bool) (l : list A) :
  List.length (filter f l) = List.length l -> Forall (fun y => f y = true) l.
Proof.
  induction l as [|y r IH]; simpl; intros H; [constructor|].
  destruct (f y) eqn:E.
  - simpl in H. constructor; [exact E | apply IH; lia].
  - pose proof (filter_length_le f r). lia.
Qed.

Lemma filter_all {A : Type} (f : A -> bool) (l : list A) :
  Forall (fun y => f y = true) l -> filter f l = l.
Proof.
  induction 1 as [|y r Hy _ IH]; simpl; [reflexivity|].
  rewrite Hy, IH. reflexivity.
Qed.

(** When [unique] removes nothing, no two elements are equal. *)
Lemma unique_full {A : Type} (eqb : A -> A -> bool) (l : list A) :
  List.length (Pandas.unique eqb l) = List.length l ->
  Pandas.unique eqb l = l /\
  ForallOrdPairs (fun a b => eqb a b = false) l.
Proof.
  induction l as [|x r IH]; simpl; intros H.
  - split; [reflexivity | constructor].
  - pose proof (filter_length_le (fun y => negb (eqb x y))
                  (Pandas.unique eqb r)) as H1.
    pose proof (unique_length_le eqb r) as H2.
    destruct IH as [IHeq IHpairs]; [lia|].
    rewrite IHeq in *.
    assert (Hall : Forall (fun y => negb (eqb x y) = true) r)
      by (apply filter_full; lia).
    split.
    + rewrite (filter_all _ _ Hall). reflexivity.
    + constructor; [|exact IHpairs].
      eapply Forall_impl; [|exact Hall].
      intros y Hy. apply negb_true_iff in Hy. exact Hy.
Qed.

(** The bin of a value among five edges, the outer two being the smallest
    and the largest value of the data. *)
Lemma bin_id_facts (D : Q -> Prop) (e0 e1 e2 e3 e4 : Q) :
  (forall x, D x -> (e0 <= x <= e4)%Q) ->
  let id := Pandas.bin_id [e0; e1; e2; e3; e4] true in
  (forall x, D x ->
     (1 <= id x <= 4)%nat /\
     Pandas.bin_label [e0; e1; e2; e3; e4] fare_labels true (Fin x)
     = nth_error fare_labels (id x - 1)) /\
  (forall x y, D x -> D y -> (x <= y)%Q -> (id x <= id y)%nat) /\
  (forall x, D x -> (x == e0)%Q -> id x = 1%nat) /\
  (forall x, D x -> (x == e4)%Q ->
     (e1 < e4)%Q -> (e2 < e4)%Q -> (e3 < e4)%Q -> (e0 < e4)%Q ->
     id x = 4%nat).
Proof.
  intros Hb id.
  assert (Hid : forall x,
             id x = if Qeq_bool x e0 then 1%nat
                    else Pandas.searchsorted_left [e0; e1; e2; e3; e4] x)
    by reflexivity.
  assert (Hrange : forall x, D x -> (1 <= id x <= 4)%nat).
  { intros x Hx. rewrite Hid. destruct (Hb x Hx) as [Hlo Hhi].
    destruct (Qeq_bool x e0) eqn:E0; [lia|].
    apply Qeq_bool_neq in E0. cbn [Pandas.searchsorted_left].
    rewrite (Qle_bool_false x e0) by lra.
    rewrite (Qle_bool_true x e4 Hhi).
    destruct (Qle_bool x e1); [lia|].
    destruct (Qle_bool x e2); [lia|].
    destruct (Qle_bool x e3); lia. }
  split; [|split; [|split]].
  - intros x Hx. split; [apply Hrange, Hx|].
    pose proof (Hrange x Hx) as Hr.
    unfold Pandas.bin_label. fold (id x).
    destruct (Nat.eqb_spec (id x) (List.length [e0; e1; e2; e3; e4]))
      as [E|_]; [simpl in E; lia|].
    destruct (Nat.eqb_spec (id x) 0) as [E|_]; [lia | reflexivity].
  - intros x y Hx Hy Hxy. rewrite (Hid x), (Hid y).
    destruct (Hb x Hx) as [Hlo _].
    destruct (Qeq_bool x e0) eqn:Ex.
    + pose proof (Hrange y Hy) as Hr. rewrite Hid in Hr. lia.
    + apply Qeq_bool_neq in Ex.
      destruct (Qeq_bool y e0) eqn:Ey.
      * apply Qeq_bool_iff in Ey. lra.
      * apply searchsorted_left_mono, Hxy.
  - intros x Hx E. rewrite Hid. rewrite (Qeq_eq_bool _ _ E). reflexivity.
  - intros x Hx E H1 H2 H3 H0. rewrite Hid.
    destruct (Qeq_bool x e0) eqn:E0.
    + apply Qeq_bool_iff in E0. lra.
    + cbn [Pandas.searchsorted_left].
      rewrite (Qle_bool_false x e0), (Qle_bool_false x e1),
        (Qle_bool_false x e2), (Qle_bool_false x e3) by lra.
      rewrite (Qle_bool_true x e4) by lra. reflexivity.
Qed.

(** X17. In the frame preprocessing returns, the fare category follows
    the fare: every record has one of the four categories; of two
    records the one with the higher fare never has the cheaper category;
    the records with the lowest fare are Economy and those with the
    highest fare are Luxury. *)
Theorem fare_category_follows_fare (raw df : DataFrame) :
  load_and_process_data (Table raw) = Ok df ->
  exists (fares : list float64) (categories : list (option string))
         (rank : Q -> nat),
    Fare df = Some fares /\ FareCategory df = Some categories /\
    Forall2 (fun fare category =>
               exists x, fare = Fin x /\ (rank x < 4)%nat /\
                         category = nth_error fare_labels (rank x))
            fares categories /\
    (forall x y, In (Fin x) fares -> In (Fin y) fares -> (x <= y)%Q ->
                 (rank x <= rank y)%nat) /\
    (forall x, In (Fin x) fares ->
               (forall y, In (Fin y) fares -> (x <= y)%Q) ->
               nth_error fare_labels (rank x) = Some "Economy") /\
    (forall x, In (Fin x) fares ->
               (forall y, In (Fin y) fares -> (y <= x)%Q) ->
               nth_error fare_labels (rank x) = Some "Luxury").
Proof.
  intros H.
  destruct (load_table_Ok raw df H)
    as (age & embarked & fare & mode0 & modes & Ha & He & Hf & Hm & Hq & ->).
  cbn [Fare FareCategory].
  set (fares := impute fare) in *.
  set (v := Pandas.dropna fares) in *.
  assert (Hv : v <> []) by (apply quartile_edges_distinct_values, Hq).
  assert (Hknown : Forall (fun c => exists x, c = Fin x) fares)
    by (apply impute_no_NaN, Hv).
  assert (Hdistinct : List.length (Pandas.unique Qeq_bool (fare_edges v))
                      = 5%nat).
  { unfold quartile_edges_distinct in Hq. fold v in Hq.
    destruct v; [congruence|]. apply Nat.eqb_eq, Hq. }
  assert (Hs : StronglySorted (fun a b => Qle_bool a b = true)
                 (Pandas.sort Qle_bool v))
    by (apply sort_sorted; [apply Qle_bool_total | apply Qle_bool_trans]).
  assert (Hn : (0 < List.length v)%nat)
    by (destruct v; [congruence | simpl; lia]).
  set (first := nth 0 (Pandas.sort Qle_bool v) 0%Q).
  set (last := nth (List.length v - 1) (Pandas.sort Qle_bool v) 0%Q).
  assert (Hfirst : In first v).
  { apply (sort_In Qle_bool). apply nth_In. rewrite sort_length. exact Hn. }
  assert (Hlast : In last v).
  { apply (sort_In Qle_bool). apply nth_In. rewrite sort_length. lia. }
  assert (Hbounds : forall x, In x v -> (first <= x <= last)%Q).
  { intros x Hx. apply (sort_In Qle_bool) in Hx. split.
    - apply sorted_first_le; assumption.
    - unfold last. rewrite <- (sort_length Qle_bool v).
      apply sorted_le_last; assumption. }
  pose proof (unique_full Qeq_bool (fare_edges v)) as Hpairs.
  rewrite fare_edges_length in Hpairs. destruct (Hpairs Hdistinct) as [_ Hp].
  clear Hpairs. revert Hp. unfold fare_edges.
  change (Pandas.linspace01 4) with [0 # 4; 1 # 4; 2 # 4; 3 # 4; 4 # 4]%Q.
  cbn [map].
  pose proof (quantile_first v (0 # 4) ltac:(reflexivity)) as E0.
  pose proof (quantile_last v (4 # 4) ltac:(reflexivity)) as E4.
  pose proof (quantile_le_last v (1 # 4) Hv ltac:(discriminate)
                ltac:(discriminate)) as L1.
  pose proof (quantile_le_last v (2 # 4) Hv ltac:(discriminate)
                ltac:(discriminate)) as L2.
  pose proof (quantile_le_last v (3 # 4) Hv ltac:(discriminate)
                ltac:(discriminate)) as L3.
  fold first in E0. fold last in E4, L1, L2, L3.
  set (e0 := Pandas.quantile v (0 # 4)) in *.
  set (e1 := Pandas.quantile v (1 # 4)) in *.
  set (e2 := Pandas.quantile v (2 # 4)) in *.
  set (e3 := Pandas.quantile v (3 # 4)) in *.
  set (e4 := Pandas.quantile v (4 # 4)) in *.
  intros Hp.
  assert (Hne : ~ (e0 == e4)%Q /\ ~ (e1 == e4)%Q /\ ~ (e2 == e4)%Q /\
                ~ (e3 == e4)%Q).
  { inversion Hp as [|? ? F0 Hp1]; subst.
    inversion Hp1 as [|? ? F1 Hp2]; subst.
    inversion Hp2 as [|? ? F2 Hp3]; subst.
    inversion Hp3 as [|? ? F3 _]; subst.
    rewrite !Forall_forall in *.
    repeat split; apply Qeq_bool_neq;
      [apply F0 | apply F1 | apply F2 | apply F3]; simpl; tauto. }
  destruct Hne as (N0 & N1 & N2 & N3).
  assert (Hb : forall x, In x v -> (e0 <= x <= e4)%Q).
  { intros x Hx. destruct (Hbounds x Hx). lra. }
  destruct (bin_id_facts (fun x => In x v) e0 e1 e2 e3 e4 Hb)
    as (F1 & F2 & F3 & F4).
  clearbody e0 e1 e2 e3 e4.
  exists fares, (map (Pandas.bin_label [e0; e1; e2; e3; e4] fare_labels true)
                 fares),
         (fun x => Pandas.bin_id [e0; e1; e2; e3; e4] true x - 1)%nat.
  split; [reflexivity|]. split; [reflexivity|].
  assert (Hdata : forall x, In (Fin x) fares -> In x v)
    by (intros x Hx; apply dropna_In, Hx).
  split; [|split; [|split]].
  - apply Forall2_map_same. rewrite Forall_forall in *.
    intros c Hc. destruct (Hknown c Hc) as (x & ->).
    destruct (F1 x (Hdata x Hc)) as [Hr Hl].
    exists x. split; [reflexivity|]. split; [lia | exact Hl].
  - intros x y Hx Hy Hxy.
    pose proof (F2 x y (Hdata x Hx) (Hdata y Hy) Hxy). lia.
  - intros x Hx Hmin.
    assert (E : (x == e0)%Q).
    { destruct (Hbounds x (Hdata x Hx)) as [Hlo _].
      assert (Hin : In (Fin first) fares).
      { unfold v, Pandas.dropna in Hfirst. apply in_flat_map in Hfirst.
        destruct Hfirst as ([|z] & Hz & Hz'); [contradiction|].
        destruct Hz' as [->|[]]. exact Hz. }
      pose proof (Hmin first Hin). lra. }
    rewrite (F3 x (Hdata x Hx) E). reflexivity.
  - intros x Hx Hmax.
    assert (E : (x == e4)%Q).
    { destruct (Hbounds x (Hdata x Hx)) as [_ Hhi].
      assert (Hin : In (Fin last) fares).
      { unfold v, Pandas.dropna in Hlast. apply in_flat_map in Hlast.
        destruct Hlast as ([|z] & Hz & Hz'); [contradiction|].
        destruct Hz' as [->|[]]. exact Hz. }
      pose proof (Hmax last Hin). lra. }
    destruct (Hbounds first Hfirst) as [_ Hfl].
    rewrite (F4 x (Hdata x Hx) E); [reflexivity | lra | lra | lra | lra].
Qed.

Lemma fare_category_follows_fare_witness :
  exists df (fares : list float64) (categories : list (option string))
         (rank : Q -> nat),
    load_and_process_data (Table passengers6) = Ok df /\
    Fare df = Some fares /\ FareCategory df = Some categories /\
    (forall x y, In (Fin x) fares -> In (Fin y) fares -> (x <= y)%Q ->
                 (rank x <= rank y)%nat).
Proof.
  eexists.
  match goal with
  | |- exists f c r, load_and_process_data _ = Ok ?d /\ _ =>
      assert (Hload : load_and_process_data (Table passengers6) = Ok d)
        by (vm_compute; reflexivity);
      destruct (fare_category_follows_fare passengers6 d Hload)
        as (fares & categories & rank & Hf & Hc & _ & Hmono & _)
  end.
  exists fares, categories, rank. split; [exact Hload|].
  split; [exact Hf|]. split; [exact Hc | exact Hmono].
Defined.

(** ** What a complete frame rules out *)

(** X18. On a frame with all six columns and at least one row
    [process_query] never answers with the apology, whatever the query.
    (On a frame without rows the survival count divides by zero and the
    apology is the answer.) *)
Theorem no_apology_on_complete_frame (df : DataFrame) (q : string) :
  schema_complete df ->
  (0 < nrows df)%nat ->
  TitanicAgent.process_query df q <> Ok apology.
Proof.
  intros (Hs & Hp & Hx & Ha & Hf & He) Hrows.
  destruct (Survived df) as [survived|] eqn:Esv; [|congruence].
  destruct (Pclass df) as [pclass|] eqn:Epc; [|congruence].
  destruct (Sex df) as [sex|] eqn:Esex; [|congruence].
  destruct (Age df) as [age|] eqn:Eage; [|congruence].
  destruct (Fare df) as [fare|] eqn:Efare; [|congruence].
  destruct (Embarked df) as [embarked|] eqn:Eemb; [|congruence].
  unfold TitanicAgent.process_query, TitanicAgent.process_query_body.
  cbv zeta.
  destruct (Py.str_in "survived" (Py.lower q)).
  { rewrite Esv. reduce_calls. unfold true_divide.
    destruct (Z.eqb_spec (Z.of_nat (nrows df)) 0) as [E|_]; [lia|].
    simpl. intros H. inversion H. }
  destruct (Py.str_in "average age" (Py.lower q)).
  { rewrite Eage. simpl. intros H. inversion H. }
  destruct (Py.str_in "male" (Py.lower q) || Py.str_in "female" (Py.lower q)
            || Py.str_in "gender" (Py.lower q)).
  { rewrite Esex. simpl. intros H. inversion H. }
  destruct (Py.str_in "class" (Py.lower q)
            && negb (Py.any_in chart_terms (Py.lower q))).
  { rewrite Epc. simpl. intros H. inversion H. }
  destruct (Py.str_in "embarked" (Py.lower q)
            || Py.str_in "port" (Py.lower q)).
  { rewrite Eemb. simpl. rewrite fold_left_app_flat_map. simpl.
    intros H. inversion H. }
  destruct (Py.str_in "fare" (Py.lower q)
            && negb (Py.any_in chart_terms (Py.lower q))).
  { rewrite Efare. simpl. intros H. inversion H. }
  simpl. intros H. inversion H.
Qed.

Lemma no_apology_on_complete_frame_witness :
  schema_complete passengers6 /\ (0 < nrows passengers6)%nat /\
  TitanicAgent.process_query passengers6 "How many passengers survived?"
  <> Ok apology.
Proof.
  assert (H : schema_complete passengers6)
    by (repeat split; discriminate).
  assert (Hrows : (0 < nrows passengers6)%nat) by (simpl; lia).
  split; [exact H|]. split; [exact Hrows|].
  apply (no_apology_on_complete_frame passengers6
           "How many passengers survived?" H Hrows).
Defined.

(** The frame of a file with a header and no row: the survival count
    divides by zero and the answer is the apology. *)
Example apology_on_empty_frame :
  TitanicAgent.process_query
    (mkDataFrame 0 (Some []) (Some []) (Some []) (Some []) (Some [])
       (Some []) None None)
    "How many passengers survived?"
  = Ok apology.
Proof. reflexivity. Qed.

(** X19. On a frame with all six columns, one cell per row in each of
    them, and exactly three distinct passenger classes, the builder
    returns no figure only when no chart rule matches the query: a matched
    rule always yields its chart. *)
Theorem no_chart_iff_no_rule (df : DataFrame) (q : string) (pclass : list Z) :
  schema_complete df ->
  well_formed df ->
  Pclass df = Some pclass ->
  List.length (nodup Z.eq_dec pclass) = 3%nat ->
  (create_visualization df q = Ok None <->
   Py.str_in "age distribution" (Py.lower q) = false /\
   Py.str_in "survival rate by class" (Py.lower q) = false /\
   Py.str_in "pie chart" (Py.lower q) && Py.str_in "class" (Py.lower q)
   = false /\
   Py.str_in "survival" (Py.lower q)
   && (Py.str_in "gender" (Py.lower q) || Py.str_in "male" (Py.lower q)
       || Py.str_in "female" (Py.lower q)) = false).
Proof.
  intros (Hs & _ & Hx & Ha & _ & _) Hwf Hp H3.
  destruct (Survived df) as [survived|] eqn:Es; [|congruence].
  destruct (Sex df) as [sex|] eqn:Esex; [|congruence].
  destruct (Age df) as [age|] eqn:Eage; [|congruence].
  assert (Hsex : sex <> []).
  { destruct Hwf as (_ & Hlp & Hlx & _). rewrite Hp in Hlp.
    rewrite Esex in Hlx. simpl in Hlp, Hlx.
    intros ->. simpl in Hlx. rewrite <- Hlx in Hlp.
    apply length_zero_iff_nil in Hlp. subst pclass. discriminate H3. }
  unfold create_visualization, create_visualization_body. cbv zeta.
  rewrite Eage, Hp, Es, Esex. cbv beta iota delta [bind getitem Px.histogram].
  destruct (Py.str_in "age distribution" (Py.lower q)).
  { simpl. split; [discriminate | intros (H & _); discriminate]. }
  destruct (Py.str_in "survival rate by class" (Py.lower q)).
  { rewrite groupby_values. rewrite bar_same_length.
    - simpl. split; [discriminate | intros (_ & H & _); discriminate].
    - discriminate.
    - rewrite length_map.
      rewrite (group_keys_length Z.eqb Z.leb Z.eq_dec Z.eqb_eq), H3.
      reflexivity. }
  destruct (Py.str_in "pie chart" (Py.lower q)
            && Py.str_in "class" (Py.lower q)).
  { unfold Px.pie, Pandas.values. rewrite length_map.
    rewrite (value_counts_length Z.eqb Z.eq_dec Z.eqb_eq), H3.
    simpl. split; [discriminate | intros (_ & _ & H & _); discriminate]. }
  destruct (Py.str_in "survival" (Py.lower q)
            && (Py.str_in "gender" (Py.lower q)
                || Py.str_in "male" (Py.lower q)
                || Py.str_in "female" (Py.lower q))).
  { rewrite groupby_index by reflexivity. rewrite groupby_values.
    rewrite bar_same_length.
    - simpl. split; [discriminate | intros (_ & _ & _ & H); discriminate].
    - apply (group_keys_not_nil String.eqb String.leb string_dec
               String.eqb_eq), Hsex.
    - rewrite length_map. reflexivity. }
  simpl. split; [intros _; repeat split | reflexivity].
Qed.

Lemma no_chart_iff_no_rule_witness :
  schema_complete passengers6 /\
  well_formed passengers6 /\
  create_visualization passengers6 fare_by_class_query = Ok None.
Proof.
  assert (H : schema_complete passengers6)
    by (repeat split; discriminate).
  assert (W : well_formed passengers6) by (repeat split).
  split; [exact H|]. split; [exact W|].
  apply (no_chart_iff_no_rule passengers6 fare_by_class_query
           [3; 1; 3; 1; 3; 2]%Z H W eq_refl eq_refl).
  repeat split.
Defined.

(** X20. A query that holds "class" and one of show, plot, chart, graph
    never gets the class breakdown as its text, whatever the frame. *)
Theorem class_chart_query_no_class_stats (df : DataFrame) (q : string) :
  Py.str_in "class" (Py.lower q) = true ->
  Py.any_in chart_terms (Py.lower q) = true ->
  forall c1 c2 c3,
    TitanicAgent.process_query df q <> Ok (class_text c1 c2 c3).
Proof.
  intros Hclass Hchart c1 c2 c3.
  unfold TitanicAgent.process_query, TitanicAgent.process_query_body.
  cbv zeta. rewrite Hclass, Hchart.
  destruct (Py.str_in "survived" (Py.lower q)).
  { destruct (Survived df); simpl;
      [destruct (true_divide _ _); simpl|]; intros H; inversion H. }
  destruct (Py.str_in "average age" (Py.lower q)).
  { destruct (Age df); simpl; intros H; inversion H. }
  destruct (Py.str_in "male" (Py.lower q) || Py.str_in "female" (Py.lower q)
            || Py.str_in "gender" (Py.lower q)).
  { destruct (Sex df); simpl; intros H; inversion H. }
  cbn [negb andb].
  destruct (Py.str_in "embarked" (Py.lower q)
            || Py.str_in "port" (Py.lower q)).
  { destruct (Embarked df); simpl; intros H; [|inversion H].
    rewrite fold_left_app_flat_map in H. simpl in H. inversion H. }
  rewrite andb_false_r. simpl. intros H. inversion H.
Qed.

Lemma class_chart_query_no_class_stats_witness :
  Py.str_in "class" (Py.lower pie_query) = true /\
  Py.any_in chart_terms (Py.lower pie_query) = true /\
  TitanicAgent.process_query passengers6 pie_query <> Ok (class_text 2 1 3).
Proof.
  split; [reflexivity|]. split; [reflexivity|].
  apply (class_chart_query_no_class_stats passengers6 pie_query
           eq_refl eq_refl).
Defined.

(** ** Age groups follow the age *)

Lemma age_bin_rank (x : Q) :
  (0 < x)%Q -> (x <= 100)%Q ->
  let id := Pandas.searchsorted_left age_bins x in
  (1 <= id <= 6)%nat /\
  age_group_of (Fin x) = nth_error age_labels (id - 1).
Proof.
  intros H0 H100. unfold age_group_of, age_bins.
  cbn [Pandas.searchsorted_left].
  rewrite (Qle_bool_false x 0) by lra.
  rewrite (Qle_bool_true x 100) by lra.
  destruct (Qle_bool x 12); [split; [lia | reflexivity]|].
  destruct (Qle_bool x 18); [split; [lia | reflexivity]|].
  destruct (Qle_bool x 35); [split; [lia | reflexivity]|].
  destruct (Qle_bool x 50); [split; [lia | reflexivity]|].
  destruct (Qle_bool x 65); split; first [lia | reflexivity].
Qed.

(** X21. With the program's edges and labels, [cut] puts two ages between
    0 (excluded) and 100 in groups that follow the ages: the older
    passenger is in the same group as the younger one or in a later one,
    in the order Child, Teen, Young Adult, Adult, Senior, Elderly. *)
Theorem age_group_follows_age (a b : Q) :
  (0 < a)%Q -> (a <= b)%Q -> (b <= 100)%Q ->
  exists i j : nat,
    (i <= j)%nat /\ (j < 6)%nat /\
    Pandas.cut [Fin a; Fin b] age_bins age_labels
    = Ok [nth_error age_labels i; nth_error age_labels j].
Proof.
  intros H0 Hab H100.
  destruct (age_bin_rank a ltac:(lra) ltac:(lra)) as [Ra Ea].
  destruct (age_bin_rank b ltac:(lra) ltac:(lra)) as [Rb Eb].
  pose proof (searchsorted_left_mono age_bins a b Hab) as Hm.
  exists (Pandas.searchsorted_left age_bins a - 1)%nat,
         (Pandas.searchsorted_left age_bins b - 1)%nat.
  split; [lia|]. split; [lia|].
  rewrite cut_age. cbn [map]. rewrite Ea, Eb. reflexivity.
Qed.

Lemma age_group_follows_age_witness :
  (0 < 12)%Q /\ (12 <= 35.5)%Q /\ (35.5 <= 100)%Q /\
  exists i j : nat,
    (i <= j)%nat /\ (j < 6)%nat /\
    Pandas.cut [Fin 12; Fin 35.5]%Q age_bins age_labels
    = Ok [nth_error age_labels i; nth_error age_labels j].
Proof.
  assert (H1 : (0 < 12)%Q) by reflexivity.
  assert (H2 : (12 <= 35.5)%Q) by discriminate.
  assert (H3 : (35.5 <= 100)%Q) by discriminate.
  split; [exact H1|]. split; [exact H2|]. split; [exact H3|].
  apply (age_group_follows_age 12 35.5 H1 H2 H3).
Defined.
